(** * RTDM driver library: task, timeout-sequence and synchronisation services

    Shallow embedding of [ksrc/skins/rtdm/drvlib.c].  The services of the
    real-time nucleus that the driver library calls (thread suspension and
    wake-up, wait queues, the clock) are not part of that file; they are
    modelled here from the specification, each under a comment that says
    so.  Constants of the nucleus headers are fields of the class
    [Nucleus]. *)

From Stdlib Require Import ZArith List Bool Lia.
Import ListNotations.
Local Open Scope Z_scope.

(** ** Machine integers *)

(** Conversion of a mathematical integer to a two's complement [w]-bit
    signed value. *)
Definition wrap_signed (w z : Z) : Z := (z + 2 ^ (w - 1)) mod 2 ^ w - 2 ^ (w - 1).

(** Conversion to a [w]-bit unsigned value. *)
Definition wrap_unsigned (w z : Z) : Z := z mod 2 ^ w.

(** [int64_t] and [xnsticks_t] are 64-bit signed. *)
Definition int64_t (z : Z) : Z := wrap_signed 64 z.

(** ** Flag words

    Modelled from the spec: [testbits], [setbits] and [clrbits], the macros
    of the nucleus headers behind the "status bit field": a test holds when
    a bit of the mask is set in the word. *)

Definition testbits (flags mask : Z) : bool := negb (Z.land flags mask =? 0).
Definition setbits (flags mask : Z) : Z := Z.lor flags mask.
Definition clrbits (flags mask : Z) : Z := Z.land flags (Z.lnot mask).

(** ** Result codes

    The services return [0] or a negated errno value; the errno numbers
    come from the host kernel, so the codes are kept symbolic. *)

Inductive errno : Type := EPERM | EINTR | EWOULDBLOCK | EIDRM | ETIMEDOUT.

Inductive retval : Type :=
| ok : retval                   (* 0 *)
| neg : errno -> retval.        (* -errno *)

(** ** Nucleus headers *)

(** Constants, configuration switches and the tick conversion of the
    nucleus, which [drvlib.c] uses and does not define. *)
Class Nucleus : Type := {
  XNTIMEO : Z;                  (* thread woken by its timer *)
  XNRMID : Z;                   (* thread woken because the object was deleted *)
  XNBREAK : Z;                  (* thread forcibly unblocked *)
  XNSYNCH_SPARE0 : Z;           (* first free bit of a synch status word *)
  RTDM_EVENT_PENDING : Z;       (* event state bit of an RTDM event *)
  BITS_PER_LONG : Z;            (* width of [unsigned long] *)
  XENO_DEBUG_RTDM : bool;       (* whether XENO_ASSERT(RTDM, ...) is compiled in *)
  xnpod_ns2ticks : Z -> Z       (* nanoseconds to nucleus ticks *)
}.

(** Modelled from the spec: [XN_INFINITE], the nucleus constant for "no
    timeout" and "no period" ("0 = infinite", "period (0 = non-periodic)"). *)
Definition XN_INFINITE : Z := 0.

(** What [xnsynch_flush] reports: nothing to do, or a thread was resumed
    and the scheduler has to run. *)
Inductive xnsynch_flush_status : Type := XNSYNCH_DONE | XNSYNCH_RESCHED.

Definition tid : Type := nat.

(** Modelled from the spec: the scheduling state of a task, which is
    runnable, or suspended, with the absolute tick at which its timer fires
    when the wait is bounded. *)
Inductive xnwait : Type :=
| Ready : xnwait
| Waiting : option Z -> xnwait.

(** Modelled from the spec: the nucleus thread, as far as the driver library
    reads it: the wake reasons it was tagged with, and whether it is
    suspended. *)
Record xnthread_t : Type := mk_thread {
  thread_status : Z;            (* the XNTIMEO / XNRMID / XNBREAK information bits *)
  thread_wait : xnwait
}.

(** Modelled from the spec: the synch base embedded in every primitive, "a
    wait queue of blocked tasks plus a status word", and the owner
    reference used by the mutex. *)
Record xnsynch_t : Type := mk_synch {
  status : Z;
  owner : option tid;
  pendq : list tid
}.

(** Modelled from the spec: the scheduler, as far as the driver library
    sees it: the clock and the threads. *)
Record nkpod : Type := mk_pod {
  jiffies : Z;                  (* the nucleus clock, in ticks *)
  threads : tid -> xnthread_t;
  nresched : nat                (* number of calls to xnpod_schedule *)
}.

Definition is_waiting (th : xnthread_t) : bool :=
  match thread_wait th with Ready => false | Waiting _ => true end.

Definition set_thread (t : tid) (th : xnthread_t) (pod : nkpod) : nkpod :=
  mk_pod (jiffies pod)
         (fun u => if Nat.eqb u t then th else threads pod u)
         (nresched pod).

Section Drvlib.

Context {nk : Nucleus}.

(** #define RTDM_SYNCH_DELETED XNSYNCH_SPARE0 *)
Definition RTDM_SYNCH_DELETED : Z := XNSYNCH_SPARE0.

(** [unsigned long] arithmetic. *)
Definition ulong (z : Z) : Z := wrap_unsigned BITS_PER_LONG z.

(** ** The nucleus services used by the driver library *)

(** Modelled from the spec: [xnpod_get_time], "read current time". *)
Definition xnpod_get_time (pod : nkpod) : Z := jiffies pod.

(** Modelled from the spec: [xnpod_schedule], the rescheduling procedure.
    The run queue is outside the model; the call is counted. *)
Definition xnpod_schedule (pod : nkpod) : nkpod :=
  mk_pod (jiffies pod) (threads pod) (S (nresched pod)).

(** Modelled from the spec: the accessors of the nucleus headers for the
    status word of a thread and for the status word and the owner of a
    synch base. *)
Definition xnthread_test_flags (th : xnthread_t) (mask : Z) : bool :=
  testbits (thread_status th) mask.

Definition xnsynch_test_flags (synch : xnsynch_t) (mask : Z) : bool :=
  testbits (status synch) mask.

Definition xnsynch_set_flags (synch : xnsynch_t) (mask : Z) : xnsynch_t :=
  mk_synch (setbits (status synch) mask) (owner synch) (pendq synch).

Definition xnsynch_clear_flags (synch : xnsynch_t) (mask : Z) : xnsynch_t :=
  mk_synch (clrbits (status synch) mask) (owner synch) (pendq synch).

Definition xnsynch_owner (synch : xnsynch_t) : option tid := owner synch.

Definition xnsynch_set_owner (synch : xnsynch_t) (o : option tid) : xnsynch_t :=
  mk_synch (status synch) o (pendq synch).

(** Modelled from the spec: [xnpod_suspend_thread], "suspend a task".  The
    wake-reason bits of the thread are reset, and a timer is armed at
    [now + timeout] unless the timeout is infinite. *)
Definition xnpod_suspend_thread (thread : tid) (timeout : Z) (pod : nkpod) : nkpod :=
  let th := threads pod thread in
  set_thread thread
    (mk_thread (clrbits (thread_status th) (Z.lor XNTIMEO (Z.lor XNRMID XNBREAK)))
               (Waiting (if timeout =? XN_INFINITE then None
                         else Some (jiffies pod + timeout))))
    pod.

(** Modelled from the spec: [xnpod_resume_thread], "resume a task", tagging
    it with the reason it was woken for. *)
Definition xnpod_resume_thread (reason : Z) (pod : nkpod) (thread : tid) : nkpod :=
  set_thread thread
    (mk_thread (setbits (thread_status (threads pod thread)) reason) Ready)
    pod.

(** Modelled from the spec: [xnsynch_sleep_on], "registers the calling task
    on the shared wait queue, and suspends". *)
Definition xnsynch_sleep_on (thread : tid) (synch : xnsynch_t) (timeout : Z)
    (pod : nkpod) : nkpod * xnsynch_t :=
  (xnpod_suspend_thread thread timeout pod,
   mk_synch (status synch) (owner synch) (pendq synch ++ [thread])).

(** Modelled from the spec: [xnsynch_flush], "wakes every waiting task,
    tagging each with reason"; it reports whether a task was woken. *)
Definition xnsynch_flush (synch : xnsynch_t) (reason : Z) (pod : nkpod)
    : xnsynch_flush_status * nkpod * xnsynch_t :=
  match pendq synch with
  | [] => (XNSYNCH_DONE, pod, synch)
  | _ :: _ =>
      (XNSYNCH_RESCHED,
       fold_left (xnpod_resume_thread reason) (pendq synch) pod,
       mk_synch (status synch) (owner synch) [])
  end.

(** Modelled from the spec: [xnsynch_wakeup_one_sleeper], "if any task is
    waiting, wakes exactly one"; it returns the woken task, if any. *)
Definition xnsynch_wakeup_one_sleeper (synch : xnsynch_t) (pod : nkpod)
    : option tid * nkpod * xnsynch_t :=
  match pendq synch with
  | [] => (None, pod, synch)
  | t :: q =>
      (Some t, xnpod_resume_thread 0 pod t,
       mk_synch (status synch) (owner synch) q)
  end.

(** Modelled from the spec: the timer of a suspended thread, "bounded wait
    expired": a thread whose timer is due is resumed with XNTIMEO. *)
Definition timer_due (now : Z) (th : xnthread_t) : bool :=
  match thread_wait th with
  | Waiting (Some date) => date <=? now
  | _ => false
  end.

(** Modelled from the spec: [xnpod_announce_tick], the clock tick of the
    nucleus, here [dt] ticks at once. *)
Definition xnpod_announce_tick (dt : nat) (pod : nkpod) : nkpod :=
  let now := jiffies pod + Z.of_nat dt in
  mk_pod now
         (fun u => let th := threads pod u in
                   if timer_due now th
                   then mk_thread (setbits (thread_status th) XNTIMEO) Ready
                   else th)
         (nresched pod).

(** Modelled from the spec: [xnpod_unblock_thread], "a task may be forcibly
    unblocked (break) from outside".  A thread that is not suspended is left
    alone. *)
Definition xnpod_unblock_thread (thread : tid) (pod : nkpod) : nkpod :=
  let th := threads pod thread in
  if is_waiting th
  then set_thread thread (mk_thread (setbits (thread_status th) XNBREAK) Ready) pod
  else pod.

(** Modelled from the spec: a task resumed by its timer or by a forced
    unblock is no longer on the wait queue it was blocked on. *)
Definition xnsynch_forget_sleepers (pod : nkpod) (synch : xnsynch_t) : xnsynch_t :=
  mk_synch (status synch) (owner synch)
           (filter (fun t => is_waiting (threads pod t)) (pendq synch)).


(** ** Task services *)

(** Life cycle of the scheduling entity behind a task handle. *)
Inductive task_state : Type :=
| TaskUnregistered              (* no thread exists for the handle *)
| TaskDormant                   (* thread created, not started *)
| TaskStarted                   (* thread created and started *)
| TaskDeleted.                  (* thread deleted *)

Record rtdm_task_t : Type := mk_task {
  task_state_of : task_state;
  task_priority : Z;
  task_period : Z               (* period in ticks, XN_INFINITE when aperiodic *)
}.

(** A task is live when a thread exists for it. *)
Definition task_live (task : rtdm_task_t) : bool :=
  match task_state_of task with
  | TaskDormant | TaskStarted => true
  | TaskUnregistered | TaskDeleted => false
  end.

(** What the nucleus answers to the three calls of [rtdm_task_init] that
    can fail: 0 or a negative error code. *)
Record nucleus_replies : Type := mk_replies {
  init_thread_reply : Z;
  set_periodic_reply : Z;
  start_thread_reply : Z
}.

(** Modelled from the spec: [xnpod_init_thread], "registers the task with
    the scheduler at the given priority".  On failure no thread exists. *)
Definition xnpod_init_thread (task : rtdm_task_t) (priority : Z) (reply : Z)
    : Z * rtdm_task_t :=
  if reply =? 0 then (reply, mk_task TaskDormant priority XN_INFINITE)
  else (reply, task).

(** Modelled from the spec: [xnpod_set_thread_periodic], "configures
    periodic release at that interval". *)
Definition xnpod_set_thread_periodic (task : rtdm_task_t) (idate period : Z)
    (reply : Z) : Z * rtdm_task_t :=
  if reply =? 0
  then (reply, mk_task (task_state_of task) (task_priority task) period)
  else (reply, task).

(** Modelled from the spec: [xnpod_start_thread], "start a task". *)
Definition xnpod_start_thread (task : rtdm_task_t) (reply : Z) : Z * rtdm_task_t :=
  if reply =? 0
  then (reply, mk_task TaskStarted (task_priority task) (task_period task))
  else (reply, task).

(** Modelled from the spec: [xnpod_delete_thread], "the task is torn down". *)
Definition xnpod_delete_thread (task : rtdm_task_t) : rtdm_task_t :=
  mk_task TaskDeleted (task_priority task) (task_period task).

(** [rtdm_task_init], drvlib.c lines 109-139.  The labels [cleanup_out] and
    [error_out] are the two local definitions. *)
Definition rtdm_task_init (task : rtdm_task_t) (priority : Z) (period : Z)
    (nucleus : nucleus_replies) : Z * rtdm_task_t :=
  let error_out (res : Z) (task : rtdm_task_t) := (res, task) in
  let cleanup_out (res : Z) (task : rtdm_task_t) :=
    error_out res (xnpod_delete_thread task) in
  let '(res, task) := xnpod_init_thread task priority (init_thread_reply nucleus) in
  if negb (res =? 0) then error_out res task
  else
    let '(res, task) :=
      if negb (period =? XN_INFINITE)
      then xnpod_set_thread_periodic task XN_INFINITE (xnpod_ns2ticks period)
                                     (set_periodic_reply nucleus)
      else (res, task) in
    if negb (res =? 0) then cleanup_out res task
    else
      let '(res, task) := xnpod_start_thread task (start_thread_reply nucleus) in
      if negb (res =? 0) then cleanup_out res task
      else (res, task).

(** How far a blocking service got in one uninterrupted run under the
    nucleus lock: it returned, or it suspended the caller with [ticks] as
    the timeout given to the nucleus, the local variable [timeout] holding
    the value kept for a later restart. *)
Inductive progress : Type :=
| Done : retval -> progress
| Asleep (ticks timeout : Z) : progress.

(** [rtdm_task_sleep_until], lines 362-381: up to the suspension.
    [unblockable] is the answer of [xnpod_unblockable_p ()] in the calling
    context. *)
Definition rtdm_task_sleep_until_entry (thread : tid) (wakeup_time : Z)
    (unblockable : bool) (pod : nkpod) : progress * nkpod :=
  if XENO_DEBUG_RTDM && unblockable then (Done (neg EPERM), pod)
  else
    let delay := int64_t (xnpod_ns2ticks wakeup_time - xnpod_get_time pod) in
    if 0 <? delay
    then (Asleep delay delay, xnpod_suspend_thread thread delay pod)
    else (Done ok, pod).

(** [rtdm_task_sleep_until], lines 379-385: after the thread was resumed. *)
Definition rtdm_task_sleep_until_resume (thread : tid) (pod : nkpod) : retval :=
  if xnthread_test_flags (threads pod thread) XNBREAK then neg EINTR else ok.

(** ** IPC cleanup helper *)

(** [_rtdm_synch_flush], lines 424-438. *)
Definition _rtdm_synch_flush (synch : xnsynch_t) (reason : Z) (pod : nkpod)
    : nkpod * xnsynch_t :=
  let synch :=
    if reason =? XNRMID
    then mk_synch (setbits (status synch) RTDM_SYNCH_DELETED) (owner synch) (pendq synch)
    else synch in
  match xnsynch_flush synch reason pod with
  | (XNSYNCH_RESCHED, pod, synch) => (xnpod_schedule pod, synch)
  | (XNSYNCH_DONE, pod, synch) => (pod, synch)
  end.

(** The timeout sequence in force for a call: [timeout_seq && (timeout > 0)]. *)
Definition toseq_in_force (timeout_seq : option Z) (timeout : Z) : option Z :=
  match timeout_seq with
  | Some deadline => if 0 <? timeout then Some deadline else None
  | None => None
  end.

(** ** Event services *)

(** [rtdm_event_t]: the synch base, whose status word holds the pending
    flag. *)
Record rtdm_event_t : Type := mk_event { event_synch_base : xnsynch_t }.

(** [rtdm_event_signal], lines 594-606. *)
Definition rtdm_event_signal (event : rtdm_event_t) (pod : nkpod)
    : nkpod * rtdm_event_t :=
  let synch := xnsynch_set_flags (event_synch_base event) RTDM_EVENT_PENDING in
  match xnsynch_flush synch 0 pod with
  | (XNSYNCH_RESCHED, pod, synch) => (xnpod_schedule pod, mk_event synch)
  | (XNSYNCH_DONE, pod, synch) => (pod, mk_event synch)
  end.

(** Modelled from the spec: [rtdm_event_pulse], "wakes all current waiters
    without setting pending". *)
Definition rtdm_event_pulse (event : rtdm_event_t) (pod : nkpod)
    : nkpod * rtdm_event_t :=
  let '(pod, synch) := _rtdm_synch_flush (event_synch_base event) 0 pod in
  (pod, mk_event synch).

(** Modelled from the spec: [rtdm_event_destroy], "destruction of a
    primitive flushes all waiters with a distinguished deleted reason". *)
Definition rtdm_event_destroy (event : rtdm_event_t) (pod : nkpod)
    : nkpod * rtdm_event_t :=
  let '(pod, synch) := _rtdm_synch_flush (event_synch_base event) XNRMID pod in
  (pod, mk_event synch).

(** [rtdm_event_clear], lines 755-765. *)
Definition rtdm_event_clear (event : rtdm_event_t) : rtdm_event_t :=
  mk_event (xnsynch_clear_flags (event_synch_base event) RTDM_EVENT_PENDING).

(** [rtdm_event_timedwait], lines 689-716: up to the suspension. *)
Definition rtdm_event_timedwait_entry (thread : tid) (event : rtdm_event_t)
    (timeout : Z) (timeout_seq : option Z) (unblockable : bool) (pod : nkpod)
    : progress * nkpod * rtdm_event_t :=
  if XENO_DEBUG_RTDM && unblockable then (Done (neg EPERM), pod, event)
  else if testbits (status (event_synch_base event)) RTDM_SYNCH_DELETED
  then (Done (neg EIDRM), pod, event)
  else if xnsynch_test_flags (event_synch_base event) RTDM_EVENT_PENDING
  then (Done ok, pod,
        mk_event (xnsynch_clear_flags (event_synch_base event) RTDM_EVENT_PENDING))
  else if timeout <? 0 then (Done (neg EWOULDBLOCK), pod, event)
  else
    match toseq_in_force timeout_seq timeout with
    | Some deadline =>
        let timeout := int64_t (deadline - xnpod_get_time pod) in
        if timeout <=? 0 then (Done (neg ETIMEDOUT), pod, event)
        else
          let '(pod, synch) :=
            xnsynch_sleep_on thread (event_synch_base event) timeout pod in
          (Asleep timeout timeout, pod, mk_event synch)
    | None =>
        let '(pod, synch) :=
          xnsynch_sleep_on thread (event_synch_base event)
                           (xnpod_ns2ticks timeout) pod in
        (Asleep (xnpod_ns2ticks timeout) timeout, pod, mk_event synch)
    end.

(** [rtdm_event_timedwait], lines 718-733: after the thread was resumed. *)
Definition rtdm_event_timedwait_resume (thread : tid) (event : rtdm_event_t)
    (pod : nkpod) : retval * rtdm_event_t :=
  let th := threads pod thread in
  if negb (xnthread_test_flags th (Z.lor XNTIMEO (Z.lor XNRMID XNBREAK)))
  then (ok, mk_event (xnsynch_clear_flags (event_synch_base event) RTDM_EVENT_PENDING))
  else if xnthread_test_flags th XNTIMEO then (neg ETIMEDOUT, event)
  else if xnthread_test_flags th XNRMID then (neg EIDRM, event)
  else (neg EINTR, event).


(** ** Semaphore services *)

(** [rtdm_sem_t]: the value and the synch base. *)
Record rtdm_sem_t : Type := mk_sem {
  value : Z;                    (* unsigned long *)
  sem_synch_base : xnsynch_t
}.

(** [rtdm_sem_timeddown], lines 895-917: up to the suspension. *)
Definition rtdm_sem_timeddown_entry (thread : tid) (sem : rtdm_sem_t)
    (timeout : Z) (timeout_seq : option Z) (unblockable : bool) (pod : nkpod)
    : progress * nkpod * rtdm_sem_t :=
  if XENO_DEBUG_RTDM && unblockable then (Done (neg EPERM), pod, sem)
  else if testbits (status (sem_synch_base sem)) RTDM_SYNCH_DELETED
  then (Done (neg EIDRM), pod, sem)
  else if 0 <? value sem
  then (Done ok, pod, mk_sem (ulong (value sem - 1)) (sem_synch_base sem))
  else if timeout <? 0 then (Done (neg EWOULDBLOCK), pod, sem)
  else
    match toseq_in_force timeout_seq timeout with
    | Some deadline =>
        let timeout := int64_t (deadline - xnpod_get_time pod) in
        if timeout <=? 0 then (Done (neg ETIMEDOUT), pod, sem)
        else
          let '(pod, synch) :=
            xnsynch_sleep_on thread (sem_synch_base sem) timeout pod in
          (Asleep timeout timeout, pod, mk_sem (value sem) synch)
    | None =>
        let '(pod, synch) :=
          xnsynch_sleep_on thread (sem_synch_base sem)
                           (xnpod_ns2ticks timeout) pod in
        (Asleep (xnpod_ns2ticks timeout) timeout, pod, mk_sem (value sem) synch)
    end.

(** [rtdm_sem_timeddown], lines 919-934: after the thread was resumed. *)
Definition rtdm_sem_timeddown_resume (thread : tid) (pod : nkpod) : retval :=
  let th := threads pod thread in
  if xnthread_test_flags th (Z.lor XNTIMEO (Z.lor XNRMID XNBREAK))
  then
    if xnthread_test_flags th XNTIMEO then neg ETIMEDOUT
    else if xnthread_test_flags th XNRMID then neg EIDRM
    else neg EINTR
  else ok.

(** [rtdm_sem_up], lines 959-972. *)
Definition rtdm_sem_up (sem : rtdm_sem_t) (pod : nkpod) : nkpod * rtdm_sem_t :=
  match xnsynch_wakeup_one_sleeper (sem_synch_base sem) pod with
  | (Some _, pod, synch) => (xnpod_schedule pod, mk_sem (value sem) synch)
  | (None, pod, synch) => (pod, mk_sem (ulong (value sem + 1)) synch)
  end.

(** Modelled from the spec: [rtdm_sem_destroy], the teardown path shared by
    the three primitives: a flush with the deletion reason. *)
Definition rtdm_sem_destroy (sem : rtdm_sem_t) (pod : nkpod) : nkpod * rtdm_sem_t :=
  let '(pod, synch) := _rtdm_synch_flush (sem_synch_base sem) XNRMID pod in
  (pod, mk_sem (value sem) synch).

(** ** Mutex services *)

(** [rtdm_mutex_t]: the synch base, whose owner is the holder of the
    mutex. *)
Record rtdm_mutex_t : Type := mk_mutex { mutex_synch_base : xnsynch_t }.

(** [rtdm_mutex_timedlock], label [restart], lines 1133-1145: the timeout
    in force is worked out and the caller suspended. *)
Definition rtdm_mutex_timedlock_restart (thread : tid) (mutex : rtdm_mutex_t)
    (timeout : Z) (timeout_seq : option Z) (pod : nkpod)
    : progress * nkpod * rtdm_mutex_t :=
  match toseq_in_force timeout_seq timeout with
  | Some deadline =>
      let timeout := int64_t (deadline - xnpod_get_time pod) in
      if timeout <=? 0 then (Done (neg ETIMEDOUT), pod, mutex)
      else
        let '(pod, synch) :=
          xnsynch_sleep_on thread (mutex_synch_base mutex) timeout pod in
        (Asleep timeout timeout, pod, mk_mutex synch)
  | None =>
      let '(pod, synch) :=
        xnsynch_sleep_on thread (mutex_synch_base mutex)
                         (xnpod_ns2ticks timeout) pod in
      (Asleep (xnpod_ns2ticks timeout) timeout, pod, mk_mutex synch)
  end.

(** [rtdm_mutex_timedlock], lines 1118-1145: up to the first suspension. *)
Definition rtdm_mutex_timedlock_entry (thread : tid) (mutex : rtdm_mutex_t)
    (timeout : Z) (timeout_seq : option Z) (unblockable : bool) (pod : nkpod)
    : progress * nkpod * rtdm_mutex_t :=
  if XENO_DEBUG_RTDM && unblockable then (Done (neg EPERM), pod, mutex)
  else if testbits (status (mutex_synch_base mutex)) RTDM_SYNCH_DELETED
  then (Done (neg EIDRM), pod, mutex)
  else
    match xnsynch_owner (mutex_synch_base mutex) with
    | None =>
        (Done ok, pod,
         mk_mutex (xnsynch_set_owner (mutex_synch_base mutex) (Some thread)))
    | Some _ =>
        if timeout <? 0 then (Done (neg EWOULDBLOCK), pod, mutex)
        else rtdm_mutex_timedlock_restart thread mutex timeout timeout_seq pod
    end.

(** [rtdm_mutex_timedlock], lines 1147-1160: after the thread was resumed.
    [timeout] is the value the local variable had when the thread went to
    sleep. *)
Definition rtdm_mutex_timedlock_resume (thread : tid) (mutex : rtdm_mutex_t)
    (timeout : Z) (timeout_seq : option Z) (pod : nkpod)
    : progress * nkpod * rtdm_mutex_t :=
  let th := threads pod thread in
  if xnthread_test_flags th (Z.lor XNTIMEO (Z.lor XNRMID XNBREAK))
  then
    if xnthread_test_flags th XNTIMEO then (Done (neg ETIMEDOUT), pod, mutex)
    else if xnthread_test_flags th XNRMID then (Done (neg EIDRM), pod, mutex)
    else rtdm_mutex_timedlock_restart thread mutex timeout timeout_seq pod
  else (Done ok, pod, mutex).

(** Modelled from the spec: [rtdm_mutex_unlock], "releases ownership; if a
    waiter exists, it is handed ownership directly via wakeup". *)
Definition rtdm_mutex_unlock (mutex : rtdm_mutex_t) (pod : nkpod)
    : nkpod * rtdm_mutex_t :=
  match xnsynch_wakeup_one_sleeper (mutex_synch_base mutex) pod with
  | (Some t, pod, synch) =>
      (xnpod_schedule pod, mk_mutex (xnsynch_set_owner synch (Some t)))
  | (None, pod, synch) => (pod, mk_mutex (xnsynch_set_owner synch None))
  end.

(** Modelled from the spec: [rtdm_mutex_destroy], a flush with the deletion
    reason. *)
Definition rtdm_mutex_destroy (mutex : rtdm_mutex_t) (pod : nkpod)
    : nkpod * rtdm_mutex_t :=
  let '(pod, synch) := _rtdm_synch_flush (mutex_synch_base mutex) XNRMID pod in
  (pod, mk_mutex synch).


(** [rtdm_event_wait], [rtdm_sem_down] and [rtdm_mutex_lock] (lines 638-641,
    841-844, 1068-1071) call the timed service with timeout 0 and no timeout
    sequence. *)
Definition rtdm_event_wait_entry (thread : tid) (event : rtdm_event_t) :=
  rtdm_event_timedwait_entry thread event 0 None.

Definition rtdm_sem_down_entry (thread : tid) (sem : rtdm_sem_t) :=
  rtdm_sem_timeddown_entry thread sem 0 None.

Definition rtdm_mutex_lock_entry (thread : tid) (mutex : rtdm_mutex_t) :=
  rtdm_mutex_timedlock_entry thread mutex 0 None.

(** ** A driver: one pod, one event, one semaphore, one mutex *)

Record rtdm_system : Type := mk_system {
  sys_pod : nkpod;
  sys_event : rtdm_event_t;
  sys_sem : rtdm_sem_t;
  sys_mutex : rtdm_mutex_t
}.

(** What can happen in one uninterrupted run under the nucleus lock: a
    clock tick, a forced unblock, a non-blocking service, or the part of a
    blocking service before or after a suspension, run by any thread. *)
Inductive rtdm_op : Type :=
| op_announce_tick (dt : nat)
| op_task_unblock (t : tid)
| op_event_signal
| op_event_pulse
| op_event_clear
| op_event_destroy
| op_event_flush (reason : Z)
| op_event_timedwait (t : tid) (timeout : Z) (timeout_seq : option Z) (unblockable : bool)
| op_event_resume (t : tid)
| op_sem_up
| op_sem_destroy
| op_sem_flush (reason : Z)
| op_sem_timeddown (t : tid) (timeout : Z) (timeout_seq : option Z) (unblockable : bool)
| op_sem_resume (t : tid)
| op_mutex_unlock
| op_mutex_destroy
| op_mutex_flush (reason : Z)
| op_mutex_timedlock (t : tid) (timeout : Z) (timeout_seq : option Z) (unblockable : bool)
| op_mutex_resume (t : tid) (timeout : Z) (timeout_seq : option Z).

Definition forget_sleepers (s : rtdm_system) : rtdm_system :=
  let pod := sys_pod s in
  mk_system pod
    (mk_event (xnsynch_forget_sleepers pod (event_synch_base (sys_event s))))
    (mk_sem (value (sys_sem s))
            (xnsynch_forget_sleepers pod (sem_synch_base (sys_sem s))))
    (mk_mutex (xnsynch_forget_sleepers pod (mutex_synch_base (sys_mutex s)))).

Definition set_event (s : rtdm_system) (r : nkpod * rtdm_event_t) : rtdm_system :=
  mk_system (fst r) (snd r) (sys_sem s) (sys_mutex s).

Definition set_sem (s : rtdm_system) (r : nkpod * rtdm_sem_t) : rtdm_system :=
  mk_system (fst r) (sys_event s) (snd r) (sys_mutex s).

Definition set_mutex (s : rtdm_system) (r : nkpod * rtdm_mutex_t) : rtdm_system :=
  mk_system (fst r) (sys_event s) (sys_sem s) (snd r).

Definition step (s : rtdm_system) (o : rtdm_op) : rtdm_system :=
  let pod := sys_pod s in
  let event := sys_event s in
  let sem := sys_sem s in
  let mutex := sys_mutex s in
  match o with
  | op_announce_tick dt =>
      forget_sleepers (mk_system (xnpod_announce_tick dt pod) event sem mutex)
  | op_task_unblock t =>
      forget_sleepers (mk_system (xnpod_unblock_thread t pod) event sem mutex)
  | op_event_signal => set_event s (rtdm_event_signal event pod)
  | op_event_pulse => set_event s (rtdm_event_pulse event pod)
  | op_event_clear => set_event s (pod, rtdm_event_clear event)
  | op_event_destroy => set_event s (rtdm_event_destroy event pod)
  | op_event_flush reason =>
      let '(pod, synch) := _rtdm_synch_flush (event_synch_base event) reason pod in
      set_event s (pod, mk_event synch)
  | op_event_timedwait t timeout timeout_seq unblockable =>
      let '(_, pod, event) :=
        rtdm_event_timedwait_entry t event timeout timeout_seq unblockable pod in
      set_event s (pod, event)
  | op_event_resume t =>
      set_event s (pod, snd (rtdm_event_timedwait_resume t event pod))
  | op_sem_up => set_sem s (rtdm_sem_up sem pod)
  | op_sem_destroy => set_sem s (rtdm_sem_destroy sem pod)
  | op_sem_flush reason =>
      let '(pod, synch) := _rtdm_synch_flush (sem_synch_base sem) reason pod in
      set_sem s (pod, mk_sem (value sem) synch)
  | op_sem_timeddown t timeout timeout_seq unblockable =>
      let '(_, pod, sem) :=
        rtdm_sem_timeddown_entry t sem timeout timeout_seq unblockable pod in
      set_sem s (pod, sem)
  | op_sem_resume t => s
  | op_mutex_unlock => set_mutex s (rtdm_mutex_unlock mutex pod)
  | op_mutex_destroy => set_mutex s (rtdm_mutex_destroy mutex pod)
  | op_mutex_flush reason =>
      let '(pod, synch) := _rtdm_synch_flush (mutex_synch_base mutex) reason pod in
      set_mutex s (pod, mk_mutex synch)
  | op_mutex_timedlock t timeout timeout_seq unblockable =>
      let '(_, pod, mutex) :=
        rtdm_mutex_timedlock_entry t mutex timeout timeout_seq unblockable pod in
      set_mutex s (pod, mutex)
  | op_mutex_resume t timeout timeout_seq =>
      let '(_, pod, mutex) :=
        rtdm_mutex_timedlock_resume t mutex timeout timeout_seq pod in
      set_mutex s (pod, mutex)
  end.

Definition run (ops : list rtdm_op) (s : rtdm_system) : rtdm_system :=
  fold_left step ops s.

(** ** The blocking services as whole calls

    A call either returns, or is still suspended when the schedule handed to
    it is used up.  The schedule [env] lists, for each suspension of the
    caller in turn, what the rest of the system does until the caller runs
    again; a caller that is still suspended at that point stays blocked. *)
Inductive outcome : Type :=
| Returned : retval -> rtdm_system -> outcome
| Blocked : rtdm_system -> outcome.

Definition caller_waiting (thread : tid) (s : rtdm_system) : bool :=
  is_waiting (threads (sys_pod s) thread).

Definition rtdm_task_sleep_until (thread : tid) (wakeup_time : Z)
    (unblockable : bool) (env : list (list rtdm_op)) (s : rtdm_system) : outcome :=
  match rtdm_task_sleep_until_entry thread wakeup_time unblockable (sys_pod s) with
  | (Done r, pod) => Returned r (mk_system pod (sys_event s) (sys_sem s) (sys_mutex s))
  | (Asleep _ _, pod) =>
      let s := mk_system pod (sys_event s) (sys_sem s) (sys_mutex s) in
      match env with
      | [] => Blocked s
      | others :: _ =>
          let s := run others s in
          if caller_waiting thread s then Blocked s
          else Returned (rtdm_task_sleep_until_resume thread (sys_pod s)) s
      end
  end.

Definition rtdm_event_timedwait (thread : tid) (timeout : Z)
    (timeout_seq : option Z) (unblockable : bool) (env : list (list rtdm_op))
    (s : rtdm_system) : outcome :=
  match rtdm_event_timedwait_entry thread (sys_event s) timeout timeout_seq
                                   unblockable (sys_pod s) with
  | (Done r, pod, event) => Returned r (set_event s (pod, event))
  | (Asleep _ _, pod, event) =>
      let s := set_event s (pod, event) in
      match env with
      | [] => Blocked s
      | others :: _ =>
          let s := run others s in
          if caller_waiting thread s then Blocked s
          else
            let '(r, event) :=
              rtdm_event_timedwait_resume thread (sys_event s) (sys_pod s) in
            Returned r (set_event s (sys_pod s, event))
      end
  end.

Definition rtdm_sem_timeddown (thread : tid) (timeout : Z)
    (timeout_seq : option Z) (unblockable : bool) (env : list (list rtdm_op))
    (s : rtdm_system) : outcome :=
  match rtdm_sem_timeddown_entry thread (sys_sem s) timeout timeout_seq
                                 unblockable (sys_pod s) with
  | (Done r, pod, sem) => Returned r (set_sem s (pod, sem))
  | (Asleep _ _, pod, sem) =>
      let s := set_sem s (pod, sem) in
      match env with
      | [] => Blocked s
      | others :: _ =>
          let s := run others s in
          if caller_waiting thread s then Blocked s
          else Returned (rtdm_sem_timeddown_resume thread (sys_pod s)) s
      end
  end.

(** The caller of [rtdm_mutex_timedlock] is suspended with local variable
    [timeout]; each time it runs again it either returns or, on a forced
    unblock, goes back to [restart]. *)
Fixpoint rtdm_mutex_timedlock_wait (thread : tid) (timeout : Z)
    (timeout_seq : option Z) (env : list (list rtdm_op)) (s : rtdm_system)
    : outcome :=
  match env with
  | [] => Blocked s
  | others :: env =>
      let s := run others s in
      if caller_waiting thread s then Blocked s
      else
        match rtdm_mutex_timedlock_resume thread (sys_mutex s) timeout timeout_seq
                                          (sys_pod s) with
        | (Done r, pod, mutex) => Returned r (set_mutex s (pod, mutex))
        | (Asleep _ timeout, pod, mutex) =>
            rtdm_mutex_timedlock_wait thread timeout timeout_seq env
                                      (set_mutex s (pod, mutex))
        end
  end.

Definition rtdm_mutex_timedlock (thread : tid) (timeout : Z)
    (timeout_seq : option Z) (unblockable : bool) (env : list (list rtdm_op))
    (s : rtdm_system) : outcome :=
  match rtdm_mutex_timedlock_entry thread (sys_mutex s) timeout timeout_seq
                                   unblockable (sys_pod s) with
  | (Done r, pod, mutex) => Returned r (set_mutex s (pod, mutex))
  | (Asleep _ timeout, pod, mutex) =>
      rtdm_mutex_timedlock_wait thread timeout timeout_seq env
                                (set_mutex s (pod, mutex))
  end.

(** Consecutive calls of [rtdm_sem_timeddown] by one thread, each given as
    its timeout and timeout sequence, with nothing else running in between;
    the results are collected up to the first call that stays blocked. *)
Fixpoint rtdm_sem_timeddown_calls (thread : tid) (calls : list (Z * option Z))
    (s : rtdm_system) : list retval * rtdm_system :=
  match calls with
  | [] => ([], s)
  | (timeout, timeout_seq) :: calls =>
      match rtdm_sem_timeddown thread timeout timeout_seq false [] s with
      | Returned r s =>
          let '(rs, s) := rtdm_sem_timeddown_calls thread calls s in (r :: rs, s)
      | Blocked s => ([], s)
      end
  end.

(** The system with the semaphore value replaced. *)
Definition with_sem_value (v : Z) (s : rtdm_system) : rtdm_system :=
  mk_system (sys_pod s) (sys_event s)
            (mk_sem v (sem_synch_base (sys_sem s))) (sys_mutex s).

(** A primitive is deleted when the deleted bit of its synch base is set. *)
Definition deleted (synch : xnsynch_t) : Prop :=
  testbits (status synch) RTDM_SYNCH_DELETED = true.

(** The wake-reason bits of a thread: none of them, or XNBREAK alone. *)
Definition no_wake_reason (th : xnthread_t) : Prop :=
  xnthread_test_flags th XNTIMEO = false /\
  xnthread_test_flags th XNRMID = false /\
  xnthread_test_flags th XNBREAK = false.

Definition break_only (th : xnthread_t) : Prop :=
  xnthread_test_flags th XNTIMEO = false /\
  xnthread_test_flags th XNRMID = false /\
  xnthread_test_flags th XNBREAK = true.

(** [thread] is the one waiter of the live mutex of [s], suspended with the
    given timer. *)
Definition sole_mutex_waiter (thread : tid) (timer : option Z) (s : rtdm_system) : Prop :=
  testbits (status (mutex_synch_base (sys_mutex s))) RTDM_SYNCH_DELETED = false /\
  pendq (mutex_synch_base (sys_mutex s)) = [thread] /\
  thread_wait (threads (sys_pod s) thread) = Waiting timer /\
  no_wake_reason (threads (sys_pod s) thread).

(** [thread] was the one waiter of the mutex and has been forcibly
    unblocked. *)
Definition broken_mutex_waiter (thread : tid) (s : rtdm_system) : Prop :=
  testbits (status (mutex_synch_base (sys_mutex s))) RTDM_SYNCH_DELETED = false /\
  pendq (mutex_synch_base (sys_mutex s)) = [] /\
  thread_wait (threads (sys_pod s) thread) = Ready /\
  break_only (threads (sys_pod s) thread).

(** The timer armed by a suspension with [ticks] as timeout at time [now]. *)
Definition timer_for (now ticks : Z) : option Z :=
  if ticks =? XN_INFINITE then None else Some (now + ticks).

(** The operations that belong to a wait on the event: the call of
    [rtdm_event_timedwait] up to its suspension, and what a resumed waiter
    does before it returns. *)
Definition is_event_wait (o : rtdm_op) : bool :=
  match o with
  | op_event_timedwait _ _ _ _ | op_event_resume _ => true
  | _ => false
  end.

(** The operations that leave a pending signal in place: everything but a
    wait on the event and [rtdm_event_clear]. *)
Definition leaves_event_pending (o : rtdm_op) : bool :=
  match o with
  | op_event_clear => false
  | _ => negb (is_event_wait o)
  end.

End Drvlib.




(** ** A sample configuration

    One choice of the nucleus constants, with pairwise distinct bits, and an
    idle system on it: the clock at 100 ticks, no thread suspended, nothing
    pending, a semaphore of value 2 and a free mutex. *)
Definition sample_nucleus : Nucleus := {|
  XNTIMEO := 512;
  XNRMID := 1024;
  XNBREAK := 2048;
  XNSYNCH_SPARE0 := 16777216;
  RTDM_EVENT_PENDING := 33554432;
  BITS_PER_LONG := 64;
  XENO_DEBUG_RTDM := true;
  xnpod_ns2ticks := fun ns => ns
|}.

Definition idle_pod : nkpod := mk_pod 100 (fun _ => mk_thread 0 Ready) 0.

Definition idle_synch : xnsynch_t := mk_synch 0 None [].

Definition idle_system : rtdm_system :=
  mk_system idle_pod (mk_event idle_synch) (mk_sem 2 idle_synch) (mk_mutex idle_synch).


(** The same system with the mutex held by thread 7, and a mutex held by
    thread 1. *)
Definition contended_system : rtdm_system :=
  mk_system idle_pod (mk_event idle_synch) (mk_sem 2 idle_synch)
            (mk_mutex (mk_synch 0 (Some 7%nat) [])).

Definition mutex_of_thread_1 : rtdm_mutex_t := mk_mutex (mk_synch 0 (Some 1%nat) []).

(** A handle for which no thread exists, and a nucleus that refuses the
    periodic set-up with -22. *)
Definition fresh_task : rtdm_task_t := mk_task TaskUnregistered 0 0.

Definition periodic_setup_fails : nucleus_replies := mk_replies 0 (-22) 0.

(** * The rest of the driver library *)

(** [xnticks_t] is 64-bit unsigned. *)
Definition uint64_t (z : Z) : Z := wrap_unsigned 64 z.

Section DrvlibRest.

Context {nk : Nucleus}.

(** ** Sleeping and joining *)

(** [rtdm_task_sleep], drvlib.c lines 325-332: up to the suspension. *)
Definition rtdm_task_sleep_entry (thread : tid) (delay : Z) (unblockable : bool)
    (pod : nkpod) : progress * nkpod :=
  if XENO_DEBUG_RTDM && unblockable then (Done (neg EPERM), pod)
  else (Asleep (xnpod_ns2ticks delay) delay,
        xnpod_suspend_thread thread (xnpod_ns2ticks delay) pod).

(** [rtdm_task_sleep], line 334: after the thread was resumed. *)
Definition rtdm_task_sleep_resume (thread : tid) (pod : nkpod) : retval :=
  if xnthread_test_flags (threads pod thread) XNBREAK then neg EINTR else ok.

Definition rtdm_task_sleep (thread : tid) (delay : Z) (unblockable : bool)
    (env : list (list rtdm_op)) (s : rtdm_system) : outcome :=
  match rtdm_task_sleep_entry thread delay unblockable (sys_pod s) with
  | (Done r, pod) => Returned r (mk_system pod (sys_event s) (sys_sem s) (sys_mutex s))
  | (Asleep _ _, pod) =>
      let s := mk_system pod (sys_event s) (sys_sem s) (sys_mutex s) in
      match env with
      | [] => Blocked s
      | others :: _ =>
          let s := run others s in
          if caller_waiting thread s then Blocked s
          else Returned (rtdm_task_sleep_resume thread (sys_pod s)) s
      end
  end.

(** [rtdm_task_join_nrt], lines 280-298.  [XNZOMBIE] is the status bit of a
    thread that has terminated, [root] the answer of [xnpod_root_p ()];
    [pod] is the scheduler as the first test finds it and [later] as each
    further test finds it, after a call of [msleep].  The result is the list
    of the arguments of the calls of [msleep] when the function returns, and
    nothing when it is still polling at the end of [later]. *)
Fixpoint rtdm_task_join_nrt_loop (XNZOMBIE : Z) (task : tid) (poll_delay : Z)
    (pod : nkpod) (later : list nkpod) : option (list Z) :=
  if xnthread_test_flags (threads pod task) XNZOMBIE then Some []
  else
    match later with
    | [] => None
    | pod' :: later =>
        option_map (cons poll_delay)
                   (rtdm_task_join_nrt_loop XNZOMBIE task poll_delay pod' later)
    end.

Definition rtdm_task_join_nrt (XNZOMBIE : Z) (task : tid) (poll_delay : Z)
    (root : bool) (pod : nkpod) (later : list nkpod) : option (list Z) :=
  if XENO_DEBUG_RTDM && negb root then Some []
  else rtdm_task_join_nrt_loop XNZOMBIE task poll_delay pod later.

(** [rtdm_task_busy_sleep], lines 407-413.  [xnarch_ns_to_tsc] converts
    nanoseconds to ticks of the time stamp counter, and [tsc] lists what the
    successive calls of [xnarch_get_cpu_tsc] return.  The result is the
    number of calls of [cpu_relax] and the reading that ended the loop, and
    nothing when the loop is still spinning at the end of [tsc]. *)
Fixpoint rtdm_task_busy_sleep_loop (wakeup : Z) (tsc : list Z) : option (nat * Z) :=
  match tsc with
  | [] => None
  | now :: tsc =>
      if now <? wakeup
      then option_map (fun r => (S (fst r), snd r))
                      (rtdm_task_busy_sleep_loop wakeup tsc)
      else Some (0%nat, now)
  end.

Definition rtdm_task_busy_sleep (xnarch_ns_to_tsc : Z -> Z) (delay : Z)
    (tsc : list Z) : option (nat * Z) :=
  match tsc with
  | [] => None
  | start :: tsc =>
      let wakeup := uint64_t (start + xnarch_ns_to_tsc delay) in
      rtdm_task_busy_sleep_loop wakeup tsc
  end.

(** ** Waiters *)

(** A semaphore has waiters only while its value is 0, and its value is an
    [unsigned long]. *)
Definition sem_consistent (sem : rtdm_sem_t) : Prop :=
  0 <= value sem < 2 ^ BITS_PER_LONG /\
  (pendq (sem_synch_base sem) <> [] -> value sem = 0).

(** A suspended thread is either still suspended or tagged with a wake
    reason, as long as only the clock and forced unblocks act on it. *)
Definition asleep_or_tagged (th : xnthread_t) : Prop :=
  is_waiting th = true \/
  xnthread_test_flags th (Z.lor XNTIMEO (Z.lor XNRMID XNBREAK)) = true.

End DrvlibRest.

(** The operations of the nucleus itself, as opposed to the services of the
    driver library: a clock tick and a forced unblock. *)
Definition clock_or_break (o : rtdm_op) : bool :=
  match o with
  | op_announce_tick _ | op_task_unblock _ => true
  | _ => false
  end.

(** * Mapping kernel memory to user space *)

(** Constants, configuration switches and macros of the host kernel that
    [rtdm_mmap_buffer] uses and [drvlib.c] does not define.  The errno
    numbers are positive. *)
Class LinuxMm : Type := {
  CONFIG_MMU : bool;
  PAGE_SIZE : Z;
  VMALLOC_START : Z;
  VMALLOC_END : Z;
  PAGE_ALIGN : Z -> Z;
  virt_to_phys : Z -> Z;        (* the result is an [unsigned long] *)
  EINVAL : Z;
  EAGAIN : Z
}.

(** [struct vm_area_struct], as far as [rtdm_mmap_buffer] uses it. *)
Record vm_area_struct : Type := mk_vma {
  vm_start : Z;
  vm_end : Z;
  vm_ops : Z;
  vm_private_data : Z
}.

(** [struct rtdm_mmap_data], drvlib.c lines 1352-1356. *)
Record rtdm_mmap_data : Type := mk_mmap_data {
  src_addr : Z;
  mmap_vm_ops : Z;
  mmap_vm_private_data : Z
}.

(** The two services of the architecture layer that install a mapping:
    [xnarch_remap_vm_page (vma, maddr, vaddr)] for one page, and
    [xnarch_remap_io_page_range (vma, maddr, paddr, size, PAGE_SHARED)] for
    a range. *)
Inductive remap_call : Type :=
| xnarch_remap_vm_page (maddr vaddr : Z)
| xnarch_remap_io_page_range (maddr paddr size : Z).

Section Mmap.

Context {nk : Nucleus} {mm : LinuxMm}.

(** What each call of the architecture layer returns: 0, or an error. *)
Variable remap : remap_call -> Z.

(** [rtdm_mmap_buffer], the loop of lines 1378-1385.  The result is the
    value returned and the calls made to the architecture layer, in order;
    nothing when the loop has not ended after [fuel] tests. *)
Fixpoint rtdm_mmap_buffer_loop (fuel : nat) (maddr vaddr mapped_size size : Z)
    : option (Z * list remap_call) :=
  match fuel with
  | O => None
  | S fuel =>
      if mapped_size <? size
      then
        if negb (remap (xnarch_remap_vm_page maddr vaddr) =? 0)
        then Some (- EAGAIN, [xnarch_remap_vm_page maddr vaddr])
        else
          option_map (fun r => (fst r, xnarch_remap_vm_page maddr vaddr :: snd r))
                     (rtdm_mmap_buffer_loop fuel (ulong (maddr + PAGE_SIZE))
                                            (ulong (vaddr + PAGE_SIZE))
                                            (ulong (mapped_size + PAGE_SIZE)) size)
      else Some (0, [])
  end.

(** [rtdm_mmap_buffer], lines 1358-1391. *)
Definition rtdm_mmap_buffer (fuel : nat) (mmap_data : rtdm_mmap_data)
    (vma : vm_area_struct) : option (Z * list remap_call) * vm_area_struct :=
  let vma := mk_vma (vm_start vma) (vm_end vma) (mmap_vm_ops mmap_data)
                    (mmap_vm_private_data mmap_data) in
  let vaddr := src_addr mmap_data in
  let maddr := vm_start vma in
  let size := ulong (vm_end vma - vm_start vma) in
  if CONFIG_MMU && ((VMALLOC_START <=? vaddr) && (vaddr <? VMALLOC_END))
  then
    if XENO_DEBUG_RTDM && negb (vaddr =? PAGE_ALIGN vaddr)
    then (Some (- EINVAL, []), vma)
    else if XENO_DEBUG_RTDM && negb (size mod PAGE_SIZE =? 0)
    then (Some (- EINVAL, []), vma)
    else (rtdm_mmap_buffer_loop fuel maddr vaddr 0 size, vma)
  else
    let call := xnarch_remap_io_page_range maddr (ulong (virt_to_phys vaddr)) size in
    (Some (remap call, [call]), vma).

(** The call that maps page [i] of the buffer. *)
Definition page_call (mmap_data : rtdm_mmap_data) (vma : vm_area_struct) (i : nat)
    : remap_call :=
  xnarch_remap_vm_page (ulong (vm_start vma + Z.of_nat i * PAGE_SIZE))
                       (ulong (src_addr mmap_data + Z.of_nat i * PAGE_SIZE)).

End Mmap.

(** * Hardware abstraction layer *)

(** ** ARM: [ffnz], asm-arm/hal.h, the version for architectures before
    ARMv5.  [unsigned long] is 32 bits wide there. *)
Definition ffnz (x : Z) : Z :=
  let r := 0 in
  if x =? 0 then 0
  else
    let '(x, r) :=
      if Z.land x 65535 =? 0 then (Z.shiftr x 16, r + 16) else (x, r) in
    let '(x, r) :=
      if Z.land x 255 =? 0 then (Z.shiftr x 8, r + 8) else (x, r) in
    let '(x, r) :=
      if Z.land x 15 =? 0 then (Z.shiftr x 4, r + 4) else (x, r) in
    let '(x, r) :=
      if Z.land x 3 =? 0 then (Z.shiftr x 2, r + 2) else (x, r) in
    let '(x, r) :=
      if Z.land x 1 =? 0 then (Z.shiftr x 1, r + 1) else (x, r) in
    r.

(** One step of the search: the [k] low bits are skipped when they are all
    clear. *)
Definition ffnz_step (k : Z) (p : Z * Z) : Z * Z :=
  if Z.land (fst p) (Z.ones k) =? 0 then (Z.shiftr (fst p) k, snd p + k) else p.

(** Bit [q] is the lowest bit set in [x]. *)
Definition lowest_set_bit (x q : Z) : Prop :=
  0 <= q /\ Z.testbit x q = true /\ forall i, 0 <= i < q -> Z.testbit x i = false.

(** ** x86: [rthal_timer_program_shot], asm-i386/hal.h *)

(** Configuration switches and interrupt numbers of the kernel
    configuration. *)
Class X86Hal : Type := {
  CONFIG_XENO_OPT_PIPELINE_HEAD : bool;
  CONFIG_X86_LOCAL_APIC : bool;
  RTHAL_APIC_TIMER_IPI : Z;
  RTHAL_8254_IRQ : Z;
  APIC_TMICT : Z
}.

(** What [rthal_timer_program_shot] does to the hardware.  [outb] writes
    one byte to a port: its first parameter is an [unsigned char]. *)
Inductive hw_access : Type :=
| rthal_local_irq_save_hw
| rthal_local_irq_restore_hw
| rthal_trigger_irq (irq : Z)
| apic_read_around (reg : Z)
| apic_write_around (reg v : Z)
| outb (value port : Z).

Definition uint8_t (z : Z) : Z := wrap_unsigned 8 z.

Section X86.

Context {hal : X86Hal}.

(** [rthal_timer_program_shot], lines 121-152 of the x86 header. *)
Definition rthal_timer_program_shot (delay : Z) : list hw_access :=
  (if CONFIG_XENO_OPT_PIPELINE_HEAD then [] else [rthal_local_irq_save_hw])
  ++ (if CONFIG_X86_LOCAL_APIC
      then
        if delay =? 0 then [rthal_trigger_irq RTHAL_APIC_TIMER_IPI]
        else [apic_read_around APIC_TMICT; apic_write_around APIC_TMICT delay]
      else
        if delay =? 0 then [rthal_trigger_irq RTHAL_8254_IRQ]
        else [outb (uint8_t (Z.land delay 255)) 64;
              outb (uint8_t (Z.shiftr delay 8)) 64])
  ++ (if CONFIG_XENO_OPT_PIPELINE_HEAD then [] else [rthal_local_irq_restore_hw]).

(** The accesses that are made with the interrupts masked by the function
    itself. *)
Definition is_irq_bracket (a : hw_access) : bool :=
  match a with
  | rthal_local_irq_save_hw | rthal_local_irq_restore_hw => true
  | _ => false
  end.

End X86.

(** * VxWorks skin: vxworks/defs.h *)

(** #define WIND_MAGIC(n) (0x8383##n##n), for the four kinds of object. *)
Definition WIND_TASK_MAGIC : Z := 0x83830101.
Definition WIND_SEM_MAGIC : Z := 0x83830202.
Definition WIND_WD_MAGIC : Z := 0x83830303.
Definition WIND_MSGQ_MAGIC : Z := 0x83830404.

(** Constants and types of vxworks/vxworks.h and of the task control block,
    which defs.h uses and does not define. *)
Class VxWorks : Type := {
  OK : Z;
  ERROR : Z;
  safecnt_t : Z -> Z            (* conversion to the type of [safecnt] *)
}.

(** The magic word of the control block at each address. *)
Definition wind_memory : Type := Z -> Z.

Definition NULL : Z := 0.

(** A task control block, as far as [taskSafeInner] and [taskUnsafeInner]
    use it. *)
Record wind_task_t : Type := mk_wind_task {
  safecnt : Z;
  safesync : xnsynch_t
}.

Section VxWorksDefs.

Context {vx : VxWorks}.

(** #define wind_h2obj_active(h,m,t), lines 37-38. *)
Definition wind_h2obj_active (mem : wind_memory) (h m : Z) : Z :=
  if negb (h =? 0) && negb (h =? ERROR) && (mem h =? m) then h else NULL.

(** #define wind_mark_deleted(t), line 45. *)
Definition wind_mark_deleted (mem : wind_memory) (t : Z) : wind_memory :=
  fun a => if a =? t then 0 else mem a.

(** [taskSafeInner], lines 232-235. *)
Definition taskSafeInner (cur : wind_task_t) : wind_task_t :=
  mk_wind_task (safecnt_t (safecnt cur + 1)) (safesync cur).

(** [taskUnsafeInner], lines 243-255.  [primary] is the answer of
    [xnpod_primary_p ()]. *)
Definition taskUnsafeInner (primary : bool) (cur : wind_task_t) (pod : nkpod)
    : Z * wind_task_t * nkpod :=
  if negb primary then (ERROR, cur, pod)
  else if safecnt cur =? 0 then (OK, cur, pod)
  else
    let cnt := safecnt_t (safecnt cur - 1) in
    if cnt =? 0
    then
      match xnsynch_flush (safesync cur) 0 pod with
      | (XNSYNCH_RESCHED, pod, synch) => (1, mk_wind_task cnt synch, pod)
      | (XNSYNCH_DONE, pod, synch) => (0, mk_wind_task cnt synch, pod)
      end
    else (OK, mk_wind_task cnt (safesync cur), pod).

(** [taskUnsafeInner] called [n] times in a row from the primary domain:
    the results, in order, and the task and the scheduler at the end. *)
Fixpoint taskUnsafeInner_times (n : nat) (cur : wind_task_t) (pod : nkpod)
    : list Z * wind_task_t * nkpod :=
  match n with
  | O => ([], cur, pod)
  | S n =>
      let '(r, cur, pod) := taskUnsafeInner true cur pod in
      let '(rs, cur, pod) := taskUnsafeInner_times n cur pod in
      (r :: rs, cur, pod)
  end.

End VxWorksDefs.

(** * Analogy: insn_read.c *)

(** [int] arithmetic. *)
Definition int32_t (z : Z) : Z := wrap_signed 32 z.

Section InsnRead.

(** What each call [a4l_rawtoul (chan, values, buf + offset, cnt)] returns. *)
Variable a4l_rawtoul : Z -> Z -> Z.

(** [dump_text], the loop of lines 121-135.  A chunk is a successful call of
    [a4l_rawtoul], given by the offset into the buffer and the number of
    values, each of which is then printed.  The result is the value of
    [err] at label [out] and the chunks printed, in order; nothing when the
    loop has not ended after [fuel] tests.  The division is the one of C for
    a width other than 0; for the width 0 the C division traps, which the
    result type does not express, and the properties below leave that width
    out. *)
Fixpoint dump_text_loop (fuel : nat) (width size tmp_size err : Z)
    : option (Z * list (Z * Z)) :=
  match fuel with
  | O => None
  | S fuel =>
      if 0 <? int32_t (size - tmp_size)
      then
        let tmp_cnt :=
          if 64 <? Z.quot (int32_t (size - tmp_size)) width
          then 64
          else Z.quot (int32_t (size - tmp_size)) width in
        let err := a4l_rawtoul tmp_size tmp_cnt in
        if err <? 0 then Some (err, [])
        else
          option_map (fun r => (fst r, (tmp_size, tmp_cnt) :: snd r))
                     (dump_text_loop fuel width size
                                     (int32_t (tmp_size + int32_t (tmp_cnt * width)))
                                     err)
      else Some (err, [])
  end.

(** [dump_text], lines 83-139.  [chinfo] is what [a4l_get_chinfo] returns
    and [sizeof_chan] what [a4l_sizeof_chan] returns for the channel; the
    messages on [stderr] and the choice of the format are left out. *)
Definition dump_text (fuel : nat) (chinfo sizeof_chan size : Z)
    : option (Z * list (Z * Z)) :=
  let err := chinfo in
  if err <? 0 then Some (err, [])
  else
    let width := sizeof_chan in
    if width <? 0 then Some (width, [])
    else dump_text_loop fuel width size 0 err.

End InsnRead.

(** The offsets into the buffer of the values of a chunk. *)
Definition chunk_values (width : Z) (chunk : Z * Z) : list Z :=
  map (fun i => fst chunk + Z.of_nat i * width) (seq 0 (Z.to_nat (snd chunk))).

(** The timer of [thread] is armed at [date], in the future; or it has
    fired, and the thread runs again, tagged with XNTIMEO. *)
Definition timer_armed {nk : Nucleus} (thread : tid) (date : Z) (s : rtdm_system) : Prop :=
  thread_wait (threads (sys_pod s) thread) = Waiting (Some date) /\
  jiffies (sys_pod s) < date.

Definition timer_fired {nk : Nucleus} (thread : tid) (s : rtdm_system) : Prop :=
  is_waiting (threads (sys_pod s) thread) = false /\
  xnthread_test_flags (threads (sys_pod s) thread) XNTIMEO = true.

(** ** Sample configurations of the host kernel, the x86 timer and the
    VxWorks skin

    A kernel with an MMU, 4 KiB pages, a vmalloc area from 1 MiB to
    16 MiB and its directly mapped memory 64 KiB above the physical
    addresses; a buffer of three pages in the vmalloc area and one in the
    directly mapped memory, mapped at 64 KiB; a
    machine without local APIC; 32-bit counters in the task control block;
    and an object memory that holds one semaphore, at address 4096. *)
Definition sample_linux_mm : LinuxMm := {|
  CONFIG_MMU := true;
  PAGE_SIZE := 4096;
  VMALLOC_START := 1048576;
  VMALLOC_END := 16777216;
  PAGE_ALIGN := fun addr => (addr + 4095) / 4096 * 4096;
  virt_to_phys := fun addr => wrap_unsigned 64 (addr - 65536);
  EINVAL := 22;
  EAGAIN := 11
|}.

Definition sample_mmap_data : rtdm_mmap_data := mk_mmap_data 2097152 7 9.

Definition lowmem_mmap_data : rtdm_mmap_data := mk_mmap_data 131072 7 9.

(** The same buffer one byte off the page boundary. *)
Definition unaligned_mmap_data : rtdm_mmap_data := mk_mmap_data 2097153 7 9.

Definition sample_vma : vm_area_struct := mk_vma 65536 77824 0 0.

(** An architecture layer that maps every page, and one that fails on the
    page at 69632. *)
Definition remap_succeeds : remap_call -> Z := fun _ => 0.

Definition remap_fails_second : remap_call -> Z :=
  fun call =>
    match call with
    | xnarch_remap_vm_page maddr _ => if maddr =? 69632 then -12 else 0
    | xnarch_remap_io_page_range _ _ _ => 0
    end.

Definition sample_x86_hal : X86Hal := {|
  CONFIG_XENO_OPT_PIPELINE_HEAD := false;
  CONFIG_X86_LOCAL_APIC := false;
  RTHAL_APIC_TIMER_IPI := 239;
  RTHAL_8254_IRQ := 0;
  APIC_TMICT := 896
|}.

Definition sample_vxworks : VxWorks := {|
  OK := 0;
  ERROR := -1;
  safecnt_t := wrap_signed 32
|}.

Definition sample_memory : wind_memory :=
  fun addr => if addr =? 4096 then WIND_SEM_MAGIC else 0.

(** The idle system with the semaphore empty, and a scheduler in which
    every thread has terminated (XNZOMBIE being bit 12). *)
Definition empty_sem_system : rtdm_system :=
  mk_system idle_pod (mk_event idle_synch) (mk_sem 0 idle_synch) (mk_mutex idle_synch).

Definition zombie_pod : nkpod := mk_pod 100 (fun _ => mk_thread 4096 Ready) 0.

(** The system with the semaphore empty and thread 1 suspended on it, for
    ever. *)
Definition waiting_sem_system : rtdm_system :=
  @run sample_nucleus [op_sem_timeddown 1%nat 0 None false] empty_sem_system.

(** * Properties *)

(** ** Flag words *)

Lemma testbits_true_iff (flags mask : Z) :
  testbits flags mask = true <-> Z.land flags mask <> 0.
Proof.
  unfold testbits. rewrite negb_true_iff, Z.eqb_neq. tauto.
Qed.

Lemma testbits_false_iff (flags mask : Z) :
  testbits flags mask = false <-> Z.land flags mask = 0.
Proof.
  unfold testbits. rewrite negb_false_iff, Z.eqb_eq. tauto.
Qed.

Lemma testbits_lor (flags a b : Z) :
  testbits flags (Z.lor a b) = testbits flags a || testbits flags b.
Proof.
  unfold testbits. rewrite Z.land_lor_distr_r.
  destruct (Z.land flags a =? 0) eqn:Ea, (Z.land flags b =? 0) eqn:Eb; simpl;
    rewrite ?negb_true_iff, ?negb_false_iff, ?Z.eqb_eq, ?Z.eqb_neq in *;
    rewrite ?Z.lor_eq_0_iff; tauto.
Qed.

Lemma disjoint_bit (m d : Z) (n : Z) :
  Z.land m d = 0 -> Z.testbit m n && Z.testbit d n = false.
Proof.
  intros H. rewrite <- Z.land_spec, H. apply Z.bits_0.
Qed.

Lemma land_setbits_other (flags m d : Z) :
  Z.land m d = 0 -> Z.land (setbits flags m) d = Z.land flags d.
Proof.
  intros H. unfold setbits. rewrite Z.land_lor_distr_l, H. apply Z.lor_0_r.
Qed.

Lemma land_clrbits_other (flags m d : Z) :
  Z.land m d = 0 -> Z.land (clrbits flags m) d = Z.land flags d.
Proof.
  intros H. unfold clrbits. apply Z.bits_inj'. intros n Hn.
  rewrite !Z.land_spec, Z.lnot_spec by assumption.
  pose proof (disjoint_bit m d n H) as D.
  destruct (Z.testbit flags n), (Z.testbit m n), (Z.testbit d n);
    simpl in *; congruence.
Qed.

Lemma land_clrbits_within (flags m d : Z) :
  Z.land d m = d -> Z.land (clrbits flags m) d = 0.
Proof.
  intros H. unfold clrbits. apply Z.bits_inj'. intros n Hn.
  rewrite !Z.land_spec, Z.lnot_spec, Z.bits_0 by assumption.
  assert (D : Z.testbit d n && Z.testbit m n = Z.testbit d n)
    by (rewrite <- Z.land_spec, H; reflexivity).
  destruct (Z.testbit flags n), (Z.testbit m n), (Z.testbit d n);
    simpl in *; congruence.
Qed.

Lemma testbits_setbits_same (flags m : Z) :
  m <> 0 -> testbits (setbits flags m) m = true.
Proof.
  intros H. apply testbits_true_iff. unfold setbits.
  rewrite Z.land_lor_distr_l, Z.land_diag, Z.lor_eq_0_iff. tauto.
Qed.

Lemma testbits_setbits_other (flags m d : Z) :
  Z.land m d = 0 -> testbits (setbits flags m) d = testbits flags d.
Proof.
  intros H. unfold testbits. now rewrite land_setbits_other.
Qed.

Lemma testbits_clrbits_other (flags m d : Z) :
  Z.land m d = 0 -> testbits (clrbits flags m) d = testbits flags d.
Proof.
  intros H. unfold testbits. now rewrite land_clrbits_other.
Qed.

Lemma testbits_clrbits_same (flags m : Z) : testbits (clrbits flags m) m = false.
Proof.
  apply testbits_false_iff, land_clrbits_within, Z.land_diag.
Qed.

Lemma testbits_setbits_keeps (flags m d : Z) :
  testbits flags d = true -> testbits (setbits flags m) d = true.
Proof.
  rewrite !testbits_true_iff. unfold setbits.
  rewrite Z.land_lor_distr_l, Z.lor_eq_0_iff. tauto.
Qed.

Section Properties.

Context {nk : Nucleus}.

Arguments set_thread : simpl never.
Arguments xnpod_suspend_thread : simpl never.
Arguments xnpod_resume_thread : simpl never.
Arguments xnpod_announce_tick : simpl never.
Arguments xnpod_unblock_thread : simpl never.
Arguments forget_sleepers : simpl never.

(** ** Task services *)

(** C4.  [rtdm_task_init] on a handle with no live thread: when the periodic
    set-up (asked for by a period other than XN_INFINITE) or the start of
    the thread fails after the thread was created, the thread is deleted and
    the error of the failing step is returned; the call returns 0 exactly
    when the task is started, and a non-zero result never comes with a live
    task. *)
Theorem rtdm_task_init_all_or_nothing :
  forall (task : rtdm_task_t) (priority period : Z) (nucleus : nucleus_replies)
         (res : Z) (task' : rtdm_task_t),
    task_live task = false ->
    rtdm_task_init task priority period nucleus = (res, task') ->
    (init_thread_reply nucleus = 0 ->
     period <> XN_INFINITE -> set_periodic_reply nucleus <> 0 ->
     res = set_periodic_reply nucleus /\ task_state_of task' = TaskDeleted) /\
    (init_thread_reply nucleus = 0 ->
     period = XN_INFINITE \/ set_periodic_reply nucleus = 0 ->
     start_thread_reply nucleus <> 0 ->
     res = start_thread_reply nucleus /\ task_state_of task' = TaskDeleted) /\
    (res = 0 <-> task_state_of task' = TaskStarted) /\
    (res <> 0 -> task_live task' = false).
Proof.
  intros task priority period [ri rp rs] res task' Hdead.
  unfold rtdm_task_init, xnpod_init_thread, xnpod_set_thread_periodic,
    xnpod_start_thread, xnpod_delete_thread, task_live in *.
  simpl.
  destruct (ri =? 0) eqn:Ei; simpl; rewrite ?Ei; simpl.
  - destruct (period =? XN_INFINITE) eqn:Ep; simpl.
    + rewrite Ei. simpl.
      destruct (rs =? 0) eqn:Es; simpl; rewrite ?Es; simpl;
        intros [= <- <-]; simpl;
        rewrite ?Z.eqb_eq, ?Z.eqb_neq in *;
        repeat split; intros; try tauto; try congruence; try discriminate.
    + destruct (rp =? 0) eqn:Ep'; simpl; rewrite ?Ep'; simpl.
      * destruct (rs =? 0) eqn:Es; simpl; rewrite ?Es; simpl;
          intros [= <- <-]; simpl;
          rewrite ?Z.eqb_eq, ?Z.eqb_neq in *;
          repeat split; intros; try tauto; try congruence; try discriminate.
      * intros [= <- <-]; simpl.
        rewrite ?Z.eqb_eq, ?Z.eqb_neq in *.
        repeat split; intros; try tauto; try congruence; try discriminate.
  - intros [= <- <-].
    rewrite ?Z.eqb_eq, ?Z.eqb_neq in *.
    repeat split; intros; try tauto; try congruence.
    destruct (task_state_of task); congruence.
Qed.


Lemma threads_set_thread_same (t : tid) (th : xnthread_t) (pod : nkpod) :
  threads (set_thread t th pod) t = th.
Proof.
  simpl. now rewrite Nat.eqb_refl.
Qed.

Lemma threads_set_thread_other (t u : tid) (th : xnthread_t) (pod : nkpod) :
  u <> t -> threads (set_thread t th pod) u = threads pod u.
Proof.
  intros H. simpl. apply Nat.eqb_neq in H. now rewrite H.
Qed.

Lemma land_within_third (a b c : Z) : Z.land c (Z.lor a (Z.lor b c)) = c.
Proof.
  apply Z.bits_inj'. intros n Hn.
  rewrite Z.land_spec, !Z.lor_spec.
  destruct (Z.testbit a n), (Z.testbit b n), (Z.testbit c n); reflexivity.
Qed.

Lemma land_within_second (a b c : Z) : Z.land b (Z.lor a (Z.lor b c)) = b.
Proof.
  apply Z.bits_inj'. intros n Hn.
  rewrite Z.land_spec, !Z.lor_spec.
  destruct (Z.testbit a n), (Z.testbit b n), (Z.testbit c n); reflexivity.
Qed.

Lemma land_within_first (a b c : Z) : Z.land a (Z.lor a (Z.lor b c)) = a.
Proof.
  apply Z.bits_inj'. intros n Hn.
  rewrite Z.land_spec, !Z.lor_spec.
  destruct (Z.testbit a n), (Z.testbit b n), (Z.testbit c n); reflexivity.
Qed.

(** A thread that has just been suspended carries none of the three
    wake-reason bits and is waiting. *)
Lemma suspended_thread (thread : tid) (timeout : Z) (pod : nkpod) :
  let th := threads (xnpod_suspend_thread thread timeout pod) thread in
  is_waiting th = true /\
  testbits (thread_status th) XNTIMEO = false /\
  testbits (thread_status th) XNRMID = false /\
  testbits (thread_status th) XNBREAK = false /\
  thread_wait th = Waiting (if timeout =? XN_INFINITE then None
                            else Some (jiffies pod + timeout)).
Proof.
  unfold xnpod_suspend_thread. cbv zeta. rewrite threads_set_thread_same. simpl.
  repeat split; apply testbits_false_iff, land_clrbits_within.
  - apply land_within_first.
  - apply land_within_second.
  - apply land_within_third.
Qed.

Lemma announce_tick_thread (dt : nat) (pod : nkpod) (u : tid) :
  threads (xnpod_announce_tick dt pod) u =
  (if timer_due (jiffies pod + Z.of_nat dt) (threads pod u)
   then mk_thread (setbits (thread_status (threads pod u)) XNTIMEO) Ready
   else threads pod u).
Proof. reflexivity. Qed.

Lemma announce_tick_jiffies (dt : nat) (pod : nkpod) :
  jiffies (xnpod_announce_tick dt pod) = jiffies pod + Z.of_nat dt.
Proof. reflexivity. Qed.

Lemma suspend_thread_jiffies (thread : tid) (timeout : Z) (pod : nkpod) :
  jiffies (xnpod_suspend_thread thread timeout pod) = jiffies pod.
Proof. reflexivity. Qed.

Lemma timer_due_at (now date : Z) (th : xnthread_t) :
  thread_wait th = Waiting (Some date) -> timer_due now th = (date <=? now).
Proof.
  intros H. unfold timer_due. now rewrite H.
Qed.

Lemma unblock_waiting_thread (thread : tid) (pod : nkpod) :
  is_waiting (threads pod thread) = true ->
  threads (xnpod_unblock_thread thread pod) thread =
  mk_thread (setbits (thread_status (threads pod thread)) XNBREAK) Ready.
Proof.
  intros H. unfold xnpod_unblock_thread. rewrite H.
  apply threads_set_thread_same.
Qed.

Lemma forget_sleepers_pod (s : rtdm_system) : sys_pod (forget_sleepers s) = sys_pod s.
Proof. reflexivity. Qed.

(** C9.  [rtdm_task_sleep_until] in a blockable context.  With [delay] the
    signed 64-bit difference between the wake-up time in ticks and the
    clock: if [delay <= 0] the call returns 0 at once and the caller is not
    suspended; if [0 < delay] the caller is suspended with that delay, and
    when it runs again the call returns -EINTR exactly when XNBREAK is
    flagged and 0 otherwise: -EINTR after a forced unblock, 0 after the
    timer fired. *)
Theorem rtdm_task_sleep_until_spec :
  forall (thread : tid) (wakeup_time : Z) (s : rtdm_system),
    XNBREAK <> 0 ->
    Z.land XNTIMEO XNBREAK = 0 ->
    let delay := int64_t (xnpod_ns2ticks wakeup_time - xnpod_get_time (sys_pod s)) in
    (delay <= 0 ->
     forall env, rtdm_task_sleep_until thread wakeup_time false env s = Returned ok s) /\
    (0 < delay ->
     rtdm_task_sleep_until_entry thread wakeup_time false (sys_pod s)
       = (Asleep delay delay, xnpod_suspend_thread thread delay (sys_pod s)) /\
     (exists s', rtdm_task_sleep_until thread wakeup_time false [] s = Blocked s' /\
                 caller_waiting thread s' = true) /\
     (forall env r s',
        rtdm_task_sleep_until thread wakeup_time false env s = Returned r s' ->
        (r = neg EINTR /\
         xnthread_test_flags (threads (sys_pod s') thread) XNBREAK = true) \/
        (r = ok /\
         xnthread_test_flags (threads (sys_pod s') thread) XNBREAK = false)) /\
     (exists s',
        rtdm_task_sleep_until thread wakeup_time false [[op_task_unblock thread]] s
          = Returned (neg EINTR) s') /\
     (exists s',
        rtdm_task_sleep_until thread wakeup_time false
                              [[op_announce_tick (Z.to_nat delay)]] s
          = Returned ok s' /\
        xnpod_get_time (sys_pod s') = xnpod_get_time (sys_pod s) + delay)).
Proof.
  intros thread wakeup_time [pod ev sm mx] Hbreak Hdisj delay. simpl in delay.
  unfold rtdm_task_sleep_until, rtdm_task_sleep_until_entry.
  rewrite andb_false_r. simpl sys_pod. fold delay.
  split.
  - intros Hle env. apply Z.ltb_ge in Hle. rewrite Hle. reflexivity.
  - intros Hlt. pose proof Hlt as Hlt'. apply Z.ltb_lt in Hlt'. rewrite Hlt'.
    destruct (suspended_thread thread delay pod) as (Hw & _ & _ & Hb & Htimer).
    assert (Hd0 : (delay =? XN_INFINITE) = false)
      by (apply Z.eqb_neq; unfold XN_INFINITE; lia).
    rewrite Hd0 in Htimer.
    split; [reflexivity|].
    split; [eexists; split; [reflexivity | exact Hw]|].
    split; [|split].
    + intros [|others env] r s'; [discriminate|].
      cbv zeta.
      destruct (caller_waiting thread _); [discriminate|].
      intros [= <- <-]. unfold rtdm_task_sleep_until_resume.
      destruct (xnthread_test_flags _ XNBREAK); [left | right]; split; reflexivity.
    + pose proof (suspend_thread_jiffies thread delay pod) as Hj.
      set (pod1 := xnpod_suspend_thread thread delay pod) in *. clearbody pod1.
      exists (forget_sleepers (mk_system (xnpod_unblock_thread thread pod1) ev sm mx)).
      cbv zeta. unfold run, caller_waiting, rtdm_task_sleep_until_resume,
        xnthread_test_flags. simpl fold_left. unfold step. cbv zeta.
      rewrite !forget_sleepers_pod. simpl sys_pod.
      rewrite (unblock_waiting_thread _ _ Hw).
      unfold is_waiting at 1. simpl thread_wait. cbv iota. simpl thread_status.
      rewrite testbits_setbits_same by assumption. reflexivity.
    + pose proof (suspend_thread_jiffies thread delay pod) as Hj.
      set (pod1 := xnpod_suspend_thread thread delay pod) in *. clearbody pod1.
      assert (Hdue : timer_due (jiffies pod1 + Z.of_nat (Z.to_nat delay))
                               (threads pod1 thread) = true).
      { rewrite (timer_due_at _ _ _ Htimer), Hj, Z2Nat.id by lia.
        apply Z.leb_refl. }
      exists (forget_sleepers
                (mk_system (xnpod_announce_tick (Z.to_nat delay) pod1) ev sm mx)).
      cbv zeta. unfold run, caller_waiting, rtdm_task_sleep_until_resume,
        xnthread_test_flags. simpl fold_left. unfold step. cbv zeta.
      rewrite !forget_sleepers_pod. simpl sys_pod.
      rewrite announce_tick_thread, Hdue.
      unfold is_waiting at 1. simpl thread_wait. cbv iota. simpl thread_status.
      rewrite testbits_setbits_other by assumption. rewrite Hb.
      split; [reflexivity|].
      unfold xnpod_get_time.
      rewrite announce_tick_jiffies, Hj, Z2Nat.id by lia.
      reflexivity.
Qed.


(** ** Event services *)

Lemma xnsynch_flush_keeps_status (synch : xnsynch_t) (reason : Z) (pod : nkpod) :
  status (snd (xnsynch_flush synch reason pod)) = status synch.
Proof.
  unfold xnsynch_flush. destruct (pendq synch); reflexivity.
Qed.

Lemma rtdm_event_signal_status (event : rtdm_event_t) (pod : nkpod) :
  status (event_synch_base (snd (rtdm_event_signal event pod)))
  = setbits (status (event_synch_base event)) RTDM_EVENT_PENDING.
Proof.
  unfold rtdm_event_signal, xnsynch_flush, xnsynch_set_flags. simpl.
  destruct (pendq (event_synch_base event)); reflexivity.
Qed.

(** ** What a resumed waiter can return *)

Ltac break_match :=
  match goal with
  | |- context [if ?b then _ else _] => destruct b eqn:?
  | |- context [match ?x with Some _ => _ | None => _ end] => destruct x eqn:?
  | H : context [if ?b then _ else _] |- _ => destruct b eqn:?
  | H : context [match ?x with Some _ => _ | None => _ end] |- _ => destruct x eqn:?
  end.

Ltac split_results :=
  repeat match goal with
         | |- context [match ?e with pair _ _ => _ end] => destruct e as [? ?]
         end.

Lemma rtdm_event_timedwait_resume_codes (thread : tid) (event : rtdm_event_t)
    (pod : nkpod) :
  let r := fst (rtdm_event_timedwait_resume thread event pod) in
  r = ok \/ r = neg ETIMEDOUT \/ r = neg EIDRM \/ r = neg EINTR.
Proof.
  unfold rtdm_event_timedwait_resume. cbv zeta.
  repeat break_match; simpl; tauto.
Qed.

Lemma rtdm_sem_timeddown_resume_codes (thread : tid) (pod : nkpod) :
  let r := rtdm_sem_timeddown_resume thread pod in
  r = ok \/ r = neg ETIMEDOUT \/ r = neg EIDRM \/ r = neg EINTR.
Proof.
  unfold rtdm_sem_timeddown_resume. cbv zeta.
  repeat break_match; simpl; tauto.
Qed.

Lemma rtdm_mutex_timedlock_restart_progress (thread : tid) (mutex : rtdm_mutex_t)
    (timeout : Z) (timeout_seq : option Z) (pod : nkpod) :
  let p := fst (fst (rtdm_mutex_timedlock_restart thread mutex timeout timeout_seq pod)) in
  p = Done (neg ETIMEDOUT) \/ exists ticks timeout', p = Asleep ticks timeout'.
Proof.
  unfold rtdm_mutex_timedlock_restart, xnsynch_sleep_on. cbv zeta.
  repeat break_match; simpl; eauto.
Qed.

Lemma rtdm_mutex_timedlock_resume_progress (thread : tid) (mutex : rtdm_mutex_t)
    (timeout : Z) (timeout_seq : option Z) (pod : nkpod) :
  let p := fst (fst (rtdm_mutex_timedlock_resume thread mutex timeout timeout_seq pod)) in
  p = Done ok \/ p = Done (neg ETIMEDOUT) \/ p = Done (neg EIDRM) \/
  exists ticks timeout', p = Asleep ticks timeout'.
Proof.
  unfold rtdm_mutex_timedlock_resume. cbv zeta.
  destruct (xnthread_test_flags _ (Z.lor _ _)); [|simpl; tauto].
  destruct (xnthread_test_flags _ XNTIMEO); [simpl; tauto|].
  destruct (xnthread_test_flags _ XNRMID); [simpl; tauto|].
  destruct (rtdm_mutex_timedlock_restart_progress thread mutex timeout timeout_seq pod)
    as [H | (ticks & timeout' & H)]; cbv zeta in H; rewrite H; eauto 6.
Qed.

(** Once suspended, a caller of [rtdm_mutex_timedlock] that returns does so
    with 0, -ETIMEDOUT or -EIDRM. *)
Lemma rtdm_mutex_timedlock_wait_codes (thread : tid) (timeout_seq : option Z)
    (env : list (list rtdm_op)) :
  forall (timeout : Z) (s : rtdm_system) (r : retval) (s' : rtdm_system),
    rtdm_mutex_timedlock_wait thread timeout timeout_seq env s = Returned r s' ->
    r = ok \/ r = neg ETIMEDOUT \/ r = neg EIDRM.
Proof.
  induction env as [|others env IH]; intros timeout s r s'; simpl.
  - discriminate.
  - destruct (caller_waiting thread (run others s)); [discriminate|].
    pose proof (rtdm_mutex_timedlock_resume_progress thread
                  (sys_mutex (run others s)) timeout timeout_seq
                  (sys_pod (run others s))) as H.
    cbv zeta in H.
    destruct (rtdm_mutex_timedlock_resume thread (sys_mutex (run others s))
                timeout timeout_seq (sys_pod (run others s)))
      as [[p pod'] mutex']. simpl in H.
    destruct H as [-> | [-> | [-> | (ticks & timeout' & ->)]]].
    + intros [= <- _]. tauto.
    + intros [= <- _]. tauto.
    + intros [= <- _]. tauto.
    + apply IH.
Qed.


(** ** -EWOULDBLOCK *)

Lemma rtdm_event_timedwait_wouldblock (thread : tid) (timeout : Z)
    (timeout_seq : option Z) (env : list (list rtdm_op)) (s : rtdm_system) :
  (exists s', rtdm_event_timedwait thread timeout timeout_seq false env s
              = Returned (neg EWOULDBLOCK) s') <->
  timeout < 0 /\
  testbits (status (event_synch_base (sys_event s))) RTDM_SYNCH_DELETED = false /\
  xnsynch_test_flags (event_synch_base (sys_event s)) RTDM_EVENT_PENDING = false.
Proof.
  unfold rtdm_event_timedwait, rtdm_event_timedwait_entry, xnsynch_sleep_on.
  rewrite andb_false_r.
  destruct (testbits _ RTDM_SYNCH_DELETED).
  { split; [intros [s' [=]] | intros (_ & [=] & _)]. }
  destruct (xnsynch_test_flags _ RTDM_EVENT_PENDING).
  { split; [intros [s' [=]] | intros (_ & _ & [=])]. }
  destruct (timeout <? 0) eqn:Hneg.
  { apply Z.ltb_lt in Hneg. split; [tauto | intros _; eexists; reflexivity]. }
  apply Z.ltb_ge in Hneg.
  split; [|intros (Hlt & _); lia].
  intros [s' H]. exfalso.
  assert (Hresume : forall s1,
             match env with
             | [] => Blocked s1
             | others :: _ =>
                 if caller_waiting thread (run others s1) then Blocked (run others s1)
                 else
                   let '(r, event) :=
                     rtdm_event_timedwait_resume thread (sys_event (run others s1))
                                                 (sys_pod (run others s1)) in
                   Returned r (set_event (run others s1) (sys_pod (run others s1), event))
             end <> Returned (neg EWOULDBLOCK) s').
  { intros s1. destruct env as [|others env]; [discriminate|].
    destruct (caller_waiting thread _); [discriminate|].
    pose proof (rtdm_event_timedwait_resume_codes thread
                  (sys_event (run others s1)) (sys_pod (run others s1))) as Hc.
    cbv zeta in Hc.
    destruct (rtdm_event_timedwait_resume _ _ _) as [r event']. simpl in Hc.
    intros [= -> _]. intuition discriminate. }
  destruct (toseq_in_force timeout_seq timeout) as [deadline|].
  - cbv zeta in H.
    destruct (int64_t (deadline - xnpod_get_time (sys_pod s)) <=? 0);
      [discriminate|].
    exact (Hresume _ H).
  - exact (Hresume _ H).
Qed.

Lemma rtdm_sem_timeddown_wouldblock (thread : tid) (timeout : Z)
    (timeout_seq : option Z) (env : list (list rtdm_op)) (s : rtdm_system) :
  (exists s', rtdm_sem_timeddown thread timeout timeout_seq false env s
              = Returned (neg EWOULDBLOCK) s') <->
  timeout < 0 /\
  testbits (status (sem_synch_base (sys_sem s))) RTDM_SYNCH_DELETED = false /\
  (0 <? value (sys_sem s)) = false.
Proof.
  unfold rtdm_sem_timeddown, rtdm_sem_timeddown_entry, xnsynch_sleep_on.
  rewrite andb_false_r.
  destruct (testbits _ RTDM_SYNCH_DELETED).
  { split; [intros [s' [=]] | intros (_ & [=] & _)]. }
  destruct (0 <? value (sys_sem s)).
  { split; [intros [s' [=]] | intros (_ & _ & [=])]. }
  destruct (timeout <? 0) eqn:Hneg.
  { apply Z.ltb_lt in Hneg. split; [tauto | intros _; eexists; reflexivity]. }
  apply Z.ltb_ge in Hneg.
  split; [|intros (Hlt & _); lia].
  intros [s' H]. exfalso.
  assert (Hresume : forall s1,
             match env with
             | [] => Blocked s1
             | others :: _ =>
                 if caller_waiting thread (run others s1) then Blocked (run others s1)
                 else Returned (rtdm_sem_timeddown_resume thread (sys_pod (run others s1)))
                               (run others s1)
             end <> Returned (neg EWOULDBLOCK) s').
  { intros s1. destruct env as [|others env]; [discriminate|].
    destruct (caller_waiting thread _); [discriminate|].
    pose proof (rtdm_sem_timeddown_resume_codes thread (sys_pod (run others s1))) as Hc.
    cbv zeta in Hc. intros [= Hr _]. rewrite Hr in Hc. intuition discriminate. }
  destruct (toseq_in_force timeout_seq timeout) as [deadline|].
  - cbv zeta in H.
    destruct (int64_t (deadline - xnpod_get_time (sys_pod s)) <=? 0);
      [discriminate|].
    exact (Hresume _ H).
  - exact (Hresume _ H).
Qed.

Lemma rtdm_mutex_timedlock_wouldblock (thread : tid) (timeout : Z)
    (timeout_seq : option Z) (env : list (list rtdm_op)) (s : rtdm_system) :
  (exists s', rtdm_mutex_timedlock thread timeout timeout_seq false env s
              = Returned (neg EWOULDBLOCK) s') <->
  timeout < 0 /\
  testbits (status (mutex_synch_base (sys_mutex s))) RTDM_SYNCH_DELETED = false /\
  xnsynch_owner (mutex_synch_base (sys_mutex s)) <> None.
Proof.
  unfold rtdm_mutex_timedlock, rtdm_mutex_timedlock_entry.
  rewrite andb_false_r.
  destruct (testbits _ RTDM_SYNCH_DELETED).
  { split; [intros [s' [=]] | intros (_ & [=] & _)]. }
  destruct (xnsynch_owner _) as [o|].
  2:{ split; [intros [s' [=]] | intros (_ & _ & Hn); congruence]. }
  destruct (timeout <? 0) eqn:Hneg.
  { apply Z.ltb_lt in Hneg.
    split; [intros _; repeat split; [assumption | discriminate]
           | intros _; eexists; reflexivity]. }
  apply Z.ltb_ge in Hneg.
  split; [|intros (Hlt & _); lia].
  intros [s' H]. exfalso.
  pose proof (rtdm_mutex_timedlock_restart_progress thread (sys_mutex s) timeout
                timeout_seq (sys_pod s)) as Hp.
  cbv zeta in Hp.
  destruct (rtdm_mutex_timedlock_restart thread (sys_mutex s) timeout timeout_seq
              (sys_pod s)) as [[p pod'] mutex']. simpl in Hp.
  destruct Hp as [-> | (ticks & timeout' & ->)]; [discriminate|].
  apply rtdm_mutex_timedlock_wait_codes in H. intuition discriminate.
Qed.


Lemma ulong_small (z : Z) : 0 <= z < 2 ^ BITS_PER_LONG -> ulong z = z.
Proof.
  intros H. unfold ulong, wrap_unsigned. now apply Z.mod_small.
Qed.

(** C7.  The three wait services called in a blockable context on a
    primitive that is not deleted.  When the resource is available (event
    pending, semaphore value positive, mutex without owner) the call returns
    0 and takes the resource whatever the timeout is, a negative one
    included.  A call returns -EWOULDBLOCK if and only if the timeout is
    negative, the primitive is not deleted and the resource is not
    available. *)
Theorem availability_is_tested_before_the_timeout :
  forall (thread : tid) (timeout : Z) (timeout_seq : option Z)
         (env : list (list rtdm_op)) (s : rtdm_system),
    (testbits (status (event_synch_base (sys_event s))) RTDM_SYNCH_DELETED = false ->
     xnsynch_test_flags (event_synch_base (sys_event s)) RTDM_EVENT_PENDING = true ->
     rtdm_event_timedwait thread timeout timeout_seq false env s
     = Returned ok (set_event s (sys_pod s, rtdm_event_clear (sys_event s)))) /\
    (testbits (status (sem_synch_base (sys_sem s))) RTDM_SYNCH_DELETED = false ->
     0 < value (sys_sem s) < 2 ^ BITS_PER_LONG ->
     rtdm_sem_timeddown thread timeout timeout_seq false env s
     = Returned ok (set_sem s (sys_pod s,
                               mk_sem (value (sys_sem s) - 1)
                                      (sem_synch_base (sys_sem s))))) /\
    (testbits (status (mutex_synch_base (sys_mutex s))) RTDM_SYNCH_DELETED = false ->
     xnsynch_owner (mutex_synch_base (sys_mutex s)) = None ->
     rtdm_mutex_timedlock thread timeout timeout_seq false env s
     = Returned ok (set_mutex s (sys_pod s,
                                 mk_mutex (xnsynch_set_owner
                                             (mutex_synch_base (sys_mutex s))
                                             (Some thread))))) /\
    ((exists s', rtdm_event_timedwait thread timeout timeout_seq false env s
                 = Returned (neg EWOULDBLOCK) s') <->
     timeout < 0 /\
     testbits (status (event_synch_base (sys_event s))) RTDM_SYNCH_DELETED = false /\
     xnsynch_test_flags (event_synch_base (sys_event s)) RTDM_EVENT_PENDING = false) /\
    ((exists s', rtdm_sem_timeddown thread timeout timeout_seq false env s
                 = Returned (neg EWOULDBLOCK) s') <->
     timeout < 0 /\
     testbits (status (sem_synch_base (sys_sem s))) RTDM_SYNCH_DELETED = false /\
     (0 <? value (sys_sem s)) = false) /\
    ((exists s', rtdm_mutex_timedlock thread timeout timeout_seq false env s
                 = Returned (neg EWOULDBLOCK) s') <->
     timeout < 0 /\
     testbits (status (mutex_synch_base (sys_mutex s))) RTDM_SYNCH_DELETED = false /\
     xnsynch_owner (mutex_synch_base (sys_mutex s)) <> None).
Proof.
  intros thread timeout timeout_seq env s.
  split; [|split; [|split; [|split; [|split]]]].
  - intros Hlive Hpending.
    unfold rtdm_event_timedwait, rtdm_event_timedwait_entry.
    rewrite andb_false_r, Hlive, Hpending. reflexivity.
  - intros Hlive Hvalue.
    unfold rtdm_sem_timeddown, rtdm_sem_timeddown_entry.
    rewrite andb_false_r, Hlive.
    replace (0 <? value (sys_sem s)) with true by (symmetry; apply Z.ltb_lt; lia).
    rewrite ulong_small by lia. reflexivity.
  - intros Hlive Hfree.
    unfold rtdm_mutex_timedlock, rtdm_mutex_timedlock_entry.
    rewrite andb_false_r, Hlive, Hfree. reflexivity.
  - apply rtdm_event_timedwait_wouldblock.
  - apply rtdm_sem_timeddown_wouldblock.
  - apply rtdm_mutex_timedlock_wouldblock.
Qed.


(** ** Timeout sequences *)

Lemma int64_t_small (z : Z) : - 2 ^ 63 <= z < 2 ^ 63 -> int64_t z = z.
Proof.
  intros H. unfold int64_t, wrap_signed.
  change (2 ^ (64 - 1)) with (2 ^ 63). change (2 ^ 64) with (2 * 2 ^ 63).
  rewrite Z.mod_small by lia. lia.
Qed.

Lemma toseq_in_force_positive (deadline timeout : Z) :
  0 < timeout -> toseq_in_force (Some deadline) timeout = Some deadline.
Proof.
  intros H. unfold toseq_in_force. apply Z.ltb_lt in H. now rewrite H.
Qed.

(** C3.  A wait service called in a blockable context with a timeout
    sequence and a strictly positive timeout, on a live primitive whose
    resource is not available: with [remaining] the 64-bit signed value of
    [deadline - now] (the difference itself as long as it fits), the call
    returns -ETIMEDOUT at once, leaving the system as it was, when
    [remaining <= 0]; otherwise the caller is queued and suspended with
    [remaining] as its timeout, its timer armed at [now + remaining].  The
    deadline is only read: a mutex waiter that restarts works out its new
    timeout from the same deadline. *)
Theorem timeout_sequence_rule :
  forall (thread : tid) (timeout deadline : Z) (s : rtdm_system),
    0 < timeout ->
    let now := xnpod_get_time (sys_pod s) in
    let remaining := int64_t (deadline - now) in
    (- 2 ^ 63 <= deadline - now < 2 ^ 63 -> remaining = deadline - now) /\
    (testbits (status (event_synch_base (sys_event s))) RTDM_SYNCH_DELETED = false ->
     xnsynch_test_flags (event_synch_base (sys_event s)) RTDM_EVENT_PENDING = false ->
     (remaining <= 0 ->
      forall env, rtdm_event_timedwait thread timeout (Some deadline) false env s
                  = Returned (neg ETIMEDOUT) s) /\
     (0 < remaining ->
      rtdm_event_timedwait_entry thread (sys_event s) timeout (Some deadline) false
                                 (sys_pod s)
      = (Asleep remaining remaining,
         xnpod_suspend_thread thread remaining (sys_pod s),
         mk_event (snd (xnsynch_sleep_on thread (event_synch_base (sys_event s))
                                         remaining (sys_pod s)))))) /\
    (testbits (status (sem_synch_base (sys_sem s))) RTDM_SYNCH_DELETED = false ->
     (0 <? value (sys_sem s)) = false ->
     (remaining <= 0 ->
      forall env, rtdm_sem_timeddown thread timeout (Some deadline) false env s
                  = Returned (neg ETIMEDOUT) s) /\
     (0 < remaining ->
      rtdm_sem_timeddown_entry thread (sys_sem s) timeout (Some deadline) false
                               (sys_pod s)
      = (Asleep remaining remaining,
         xnpod_suspend_thread thread remaining (sys_pod s),
         mk_sem (value (sys_sem s))
                (snd (xnsynch_sleep_on thread (sem_synch_base (sys_sem s))
                                       remaining (sys_pod s)))))) /\
    (testbits (status (mutex_synch_base (sys_mutex s))) RTDM_SYNCH_DELETED = false ->
     xnsynch_owner (mutex_synch_base (sys_mutex s)) <> None ->
     (remaining <= 0 ->
      forall env, rtdm_mutex_timedlock thread timeout (Some deadline) false env s
                  = Returned (neg ETIMEDOUT) s) /\
     (0 < remaining ->
      rtdm_mutex_timedlock_entry thread (sys_mutex s) timeout (Some deadline) false
                                 (sys_pod s)
      = (Asleep remaining remaining,
         xnpod_suspend_thread thread remaining (sys_pod s),
         mk_mutex (snd (xnsynch_sleep_on thread (mutex_synch_base (sys_mutex s))
                                         remaining (sys_pod s)))))) /\
    (0 < remaining ->
     forall synch,
       pendq (snd (xnsynch_sleep_on thread synch remaining (sys_pod s)))
       = pendq synch ++ [thread] /\
       thread_wait (threads (xnpod_suspend_thread thread remaining (sys_pod s)) thread)
       = Waiting (Some (now + remaining))) /\
    (forall (mutex : rtdm_mutex_t) (pod' : nkpod) (timeout' : Z),
       0 < timeout' ->
       let remaining' := int64_t (deadline - xnpod_get_time pod') in
       rtdm_mutex_timedlock_restart thread mutex timeout' (Some deadline) pod'
       = if remaining' <=? 0 then (Done (neg ETIMEDOUT), pod', mutex)
         else (Asleep remaining' remaining',
               xnpod_suspend_thread thread remaining' pod',
               mk_mutex (snd (xnsynch_sleep_on thread (mutex_synch_base mutex)
                                               remaining' pod')))).
Proof.
  intros thread timeout deadline [pod ev sm mx] Hpos now remaining.
  simpl in now, remaining. simpl sys_pod. simpl sys_event. simpl sys_sem.
  simpl sys_mutex.
  pose proof (toseq_in_force_positive deadline timeout Hpos) as Hforce.
  assert (Hnonneg : (timeout <? 0) = false) by (apply Z.ltb_ge; lia).
  split; [apply int64_t_small|].
  split; [|split; [|split; [|split]]].
  - intros Hlive Hclear. split.
    + intros Hle env. apply Z.leb_le in Hle.
      unfold rtdm_event_timedwait, rtdm_event_timedwait_entry.
      simpl sys_pod; simpl sys_event.
      rewrite andb_false_r, Hlive, Hclear, Hnonneg, Hforce. cbv zeta.
      fold now. fold remaining. rewrite Hle. reflexivity.
    + intros Hlt. apply Z.leb_gt in Hlt.
      unfold rtdm_event_timedwait_entry.
      rewrite andb_false_r, Hlive, Hclear, Hnonneg, Hforce. cbv zeta.
      fold now. fold remaining. rewrite Hlt. reflexivity.
  - intros Hlive Hzero. split.
    + intros Hle env. apply Z.leb_le in Hle.
      unfold rtdm_sem_timeddown, rtdm_sem_timeddown_entry.
      simpl sys_pod; simpl sys_sem.
      rewrite andb_false_r, Hlive, Hzero, Hnonneg, Hforce. cbv zeta.
      fold now. fold remaining. rewrite Hle. reflexivity.
    + intros Hlt. apply Z.leb_gt in Hlt.
      unfold rtdm_sem_timeddown_entry.
      rewrite andb_false_r, Hlive, Hzero, Hnonneg, Hforce. cbv zeta.
      fold now. fold remaining. rewrite Hlt. reflexivity.
  - intros Hlive Howned.
    destruct (xnsynch_owner (mutex_synch_base mx)) as [o|] eqn:Ho; [|congruence].
    split.
    + intros Hle env. apply Z.leb_le in Hle.
      unfold rtdm_mutex_timedlock, rtdm_mutex_timedlock_entry,
        rtdm_mutex_timedlock_restart.
      simpl sys_pod; simpl sys_mutex.
      rewrite andb_false_r, Hlive, Ho, Hnonneg, Hforce. cbv zeta.
      fold now. fold remaining. rewrite Hle. reflexivity.
    + intros Hlt. apply Z.leb_gt in Hlt.
      unfold rtdm_mutex_timedlock_entry, rtdm_mutex_timedlock_restart.
      rewrite andb_false_r, Hlive, Ho, Hnonneg, Hforce. cbv zeta.
      fold now. fold remaining. rewrite Hlt. reflexivity.
  - intros Hlt synch. split; [reflexivity|].
    destruct (suspended_thread thread remaining pod) as (_ & _ & _ & _ & Htimer).
    rewrite Htimer.
    replace (remaining =? XN_INFINITE) with false
      by (symmetry; apply Z.eqb_neq; unfold XN_INFINITE; lia).
    reflexivity.
  - intros mutex pod' timeout' Hpos' remaining'.
    unfold rtdm_mutex_timedlock_restart.
    rewrite (toseq_in_force_positive deadline timeout' Hpos'). cbv zeta.
    fold remaining'. destruct (remaining' <=? 0); reflexivity.
Qed.


(** ** Semaphore services *)

Lemma rtdm_sem_timeddown_takes (thread : tid) (timeout : Z) (timeout_seq : option Z)
    (s : rtdm_system) :
  testbits (status (sem_synch_base (sys_sem s))) RTDM_SYNCH_DELETED = false ->
  0 < value (sys_sem s) < 2 ^ BITS_PER_LONG ->
  rtdm_sem_timeddown thread timeout timeout_seq false [] s
  = Returned ok (with_sem_value (value (sys_sem s) - 1) s).
Proof.
  intros Hlive Hvalue.
  unfold rtdm_sem_timeddown, rtdm_sem_timeddown_entry.
  rewrite andb_false_r, Hlive.
  replace (0 <? value (sys_sem s)) with true by (symmetry; apply Z.ltb_lt; lia).
  rewrite ulong_small by lia. reflexivity.
Qed.

Lemma rtdm_sem_timeddown_empty (thread : tid) (timeout : Z) (timeout_seq : option Z)
    (s : rtdm_system) :
  testbits (status (sem_synch_base (sys_sem s))) RTDM_SYNCH_DELETED = false ->
  value (sys_sem s) = 0 ->
  timeout < 0 ->
  rtdm_sem_timeddown thread timeout timeout_seq false [] s
  = Returned (neg EWOULDBLOCK) (with_sem_value 0 s).
Proof.
  intros Hlive Hvalue Hneg.
  unfold rtdm_sem_timeddown, rtdm_sem_timeddown_entry.
  rewrite andb_false_r, Hlive, Hvalue.
  apply Z.ltb_lt in Hneg. rewrite Hneg. simpl.
  unfold set_sem, with_sem_value. simpl. rewrite <- Hvalue.
  destruct s as [pod ev [v sy] mx]. reflexivity.
Qed.

Lemma with_sem_value_twice (v w : Z) (s : rtdm_system) :
  with_sem_value v (with_sem_value w s) = with_sem_value v s.
Proof. reflexivity. Qed.

(** As many non-blocking calls as the semaphore counts all return 0. *)
Lemma rtdm_sem_timeddown_calls_succeed (thread : tid) :
  forall (calls : list (Z * option Z)) (s : rtdm_system),
    testbits (status (sem_synch_base (sys_sem s))) RTDM_SYNCH_DELETED = false ->
    Z.of_nat (length calls) <= value (sys_sem s) < 2 ^ BITS_PER_LONG ->
    rtdm_sem_timeddown_calls thread calls s
    = (repeat ok (length calls),
       with_sem_value (value (sys_sem s) - Z.of_nat (length calls)) s).
Proof.
  induction calls as [|[timeout timeout_seq] calls IH]; intros s Hlive Hvalue.
  - simpl. rewrite Z.sub_0_r. destruct s as [pod ev [v sy] mx]. reflexivity.
  - cbn [rtdm_sem_timeddown_calls length repeat].
    cbn [length] in Hvalue.
    rewrite rtdm_sem_timeddown_takes by (assumption || lia).
    rewrite IH; [|exact Hlive|simpl; lia].
    rewrite with_sem_value_twice. simpl value.
    do 2 f_equal. lia.
Qed.

Lemma rtdm_sem_timeddown_calls_app (thread : tid) :
  forall (calls calls' : list (Z * option Z)) (s : rtdm_system),
    length (fst (rtdm_sem_timeddown_calls thread calls s)) = length calls ->
    rtdm_sem_timeddown_calls thread (calls ++ calls') s
    = (fst (rtdm_sem_timeddown_calls thread calls s)
         ++ fst (rtdm_sem_timeddown_calls thread calls'
                   (snd (rtdm_sem_timeddown_calls thread calls s))),
       snd (rtdm_sem_timeddown_calls thread calls'
              (snd (rtdm_sem_timeddown_calls thread calls s)))).
Proof.
  induction calls as [|[timeout timeout_seq] calls IH]; intros calls' s.
  - intros _. simpl. now destruct (rtdm_sem_timeddown_calls thread calls' s).
  - simpl.
    destruct (rtdm_sem_timeddown thread timeout timeout_seq false [] s) as [r s1|s1].
    + specialize (IH calls' s1).
      destruct (rtdm_sem_timeddown_calls thread calls s1) as [rs s2].
      simpl. intros [= Hlen]. rewrite (IH Hlen). reflexivity.
    + simpl. discriminate.
Qed.


Lemma testbits_wake_reasons_clear (flags : Z) :
  testbits flags XNTIMEO = false ->
  testbits flags XNRMID = false ->
  testbits flags XNBREAK = false ->
  testbits flags (Z.lor XNTIMEO (Z.lor XNRMID XNBREAK)) = false.
Proof.
  intros Ht Hr Hb. rewrite !testbits_lor, Ht, Hr, Hb. reflexivity.
Qed.

Lemma setbits_nothing (flags : Z) : setbits flags 0 = flags.
Proof. apply Z.lor_0_r. Qed.

(** C2.  A live semaphore of value [n]: [n] consecutive calls of
    [rtdm_sem_timeddown] with a negative timeout return 0, the value going
    down by one with each, and the next one returns -EWOULDBLOCK with the
    value at 0.  [rtdm_sem_up] either finds the wait queue empty and adds
    one to the value (in [unsigned long] arithmetic), waking nobody, or
    takes the first waiter off the queue and resumes it, leaving the value
    and every other thread as they were; a waiter resumed that way returns
    0 from [rtdm_sem_timeddown] without the value having moved. *)
Theorem rtdm_sem_counts :
  forall (thread : tid) (n : nat) (calls : list (Z * option Z)) (s : rtdm_system),
    testbits (status (sem_synch_base (sys_sem s))) RTDM_SYNCH_DELETED = false ->
    value (sys_sem s) = Z.of_nat n ->
    Z.of_nat n < 2 ^ BITS_PER_LONG ->
    length calls = S n ->
    Forall (fun call => fst call < 0) calls ->
    rtdm_sem_timeddown_calls thread calls s
    = (repeat ok n ++ [neg EWOULDBLOCK], with_sem_value 0 s) /\
    (forall k, (k <= n)%nat ->
       rtdm_sem_timeddown_calls thread (firstn k calls) s
       = (repeat ok k, with_sem_value (Z.of_nat n - Z.of_nat k) s)) /\
    (forall (sem : rtdm_sem_t) (pod : nkpod),
       (pendq (sem_synch_base sem) = [] ->
        rtdm_sem_up sem pod = (pod, mk_sem (ulong (value sem + 1)) (sem_synch_base sem))) /\
       (forall t q,
          pendq (sem_synch_base sem) = t :: q ->
          rtdm_sem_up sem pod
          = (xnpod_schedule (xnpod_resume_thread 0 pod t),
             mk_sem (value sem)
                    (mk_synch (status (sem_synch_base sem))
                              (owner (sem_synch_base sem)) q)) /\
          is_waiting (threads (fst (rtdm_sem_up sem pod)) t) = false /\
          forall u, u <> t ->
                    threads (fst (rtdm_sem_up sem pod)) u = threads pod u) /\
       (0 <= value sem -> value sem + 1 < 2 ^ BITS_PER_LONG ->
        ulong (value sem + 1) = value sem + 1)) /\
    (value (sys_sem s) = 0 ->
     pendq (sem_synch_base (sys_sem s)) = [] ->
     forall timeout,
       0 <= timeout ->
       (exists s', rtdm_sem_timeddown thread timeout None false [] s = Blocked s' /\
                   pendq (sem_synch_base (sys_sem s')) = [thread]) /\
       (exists s', rtdm_sem_timeddown thread timeout None false [[op_sem_up]] s
                   = Returned ok s' /\
                   value (sys_sem s') = 0 /\
                   pendq (sem_synch_base (sys_sem s')) = [])).
Proof.
  intros thread n calls s Hlive Hvalue Hrange Hlen Hneg.
  assert (Hfirst : forall k, (k <= n)%nat ->
            rtdm_sem_timeddown_calls thread (firstn k calls) s
            = (repeat ok k, with_sem_value (Z.of_nat n - Z.of_nat k) s)).
  { intros k Hk.
    assert (Hl : length (firstn k calls) = k) by (rewrite length_firstn; lia).
    rewrite rtdm_sem_timeddown_calls_succeed by (assumption || lia).
    now rewrite Hl, Hvalue. }
  split; [|split; [exact Hfirst|split]].
  - rewrite <- (firstn_skipn n calls) at 1.
    assert (Hlast : exists call, skipn n calls = [call] /\ fst call < 0).
    { pose proof (length_skipn n calls) as Hl. rewrite Hlen in Hl.
      replace (S n - n)%nat with 1%nat in Hl by lia.
      destruct (skipn n calls) as [|call [|call' rest]] eqn:Hs; try discriminate.
      exists call. split; [reflexivity|].
      assert (Hin : In call calls)
        by (rewrite <- (firstn_skipn n calls), Hs; apply in_or_app; right; now left).
      rewrite Forall_forall in Hneg. now apply Hneg. }
    destruct Hlast as ([timeout timeout_seq] & Hs & Hcall). simpl in Hcall.
    rewrite Hs, rtdm_sem_timeddown_calls_app;
      rewrite (Hfirst n (Nat.le_refl n)); cbn [fst snd];
      [|now rewrite repeat_length, length_firstn, Hlen, Nat.min_l by lia].
    rewrite Z.sub_diag. cbn [rtdm_sem_timeddown_calls].
    rewrite rtdm_sem_timeddown_empty by (assumption || reflexivity).
    reflexivity.
  - intros sem pod. split; [|split].
    + intros Hq. unfold rtdm_sem_up, xnsynch_wakeup_one_sleeper. rewrite Hq.
      reflexivity.
    + intros t q Hq. unfold rtdm_sem_up, xnsynch_wakeup_one_sleeper. rewrite Hq.
      cbn [fst]. split; [reflexivity|]. split.
      * unfold xnpod_schedule, xnpod_resume_thread. cbn [threads].
        rewrite threads_set_thread_same. reflexivity.
      * intros u Hu. unfold xnpod_schedule, xnpod_resume_thread. cbn [threads].
        now apply threads_set_thread_other.
    + intros Hlo Hhi. apply ulong_small. lia.
  - intros Hzero Hq timeout Htimeout.
    assert (Hnonneg : (timeout <? 0) = false) by (apply Z.ltb_ge; lia).
    unfold rtdm_sem_timeddown, rtdm_sem_timeddown_entry, xnsynch_sleep_on.
    rewrite andb_false_r, Hlive, Hzero, Hnonneg. cbn [toseq_in_force Z.ltb Z.compare].
    split.
    + eexists. split; [reflexivity|]. cbn. rewrite Hq. reflexivity.
    + destruct (suspended_thread thread (xnpod_ns2ticks timeout) (sys_pod s))
        as (Hw & Ht & Hr & Hb & _).
      set (pod1 := xnpod_suspend_thread thread (xnpod_ns2ticks timeout) (sys_pod s)) in *.
      clearbody pod1.
      unfold run, caller_waiting, rtdm_sem_timeddown_resume, xnthread_test_flags.
      cbn [fold_left]. unfold step, rtdm_sem_up, xnsynch_wakeup_one_sleeper, set_sem.
      cbn [sys_sem sys_pod fst snd sem_synch_base pendq value status owner].
      rewrite Hq. cbn [app fst snd sys_pod].
      unfold xnpod_schedule, xnpod_resume_thread. cbn [threads].
      rewrite threads_set_thread_same. unfold is_waiting at 1.
      cbn [thread_wait thread_status].
      rewrite setbits_nothing, testbits_wake_reasons_clear by assumption.
      eexists. split; [reflexivity|]. split; reflexivity.
Qed.


(** ** Mutex services *)

Lemma rtdm_mutex_timedlock_restart_keeps_owner (thread : tid) (mutex : rtdm_mutex_t)
    (timeout : Z) (timeout_seq : option Z) (pod : nkpod) :
  let r := rtdm_mutex_timedlock_restart thread mutex timeout timeout_seq pod in
  xnsynch_owner (mutex_synch_base (snd r)) = xnsynch_owner (mutex_synch_base mutex) /\
  status (mutex_synch_base (snd r)) = status (mutex_synch_base mutex) /\
  (fst (fst r) = Done (neg ETIMEDOUT) /\ snd r = mutex /\ snd (fst r) = pod \/
   (exists ticks timeout', fst (fst r) = Asleep ticks timeout') /\
   pendq (mutex_synch_base (snd r)) = pendq (mutex_synch_base mutex) ++ [thread] /\
   is_waiting (threads (snd (fst r)) thread) = true).
Proof.
  unfold rtdm_mutex_timedlock_restart, xnsynch_sleep_on. cbv zeta.
  destruct (toseq_in_force timeout_seq timeout) as [deadline|].
  - destruct (int64_t (deadline - xnpod_get_time pod) <=? 0); cbn [fst snd].
    + repeat split; left; repeat split.
    + repeat split. right. repeat split; [eauto|].
      apply (suspended_thread thread _ pod).
  - cbn [fst snd]. repeat split. right. repeat split; [eauto|].
    apply (suspended_thread thread _ pod).
Qed.

(** C8.  [rtdm_mutex_timedlock] called in a blockable context on a live
    mutex by the thread that owns it.  The outcome is the one any other
    thread would get: -EWOULDBLOCK with nothing changed for a negative
    timeout, and otherwise the blocking path from [restart], which queues
    and suspends the caller (or returns -ETIMEDOUT at once when its timeout
    sequence has run out).  The call never returns 0 at that point, and the
    mutex keeps its owner. *)
Theorem rtdm_mutex_timedlock_owner_contends :
  forall (thread : tid) (timeout : Z) (timeout_seq : option Z)
         (mutex : rtdm_mutex_t) (pod : nkpod),
    testbits (status (mutex_synch_base mutex)) RTDM_SYNCH_DELETED = false ->
    xnsynch_owner (mutex_synch_base mutex) = Some thread ->
    let r := rtdm_mutex_timedlock_entry thread mutex timeout timeout_seq false pod in
    (forall contender,
       fst (fst (rtdm_mutex_timedlock_entry contender mutex timeout timeout_seq
                                            false pod))
       = fst (fst r)) /\
    (timeout < 0 -> r = (Done (neg EWOULDBLOCK), pod, mutex)) /\
    (0 <= timeout ->
     r = rtdm_mutex_timedlock_restart thread mutex timeout timeout_seq pod /\
     (fst (fst r) = Done (neg ETIMEDOUT) /\ snd r = mutex /\ snd (fst r) = pod /\
      (exists deadline, toseq_in_force timeout_seq timeout = Some deadline /\
                        int64_t (deadline - xnpod_get_time pod) <= 0) \/
      (exists ticks timeout', fst (fst r) = Asleep ticks timeout') /\
      pendq (mutex_synch_base (snd r)) = pendq (mutex_synch_base mutex) ++ [thread] /\
      is_waiting (threads (snd (fst r)) thread) = true)) /\
    fst (fst r) <> Done ok /\
    xnsynch_owner (mutex_synch_base (snd r)) = Some thread.
Proof.
  intros thread timeout timeout_seq mutex pod Hlive Howner r.
  assert (Hentry : forall caller,
            rtdm_mutex_timedlock_entry caller mutex timeout timeout_seq false pod
            = if timeout <? 0 then (Done (neg EWOULDBLOCK), pod, mutex)
              else rtdm_mutex_timedlock_restart caller mutex timeout timeout_seq pod).
  { intros caller. unfold rtdm_mutex_timedlock_entry.
    now rewrite andb_false_r, Hlive, Howner. }
  subst r. rewrite Hentry.
  split; [|split; [|split; [|split]]].
  - intros contender. rewrite Hentry.
    destruct (timeout <? 0); [reflexivity|].
    unfold rtdm_mutex_timedlock_restart, xnsynch_sleep_on.
    destruct (toseq_in_force timeout_seq timeout) as [deadline|]; cbv zeta;
      [destruct (_ <=? 0)|]; reflexivity.
  - intros Hneg. apply Z.ltb_lt in Hneg. now rewrite Hneg.
  - intros Hnonneg. apply Z.ltb_ge in Hnonneg. rewrite Hnonneg.
    split; [reflexivity|].
    unfold rtdm_mutex_timedlock_restart, xnsynch_sleep_on.
    destruct (toseq_in_force timeout_seq timeout) as [deadline|]; cbv zeta.
    + destruct (int64_t (deadline - xnpod_get_time pod) <=? 0) eqn:Hd; cbn [fst snd].
      * left. repeat split. exists deadline. split; [reflexivity|].
        now apply Z.leb_le.
      * right. repeat split; [eauto|]. apply (suspended_thread thread _ pod).
    + right. cbn [fst snd]. repeat split; [eauto|].
      apply (suspended_thread thread _ pod).
  - destruct (timeout <? 0); [discriminate|].
    destruct (rtdm_mutex_timedlock_restart_progress thread mutex timeout
                timeout_seq pod) as [H | (ticks & timeout' & H)];
      cbv zeta in H; rewrite H; discriminate.
  - destruct (timeout <? 0); [exact Howner|].
    destruct (rtdm_mutex_timedlock_restart_keeps_owner thread mutex timeout
                timeout_seq pod) as (Ho & _).
    now rewrite Ho.
Qed.


Section BreakRetry.

(** The three wake reasons are distinct bits. *)
Hypothesis XNBREAK_set : XNBREAK <> 0.
Hypothesis XNTIMEO_set : XNTIMEO <> 0.
Hypothesis XNBREAK_not_XNTIMEO : Z.land XNBREAK XNTIMEO = 0.
Hypothesis XNBREAK_not_XNRMID : Z.land XNBREAK XNRMID = 0.
Hypothesis XNRMID_set : XNRMID <> 0.
Hypothesis XNRMID_not_XNTIMEO : Z.land XNRMID XNTIMEO = 0.

Lemma break_only_tested (th : xnthread_t) :
  break_only th ->
  xnthread_test_flags th (Z.lor XNTIMEO (Z.lor XNRMID XNBREAK)) = true.
Proof.
  intros (_ & _ & Hb). unfold xnthread_test_flags in *.
  rewrite !testbits_lor, Hb. now rewrite !orb_true_r.
Qed.

Lemma no_wake_reason_tested (th : xnthread_t) :
  no_wake_reason th ->
  xnthread_test_flags th (Z.lor XNTIMEO (Z.lor XNRMID XNBREAK)) = false.
Proof.
  intros (Ht & Hr & Hb). now apply testbits_wake_reasons_clear.
Qed.

(** A waiter resumed with XNBREAK alone goes back to [restart]. *)
Lemma rtdm_mutex_timedlock_resume_break (thread : tid) (mutex : rtdm_mutex_t)
    (timeout : Z) (timeout_seq : option Z) (pod : nkpod) :
  break_only (threads pod thread) ->
  rtdm_mutex_timedlock_resume thread mutex timeout timeout_seq pod
  = rtdm_mutex_timedlock_restart thread mutex timeout timeout_seq pod.
Proof.
  intros Hb. unfold rtdm_mutex_timedlock_resume. cbv zeta.
  rewrite (break_only_tested _ Hb).
  destruct Hb as (-> & -> & _). reflexivity.
Qed.

(** A forced unblock takes the sole waiter off the queue and flags it with
    XNBREAK alone; the clock does not move. *)
Lemma unblock_sole_waiter (thread : tid) (timer : option Z) (s : rtdm_system) :
  sole_mutex_waiter thread timer s ->
  broken_mutex_waiter thread (step s (op_task_unblock thread)) /\
  xnpod_get_time (sys_pod (step s (op_task_unblock thread))) = xnpod_get_time (sys_pod s) /\
  xnsynch_owner (mutex_synch_base (sys_mutex (step s (op_task_unblock thread))))
  = xnsynch_owner (mutex_synch_base (sys_mutex s)).
Proof.
  intros (Hlive & Hq & Hw & Ht & Hr & Hb).
  assert (Hwaiting : is_waiting (threads (sys_pod s) thread) = true)
    by (unfold is_waiting; now rewrite Hw).
  unfold step. cbv zeta. unfold broken_mutex_waiter, break_only.
  rewrite forget_sleepers_pod. cbn [sys_pod].
  rewrite (unblock_waiting_thread _ _ Hwaiting).
  unfold forget_sleepers, xnsynch_forget_sleepers.
  cbn [sys_mutex sys_pod mutex_synch_base status pendq owner].
  rewrite Hq. cbn [filter].
  rewrite (unblock_waiting_thread _ _ Hwaiting). unfold is_waiting at 1.
  cbn [thread_wait thread_status]. unfold xnthread_test_flags in *.
  cbn [thread_status].
  rewrite !testbits_setbits_other, testbits_setbits_same by assumption.
  repeat split; try assumption.
  unfold xnpod_get_time, xnpod_unblock_thread. rewrite Hwaiting. reflexivity.
Qed.

(** A broken waiter whose call has no timeout sequence in force is put back
    to sleep with the whole relative timeout. *)
Lemma broken_waiter_restarts (thread : tid) (timeout : Z) (timeout_seq : option Z)
    (s : rtdm_system) :
  broken_mutex_waiter thread s ->
  toseq_in_force timeout_seq timeout = None ->
  caller_waiting thread s = false /\
  exists pod' mutex',
    rtdm_mutex_timedlock_resume thread (sys_mutex s) timeout timeout_seq (sys_pod s)
    = (Asleep (xnpod_ns2ticks timeout) timeout, pod', mutex') /\
    sole_mutex_waiter thread
      (timer_for (xnpod_get_time (sys_pod s)) (xnpod_ns2ticks timeout))
      (set_mutex s (pod', mutex')) /\
    xnpod_get_time pod' = xnpod_get_time (sys_pod s) /\
    xnsynch_owner (mutex_synch_base mutex')
    = xnsynch_owner (mutex_synch_base (sys_mutex s)).
Proof.
  intros (Hlive & Hq & Hw & Hb) Hforce.
  split; [unfold caller_waiting, is_waiting; now rewrite Hw|].
  rewrite (rtdm_mutex_timedlock_resume_break _ _ _ _ _ Hb).
  unfold rtdm_mutex_timedlock_restart, xnsynch_sleep_on. rewrite Hforce.
  do 2 eexists. split; [reflexivity|].
  destruct (suspended_thread thread (xnpod_ns2ticks timeout) (sys_pod s))
    as (_ & Ht' & Hr' & Hb' & Htimer).
  unfold sole_mutex_waiter, no_wake_reason, xnthread_test_flags, set_mutex.
  cbn [sys_mutex sys_pod fst snd mutex_synch_base status pendq].
  rewrite Hq. repeat split; assumption.
Qed.

Lemma rtdm_mutex_timedlock_wait_cons (thread : tid) (timeout : Z)
    (timeout_seq : option Z) (others : list rtdm_op) (env : list (list rtdm_op))
    (s : rtdm_system) :
  rtdm_mutex_timedlock_wait thread timeout timeout_seq (others :: env) s
  = if caller_waiting thread (run others s) then Blocked (run others s)
    else
      match rtdm_mutex_timedlock_resume thread (sys_mutex (run others s)) timeout
                                        timeout_seq (sys_pod (run others s)) with
      | (Done r, pod, mutex) => Returned r (set_mutex (run others s) (pod, mutex))
      | (Asleep _ timeout, pod, mutex) =>
          rtdm_mutex_timedlock_wait thread timeout timeout_seq env
                                    (set_mutex (run others s) (pod, mutex))
      end.
Proof. reflexivity. Qed.

Lemma run_app (ops ops' : list rtdm_op) (s : rtdm_system) :
  run (ops ++ ops') s = run ops' (run ops s).
Proof. apply fold_left_app. Qed.

(** A clock tick that does not reach the timer of the sole waiter leaves it
    waiting. *)
Lemma tick_before_timer (thread : tid) (date : Z) (dt : nat) (s : rtdm_system) :
  sole_mutex_waiter thread (Some date) s ->
  xnpod_get_time (sys_pod s) + Z.of_nat dt < date ->
  sole_mutex_waiter thread (Some date) (step s (op_announce_tick dt)) /\
  xnpod_get_time (sys_pod (step s (op_announce_tick dt)))
  = xnpod_get_time (sys_pod s) + Z.of_nat dt.
Proof.
  intros (Hlive & Hq & Hw & Hflags) Hlt. unfold xnpod_get_time in *.
  assert (Hnot : timer_due (jiffies (sys_pod s) + Z.of_nat dt)
                           (threads (sys_pod s) thread) = false)
    by (rewrite (timer_due_at _ _ _ Hw); apply Z.leb_gt; lia).
  unfold step. cbv zeta. unfold sole_mutex_waiter.
  rewrite forget_sleepers_pod. cbn [sys_pod].
  rewrite announce_tick_thread, Hnot, announce_tick_jiffies.
  unfold forget_sleepers, xnsynch_forget_sleepers.
  cbn [sys_mutex sys_pod mutex_synch_base status pendq].
  rewrite Hq. cbn [filter]. rewrite announce_tick_thread, Hnot.
  unfold is_waiting. rewrite Hw.
  repeat split; try assumption; apply Hflags.
Qed.

(** A clock tick that reaches the timer of the sole waiter ends its call
    with -ETIMEDOUT. *)
Lemma rtdm_mutex_timedlock_wait_timer (thread : tid) (timeout : Z)
    (timeout_seq : option Z) (env : list (list rtdm_op)) (date : Z) (dt : nat)
    (s : rtdm_system) :
  sole_mutex_waiter thread (Some date) s ->
  date <= xnpod_get_time (sys_pod s) + Z.of_nat dt ->
  exists s',
    rtdm_mutex_timedlock_wait thread timeout timeout_seq
                              ([op_announce_tick dt] :: env) s
    = Returned (neg ETIMEDOUT) s' /\
    xnpod_get_time (sys_pod s') = xnpod_get_time (sys_pod s) + Z.of_nat dt.
Proof.
  intros (Hlive & Hq & Hw & Hflags) Hle. unfold xnpod_get_time in *.
  assert (Hdue : timer_due (jiffies (sys_pod s) + Z.of_nat dt)
                           (threads (sys_pod s) thread) = true)
    by (rewrite (timer_due_at _ _ _ Hw); apply Z.leb_le; lia).
  rewrite rtdm_mutex_timedlock_wait_cons.
  unfold run. cbn [fold_left]. unfold step. cbv zeta.
  unfold caller_waiting, rtdm_mutex_timedlock_resume. cbv zeta.
  rewrite forget_sleepers_pod. cbn [sys_pod].
  rewrite announce_tick_thread, Hdue. unfold is_waiting at 1.
  cbn [thread_wait]. unfold xnthread_test_flags. cbn [thread_status].
  rewrite testbits_lor, testbits_setbits_same by assumption.
  cbn [orb]. eexists. split; [reflexivity|].
  unfold set_mutex. cbn [fst sys_pod]. apply announce_tick_jiffies.
Qed.

(** A forced unblock of the sole waiter, possibly after other operations
    that left it the sole waiter, sends it round the loop once: it is the
    sole waiter again, with a fresh timer for the whole relative timeout. *)
Lemma rtdm_mutex_timedlock_wait_break (thread : tid) (timeout : Z)
    (timeout_seq : option Z) (before : list rtdm_op) (timer : option Z)
    (s : rtdm_system) :
  sole_mutex_waiter thread timer (run before s) ->
  toseq_in_force timeout_seq timeout = None ->
  exists s',
    (forall env,
       rtdm_mutex_timedlock_wait thread timeout timeout_seq
                                 ((before ++ [op_task_unblock thread]) :: env) s
       = rtdm_mutex_timedlock_wait thread timeout timeout_seq env s') /\
    sole_mutex_waiter thread
      (timer_for (xnpod_get_time (sys_pod (run before s))) (xnpod_ns2ticks timeout)) s' /\
    xnpod_get_time (sys_pod s') = xnpod_get_time (sys_pod (run before s)) /\
    xnsynch_owner (mutex_synch_base (sys_mutex s'))
    = xnsynch_owner (mutex_synch_base (sys_mutex (run before s))).
Proof.
  intros Hsole Hforce.
  destruct (unblock_sole_waiter thread timer (run before s) Hsole)
    as (Hbroken & Htime & Howner).
  destruct (broken_waiter_restarts thread timeout timeout_seq _ Hbroken Hforce)
    as (Hawake & pod' & mutex' & Hresume & Hsole' & Htime' & Howner').
  exists (set_mutex (step (run before s) (op_task_unblock thread)) (pod', mutex')).
  split; [|split; [|split]].
  - intros env. rewrite rtdm_mutex_timedlock_wait_cons, run_app.
    change (run [op_task_unblock thread] (run before s))
      with (step (run before s) (op_task_unblock thread)).
    now rewrite Hawake, Hresume.
  - now rewrite <- Htime.
  - cbn [set_mutex sys_pod fst]. congruence.
  - cbn [set_mutex sys_mutex snd]. congruence.
Qed.

(** [rtdm_mutex_unlock] hands the mutex to the sole waiter, whose call
    returns 0. *)
Lemma rtdm_mutex_timedlock_wait_unlock (thread : tid) (timeout : Z)
    (timeout_seq : option Z) (env : list (list rtdm_op)) (timer : option Z)
    (s : rtdm_system) :
  sole_mutex_waiter thread timer s ->
  exists s',
    rtdm_mutex_timedlock_wait thread timeout timeout_seq ([op_mutex_unlock] :: env) s
    = Returned ok s' /\
    xnsynch_owner (mutex_synch_base (sys_mutex s')) = Some thread.
Proof.
  intros (Hlive & Hq & Hw & Ht & Hr & Hb).
  rewrite rtdm_mutex_timedlock_wait_cons.
  unfold run. cbn [fold_left]. unfold step. cbv zeta.
  unfold rtdm_mutex_unlock, xnsynch_wakeup_one_sleeper. rewrite Hq.
  unfold caller_waiting, rtdm_mutex_timedlock_resume, set_mutex. cbv zeta.
  cbn [fst snd sys_pod sys_mutex].
  unfold xnpod_schedule, xnpod_resume_thread. cbn [threads].
  rewrite threads_set_thread_same. unfold is_waiting at 1. cbn [thread_wait].
  unfold xnthread_test_flags in *. cbn [thread_status].
  rewrite setbits_nothing, testbits_wake_reasons_clear by assumption.
  eexists. split; reflexivity.
Qed.

(** A contended call without a timeout sequence in force makes the caller
    the sole waiter of a mutex nobody else waits for. *)
Lemma rtdm_mutex_timedlock_entry_contended (thread : tid) (timeout : Z)
    (timeout_seq : option Z) (s : rtdm_system) :
  testbits (status (mutex_synch_base (sys_mutex s))) RTDM_SYNCH_DELETED = false ->
  xnsynch_owner (mutex_synch_base (sys_mutex s)) <> None ->
  pendq (mutex_synch_base (sys_mutex s)) = [] ->
  0 <= timeout ->
  toseq_in_force timeout_seq timeout = None ->
  exists s',
    (forall env,
       rtdm_mutex_timedlock thread timeout timeout_seq false env s
       = rtdm_mutex_timedlock_wait thread timeout timeout_seq env s') /\
    sole_mutex_waiter thread
      (timer_for (xnpod_get_time (sys_pod s)) (xnpod_ns2ticks timeout)) s' /\
    xnpod_get_time (sys_pod s') = xnpod_get_time (sys_pod s).
Proof.
  intros Hlive Howned Hq Hnonneg Hforce.
  destruct (xnsynch_owner (mutex_synch_base (sys_mutex s))) as [o|] eqn:Ho;
    [|congruence].
  apply Z.ltb_ge in Hnonneg.
  unfold rtdm_mutex_timedlock, rtdm_mutex_timedlock_entry,
    rtdm_mutex_timedlock_restart, xnsynch_sleep_on.
  rewrite andb_false_r, Hlive, Ho, Hnonneg, Hforce.
  eexists. split; [intros env; reflexivity|].
  destruct (suspended_thread thread (xnpod_ns2ticks timeout) (sys_pod s))
    as (_ & Ht' & Hr' & Hb' & Htimer).
  unfold sole_mutex_waiter, no_wake_reason, xnthread_test_flags, set_mutex.
  cbn [sys_mutex sys_pod fst snd mutex_synch_base status pendq].
  rewrite Hq. repeat split; assumption.
Qed.

(** The deletion of the mutex ends the call of the sole waiter with
    -EIDRM. *)
Lemma rtdm_mutex_timedlock_wait_destroy (thread : tid) (timeout : Z)
    (timeout_seq : option Z) (env : list (list rtdm_op)) (timer : option Z)
    (s : rtdm_system) :
  sole_mutex_waiter thread timer s ->
  exists s',
    rtdm_mutex_timedlock_wait thread timeout timeout_seq ([op_mutex_destroy] :: env) s
    = Returned (neg EIDRM) s'.
Proof.
  intros (Hlive & Hq & Hw & Ht & Hr & Hb).
  rewrite rtdm_mutex_timedlock_wait_cons.
  unfold run. cbn [fold_left]. unfold step. cbv zeta.
  unfold rtdm_mutex_destroy, _rtdm_synch_flush, xnsynch_flush.
  rewrite Z.eqb_refl. cbn [pendq]. rewrite Hq.
  unfold caller_waiting, rtdm_mutex_timedlock_resume, set_mutex. cbv zeta.
  cbn [fst snd sys_pod sys_mutex fold_left].
  unfold xnpod_schedule, xnpod_resume_thread. cbn [threads].
  rewrite threads_set_thread_same. unfold is_waiting at 1. cbn [thread_wait].
  unfold xnthread_test_flags in *. cbn [thread_status].
  rewrite !testbits_lor, testbits_setbits_same by assumption.
  rewrite testbits_setbits_other, Ht by assumption.
  cbn [orb]. eexists. reflexivity.
Qed.

Lemma rtdm_mutex_timedlock_never_eintr (thread : tid) (timeout : Z)
    (timeout_seq : option Z) (unblockable : bool) (env : list (list rtdm_op))
    (s : rtdm_system) (r : retval) (s' : rtdm_system) :
  rtdm_mutex_timedlock thread timeout timeout_seq unblockable env s = Returned r s' ->
  r <> neg EINTR.
Proof.
  unfold rtdm_mutex_timedlock, rtdm_mutex_timedlock_entry.
  destruct (XENO_DEBUG_RTDM && unblockable); [intros [= <- _]; discriminate|].
  destruct (testbits _ RTDM_SYNCH_DELETED); [intros [= <- _]; discriminate|].
  destruct (xnsynch_owner _); [|intros [= <- _]; discriminate].
  destruct (timeout <? 0); [intros [= <- _]; discriminate|].
  pose proof (rtdm_mutex_timedlock_restart_progress thread (sys_mutex s) timeout
                timeout_seq (sys_pod s)) as Hp.
  cbv zeta in Hp.
  destruct (rtdm_mutex_timedlock_restart thread (sys_mutex s) timeout timeout_seq
              (sys_pod s)) as [[p pod'] mutex']. cbn [fst] in Hp.
  destruct Hp as [-> | (ticks & timeout' & ->)].
  - intros [= <- _]. discriminate.
  - intros H. apply rtdm_mutex_timedlock_wait_codes in H.
    intuition (subst; discriminate).
Qed.

(** C1.  [rtdm_mutex_timedlock] and the forced unblock.  A waiter that runs
    again with XNBREAK alone goes back to [restart]; a call that has been
    suspended returns nothing but 0, -ETIMEDOUT or -EIDRM, and no call
    returns -EINTR.  On a live, owned mutex nobody waits for, a caller that
    is forcibly unblocked is waiting again afterwards; its call then returns
    0, with the caller as owner, once the mutex is unlocked, -EIDRM once the
    mutex is destroyed, and -ETIMEDOUT once the timer of the new sleep
    fires. *)
Theorem rtdm_mutex_timedlock_break_retries :
  forall (thread : tid) (timeout : Z) (timeout_seq : option Z) (unblockable : bool)
         (env : list (list rtdm_op)) (s : rtdm_system),
    (forall mutex pod timeout',
       break_only (threads pod thread) ->
       rtdm_mutex_timedlock_resume thread mutex timeout' timeout_seq pod
       = rtdm_mutex_timedlock_restart thread mutex timeout' timeout_seq pod) /\
    (forall timeout' r s',
       rtdm_mutex_timedlock_wait thread timeout' timeout_seq env s = Returned r s' ->
       r = ok \/ r = neg ETIMEDOUT \/ r = neg EIDRM) /\
    (forall r s',
       rtdm_mutex_timedlock thread timeout timeout_seq unblockable env s
       = Returned r s' ->
       r <> neg EINTR) /\
    (testbits (status (mutex_synch_base (sys_mutex s))) RTDM_SYNCH_DELETED = false ->
     xnsynch_owner (mutex_synch_base (sys_mutex s)) <> None ->
     pendq (mutex_synch_base (sys_mutex s)) = [] ->
     (exists s',
        rtdm_mutex_timedlock thread 0 timeout_seq false [[op_task_unblock thread]] s
        = Blocked s' /\
        pendq (mutex_synch_base (sys_mutex s')) = [thread] /\
        caller_waiting thread s' = true) /\
     (exists s',
        rtdm_mutex_timedlock thread 0 timeout_seq false
                             [[op_task_unblock thread]; [op_mutex_unlock]] s
        = Returned ok s' /\
        xnsynch_owner (mutex_synch_base (sys_mutex s')) = Some thread) /\
     (exists s',
        rtdm_mutex_timedlock thread 0 timeout_seq false
                             [[op_task_unblock thread]; [op_mutex_destroy]] s
        = Returned (neg EIDRM) s') /\
     (forall relative,
        0 < relative -> 0 < xnpod_ns2ticks relative ->
        exists s',
          rtdm_mutex_timedlock thread relative None false
            [[op_task_unblock thread];
             [op_announce_tick (Z.to_nat (xnpod_ns2ticks relative))]] s
          = Returned (neg ETIMEDOUT) s')).
Proof.
  intros thread timeout timeout_seq unblockable env s.
  split; [|split; [|split]].
  - intros mutex pod timeout'. apply rtdm_mutex_timedlock_resume_break.
  - intros timeout'. apply rtdm_mutex_timedlock_wait_codes.
  - apply rtdm_mutex_timedlock_never_eintr.
  - intros Hlive Howned Hq.
    assert (Hforce : toseq_in_force timeout_seq 0 = None)
      by (unfold toseq_in_force; now destruct timeout_seq).
    destruct (rtdm_mutex_timedlock_entry_contended thread 0 timeout_seq s
                Hlive Howned Hq (Z.le_refl 0) Hforce)
      as (s0 & Hcall & Hsole0 & _).
    destruct (rtdm_mutex_timedlock_wait_break thread 0 timeout_seq [] _ s0
                Hsole0 Hforce)
      as (s1 & Hround & Hsole1 & _ & _).
    cbn [app] in Hround.
    split.
    + exists s1. rewrite Hcall, Hround. cbn [rtdm_mutex_timedlock_wait].
      destruct Hsole1 as (_ & Hq1 & Hw1 & _).
      repeat split; [exact Hq1|].
      unfold caller_waiting, is_waiting. now rewrite Hw1.
    + split; [|split].
      * destruct (rtdm_mutex_timedlock_wait_unlock thread 0 timeout_seq [] _ s1 Hsole1)
          as (s2 & Hunlock & Howner2).
        exists s2. now rewrite Hcall, Hround, Hunlock.
      * destruct (rtdm_mutex_timedlock_wait_destroy thread 0 timeout_seq [] _ s1 Hsole1)
          as (s2 & Hdestroy).
        exists s2. now rewrite Hcall, Hround, Hdestroy.
      * intros relative Hrel Hticks.
        destruct (rtdm_mutex_timedlock_entry_contended thread relative None s
                    Hlive Howned Hq (Z.lt_le_incl _ _ Hrel) eq_refl)
          as (r0 & Hcall' & Hsole0' & Htime0).
        destruct (rtdm_mutex_timedlock_wait_break thread relative None [] _ r0
                    Hsole0' eq_refl)
          as (r1 & Hround' & Hsole1' & Htime1 & _).
        cbn [app] in Hround'. unfold timer_for in Hsole1'.
        replace (xnpod_ns2ticks relative =? XN_INFINITE) with false in Hsole1'
          by (symmetry; apply Z.eqb_neq; unfold XN_INFINITE; lia).
        cbn [run fold_left] in Hsole1', Htime1.
        destruct (rtdm_mutex_timedlock_wait_timer thread relative None [] _
                    (Z.to_nat (xnpod_ns2ticks relative)) r1 Hsole1')
          as (r2 & Htimer & _).
        { rewrite Htime1, Z2Nat.id by lia. lia. }
        exists r2. now rewrite Hcall', Hround', Htimer.
Qed.

(** Forced unblocks [ticks - 1] ticks into each sleep, [n] times over, then
    a sleep left alone until its timer fires. *)
Lemma rtdm_mutex_timedlock_wait_rounds (thread : tid) (timeout : Z) (n : nat) :
  let ticks := xnpod_ns2ticks timeout in
  1 < ticks ->
  forall s,
    sole_mutex_waiter thread (Some (xnpod_get_time (sys_pod s) + ticks)) s ->
    exists s',
      rtdm_mutex_timedlock_wait thread timeout None
        (repeat [op_announce_tick (Z.to_nat (ticks - 1)); op_task_unblock thread] n
           ++ [[op_announce_tick (Z.to_nat ticks)]]) s
      = Returned (neg ETIMEDOUT) s' /\
      xnpod_get_time (sys_pod s')
      = xnpod_get_time (sys_pod s) + Z.of_nat n * (ticks - 1) + ticks.
Proof.
  intros ticks Hticks. induction n as [|n IH]; intros s Hsole.
  - cbn [repeat app].
    destruct (rtdm_mutex_timedlock_wait_timer thread timeout None []
                _ (Z.to_nat ticks) s Hsole) as (s' & Hret & Htime).
    { rewrite Z2Nat.id by lia. lia. }
    exists s'. split; [exact Hret|]. rewrite Htime, Z2Nat.id by lia. lia.
  - cbn [repeat app].
    destruct (tick_before_timer thread _ (Z.to_nat (ticks - 1)) s Hsole)
      as (Hsole1 & Htime1).
    { rewrite Z2Nat.id by lia. lia. }
    change (step s (op_announce_tick (Z.to_nat (ticks - 1))))
      with (run [op_announce_tick (Z.to_nat (ticks - 1))] s) in Hsole1, Htime1.
    destruct (rtdm_mutex_timedlock_wait_break thread timeout None
                [op_announce_tick (Z.to_nat (ticks - 1))] _ s Hsole1 eq_refl)
      as (s2 & Hround & Hsole2 & Htime2 & _).
    cbn [app] in Hround. rewrite Hround.
    unfold timer_for in Hsole2. fold ticks in Hsole2.
    replace (ticks =? XN_INFINITE) with false in Hsole2
      by (symmetry; apply Z.eqb_neq; unfold XN_INFINITE; lia).
    rewrite <- Htime2 in Hsole2.
    destruct (IH s2 Hsole2) as (s' & Hret & Htime).
    exists s'. split; [exact Hret|].
    rewrite Htime, Htime2, Htime1, Z2Nat.id by lia. lia.
Qed.

(** C10.  [rtdm_mutex_timedlock] with a relative timeout and no timeout
    sequence.  A waiter that runs again with XNBREAK alone is suspended
    again with the whole timeout, [xnpod_ns2ticks timeout], whereas with a
    timeout sequence it is suspended with what is left until the deadline.
    So, on a live, owned mutex nobody else waits for, a caller that is
    forcibly unblocked [n] times, each time one tick before its timer would
    fire, gets -ETIMEDOUT only after [n * (ticks - 1) + ticks] ticks, which
    is more than its timeout of [ticks] as soon as [n] is positive. *)
Theorem rtdm_mutex_timedlock_relative_timeout_restarts :
  forall (thread : tid) (timeout : Z) (s : rtdm_system),
    0 < timeout ->
    (forall mutex pod,
       break_only (threads pod thread) ->
       rtdm_mutex_timedlock_resume thread mutex timeout None pod
       = (Asleep (xnpod_ns2ticks timeout) timeout,
          xnpod_suspend_thread thread (xnpod_ns2ticks timeout) pod,
          mk_mutex (snd (xnsynch_sleep_on thread (mutex_synch_base mutex)
                                          (xnpod_ns2ticks timeout) pod)))) /\
    (forall mutex pod deadline,
       break_only (threads pod thread) ->
       let remaining := int64_t (deadline - xnpod_get_time pod) in
       rtdm_mutex_timedlock_resume thread mutex timeout (Some deadline) pod
       = if remaining <=? 0 then (Done (neg ETIMEDOUT), pod, mutex)
         else (Asleep remaining remaining,
               xnpod_suspend_thread thread remaining pod,
               mk_mutex (snd (xnsynch_sleep_on thread (mutex_synch_base mutex)
                                               remaining pod)))) /\
    (testbits (status (mutex_synch_base (sys_mutex s))) RTDM_SYNCH_DELETED = false ->
     xnsynch_owner (mutex_synch_base (sys_mutex s)) <> None ->
     pendq (mutex_synch_base (sys_mutex s)) = [] ->
     let ticks := xnpod_ns2ticks timeout in
     1 < ticks ->
     forall n : nat,
       exists s',
         rtdm_mutex_timedlock thread timeout None false
           (repeat [op_announce_tick (Z.to_nat (ticks - 1)); op_task_unblock thread] n
              ++ [[op_announce_tick (Z.to_nat ticks)]]) s
         = Returned (neg ETIMEDOUT) s' /\
         xnpod_get_time (sys_pod s')
         = xnpod_get_time (sys_pod s) + Z.of_nat n * (ticks - 1) + ticks /\
         ((0 < n)%nat ->
          xnpod_get_time (sys_pod s) + ticks < xnpod_get_time (sys_pod s'))).
Proof.
  intros thread timeout s Hpos.
  split; [|split].
  - intros mutex pod Hb.
    now rewrite (rtdm_mutex_timedlock_resume_break _ _ _ _ _ Hb).
  - intros mutex pod deadline Hb remaining.
    rewrite (rtdm_mutex_timedlock_resume_break _ _ _ _ _ Hb).
    unfold rtdm_mutex_timedlock_restart.
    rewrite (toseq_in_force_positive deadline timeout Hpos). cbv zeta.
    fold remaining. destruct (remaining <=? 0); reflexivity.
  - intros Hlive Howned Hq ticks Hticks n.
    destruct (rtdm_mutex_timedlock_entry_contended thread timeout None s
                Hlive Howned Hq (Z.lt_le_incl _ _ Hpos) eq_refl)
      as (s0 & Hcall & Hsole0 & Htime0).
    unfold timer_for in Hsole0. fold ticks in Hsole0.
    replace (ticks =? XN_INFINITE) with false in Hsole0
      by (symmetry; apply Z.eqb_neq; unfold XN_INFINITE; lia).
    rewrite <- Htime0 in Hsole0.
    destruct (rtdm_mutex_timedlock_wait_rounds thread timeout n Hticks s0 Hsole0)
      as (s' & Hret & Htime).
    exists s'. rewrite Hcall. split; [exact Hret|].
    rewrite Htime, Htime0. split; [reflexivity|]. nia.
Qed.

End BreakRetry.

Section Deletion.

(** The deleted bit and the pending bit of an event are distinct bits of the
    status word. *)
Hypothesis deleted_set : RTDM_SYNCH_DELETED <> 0.
Hypothesis pending_not_deleted : Z.land RTDM_EVENT_PENDING RTDM_SYNCH_DELETED = 0.

Lemma _rtdm_synch_flush_status (synch : xnsynch_t) (reason : Z) (pod : nkpod) :
  status (snd (_rtdm_synch_flush synch reason pod))
  = if reason =? XNRMID then setbits (status synch) RTDM_SYNCH_DELETED
    else status synch.
Proof.
  unfold _rtdm_synch_flush, xnsynch_flush.
  destruct (reason =? XNRMID); cbn [pendq status];
    destruct (pendq synch); reflexivity.
Qed.

Lemma _rtdm_synch_flush_keeps_deleted (synch : xnsynch_t) (reason : Z) (pod : nkpod) :
  deleted synch -> deleted (snd (_rtdm_synch_flush synch reason pod)).
Proof.
  unfold deleted. rewrite _rtdm_synch_flush_status.
  destruct (reason =? XNRMID); [apply testbits_setbits_keeps | trivial].
Qed.

Lemma _rtdm_synch_flush_deletes (synch : xnsynch_t) (pod : nkpod) :
  deleted (snd (_rtdm_synch_flush synch XNRMID pod)).
Proof.
  unfold deleted. rewrite _rtdm_synch_flush_status, Z.eqb_refl.
  now apply testbits_setbits_same.
Qed.

Lemma clear_pending_keeps_deleted (synch : xnsynch_t) :
  deleted synch -> deleted (xnsynch_clear_flags synch RTDM_EVENT_PENDING).
Proof.
  unfold deleted, xnsynch_clear_flags. cbn [status].
  now rewrite testbits_clrbits_other.
Qed.

Lemma rtdm_event_timedwait_entry_deleted (thread : tid) (event : rtdm_event_t)
    (timeout : Z) (timeout_seq : option Z) (pod : nkpod) :
  deleted (event_synch_base event) ->
  rtdm_event_timedwait_entry thread event timeout timeout_seq false pod
  = (Done (neg EIDRM), pod, event).
Proof.
  intros H. unfold rtdm_event_timedwait_entry. now rewrite andb_false_r, H.
Qed.

Lemma rtdm_sem_timeddown_entry_deleted (thread : tid) (sem : rtdm_sem_t)
    (timeout : Z) (timeout_seq : option Z) (pod : nkpod) :
  deleted (sem_synch_base sem) ->
  rtdm_sem_timeddown_entry thread sem timeout timeout_seq false pod
  = (Done (neg EIDRM), pod, sem).
Proof.
  intros H. unfold rtdm_sem_timeddown_entry. now rewrite andb_false_r, H.
Qed.

Lemma rtdm_mutex_timedlock_entry_deleted (thread : tid) (mutex : rtdm_mutex_t)
    (timeout : Z) (timeout_seq : option Z) (pod : nkpod) :
  deleted (mutex_synch_base mutex) ->
  rtdm_mutex_timedlock_entry thread mutex timeout timeout_seq false pod
  = (Done (neg EIDRM), pod, mutex).
Proof.
  intros H. unfold rtdm_mutex_timedlock_entry. now rewrite andb_false_r, H.
Qed.

(** On a deleted primitive the part of a wait service before the
    suspension changes nothing, in any calling context. *)
Lemma rtdm_event_timedwait_entry_keeps_deleted (thread : tid) (event : rtdm_event_t)
    (timeout : Z) (timeout_seq : option Z) (unblockable : bool) (pod : nkpod) :
  deleted (event_synch_base event) ->
  deleted (event_synch_base
             (snd (rtdm_event_timedwait_entry thread event timeout timeout_seq
                                              unblockable pod))).
Proof.
  intros H. unfold rtdm_event_timedwait_entry.
  destruct (XENO_DEBUG_RTDM && unblockable); [exact H|]. now rewrite H.
Qed.

Lemma rtdm_sem_timeddown_entry_keeps_deleted (thread : tid) (sem : rtdm_sem_t)
    (timeout : Z) (timeout_seq : option Z) (unblockable : bool) (pod : nkpod) :
  deleted (sem_synch_base sem) ->
  deleted (sem_synch_base
             (snd (rtdm_sem_timeddown_entry thread sem timeout timeout_seq
                                            unblockable pod))).
Proof.
  intros H. unfold rtdm_sem_timeddown_entry.
  destruct (XENO_DEBUG_RTDM && unblockable); [exact H|]. now rewrite H.
Qed.

Lemma rtdm_mutex_timedlock_entry_keeps_deleted (thread : tid) (mutex : rtdm_mutex_t)
    (timeout : Z) (timeout_seq : option Z) (unblockable : bool) (pod : nkpod) :
  deleted (mutex_synch_base mutex) ->
  deleted (mutex_synch_base
             (snd (rtdm_mutex_timedlock_entry thread mutex timeout timeout_seq
                                              unblockable pod))).
Proof.
  intros H. unfold rtdm_mutex_timedlock_entry.
  destruct (XENO_DEBUG_RTDM && unblockable); [exact H|]. now rewrite H.
Qed.

Lemma rtdm_event_timedwait_resume_keeps_deleted (thread : tid) (event : rtdm_event_t)
    (pod : nkpod) :
  deleted (event_synch_base event) ->
  deleted (event_synch_base (snd (rtdm_event_timedwait_resume thread event pod))).
Proof.
  intros H. unfold rtdm_event_timedwait_resume. cbv zeta.
  repeat break_match; cbn [snd event_synch_base]; trivial.
  now apply clear_pending_keeps_deleted.
Qed.

Lemma rtdm_mutex_timedlock_resume_keeps_deleted (thread : tid) (mutex : rtdm_mutex_t)
    (timeout : Z) (timeout_seq : option Z) (pod : nkpod) :
  deleted (mutex_synch_base mutex) ->
  deleted (mutex_synch_base
             (snd (rtdm_mutex_timedlock_resume thread mutex timeout timeout_seq pod))).
Proof.
  intros H. unfold rtdm_mutex_timedlock_resume. cbv zeta.
  destruct (rtdm_mutex_timedlock_restart_keeps_owner thread mutex timeout
              timeout_seq pod) as (_ & Hst & _).
  unfold deleted in *.
  repeat break_match; cbn [snd]; trivial. now rewrite Hst.
Qed.

Lemma rtdm_event_signal_keeps_deleted (event : rtdm_event_t) (pod : nkpod) :
  deleted (event_synch_base event) ->
  deleted (event_synch_base (snd (rtdm_event_signal event pod))).
Proof.
  unfold deleted. rewrite rtdm_event_signal_status. apply testbits_setbits_keeps.
Qed.

Lemma rtdm_sem_up_keeps_deleted (sem : rtdm_sem_t) (pod : nkpod) :
  deleted (sem_synch_base sem) -> deleted (sem_synch_base (snd (rtdm_sem_up sem pod))).
Proof.
  unfold rtdm_sem_up, xnsynch_wakeup_one_sleeper.
  destruct (pendq (sem_synch_base sem)); trivial.
Qed.

Lemma rtdm_mutex_unlock_keeps_deleted (mutex : rtdm_mutex_t) (pod : nkpod) :
  deleted (mutex_synch_base mutex) ->
  deleted (mutex_synch_base (snd (rtdm_mutex_unlock mutex pod))).
Proof.
  unfold rtdm_mutex_unlock, xnsynch_wakeup_one_sleeper.
  destruct (pendq (mutex_synch_base mutex)); trivial.
Qed.

(** No operation of the driver clears the deleted bit of the event. *)
Lemma step_keeps_event_deleted (s : rtdm_system) (o : rtdm_op) :
  deleted (event_synch_base (sys_event s)) ->
  deleted (event_synch_base (sys_event (step s o))).
Proof.
  intros H. destruct o; unfold step; cbv zeta; try exact H.
  - exact (rtdm_event_signal_keeps_deleted _ (sys_pod s) H).
  - unfold rtdm_event_pulse.
    pose proof (_rtdm_synch_flush_keeps_deleted _ 0 (sys_pod s) H) as L.
    split_results. exact L.
  - now apply clear_pending_keeps_deleted.
  - unfold rtdm_event_destroy.
    pose proof (_rtdm_synch_flush_keeps_deleted _ XNRMID (sys_pod s) H) as L.
    split_results. exact L.
  - pose proof (_rtdm_synch_flush_keeps_deleted _ reason (sys_pod s) H) as L.
    split_results. exact L.
  - pose proof (rtdm_event_timedwait_entry_keeps_deleted t _ timeout timeout_seq
                  unblockable (sys_pod s) H) as L.
    split_results. exact L.
  - exact (rtdm_event_timedwait_resume_keeps_deleted t _ (sys_pod s) H).
  - split_results. exact H.
  - split_results. exact H.
  - split_results. exact H.
  - split_results. exact H.
  - split_results. exact H.
Qed.

(** No operation of the driver clears the deleted bit of the semaphore. *)
Lemma step_keeps_sem_deleted (s : rtdm_system) (o : rtdm_op) :
  deleted (sem_synch_base (sys_sem s)) ->
  deleted (sem_synch_base (sys_sem (step s o))).
Proof.
  intros H. destruct o; unfold step; cbv zeta; try exact H.
  - split_results. exact H.
  - split_results. exact H.
  - exact (rtdm_sem_up_keeps_deleted _ (sys_pod s) H).
  - unfold rtdm_sem_destroy.
    pose proof (_rtdm_synch_flush_keeps_deleted _ XNRMID (sys_pod s) H) as L.
    split_results. exact L.
  - pose proof (_rtdm_synch_flush_keeps_deleted _ reason (sys_pod s) H) as L.
    split_results. exact L.
  - pose proof (rtdm_sem_timeddown_entry_keeps_deleted t _ timeout timeout_seq
                  unblockable (sys_pod s) H) as L.
    split_results. exact L.
  - split_results. exact H.
  - split_results. exact H.
  - split_results. exact H.
Qed.

(** No operation of the driver clears the deleted bit of the mutex. *)
Lemma step_keeps_mutex_deleted (s : rtdm_system) (o : rtdm_op) :
  deleted (mutex_synch_base (sys_mutex s)) ->
  deleted (mutex_synch_base (sys_mutex (step s o))).
Proof.
  intros H. destruct o; unfold step; cbv zeta; try exact H.
  - split_results. exact H.
  - split_results. exact H.
  - split_results. exact H.
  - split_results. exact H.
  - exact (rtdm_mutex_unlock_keeps_deleted _ (sys_pod s) H).
  - unfold rtdm_mutex_destroy.
    pose proof (_rtdm_synch_flush_keeps_deleted _ XNRMID (sys_pod s) H) as L.
    split_results. exact L.
  - pose proof (_rtdm_synch_flush_keeps_deleted _ reason (sys_pod s) H) as L.
    split_results. exact L.
  - pose proof (rtdm_mutex_timedlock_entry_keeps_deleted t _ timeout timeout_seq
                  unblockable (sys_pod s) H) as L.
    split_results. exact L.
  - pose proof (rtdm_mutex_timedlock_resume_keeps_deleted t _ timeout timeout_seq
                  (sys_pod s) H) as L.
    split_results. exact L.
Qed.

Lemma run_keeps_deleted (ops : list rtdm_op) :
  forall s,
    (deleted (event_synch_base (sys_event s)) ->
     deleted (event_synch_base (sys_event (run ops s)))) /\
    (deleted (sem_synch_base (sys_sem s)) ->
     deleted (sem_synch_base (sys_sem (run ops s)))) /\
    (deleted (mutex_synch_base (sys_mutex s)) ->
     deleted (mutex_synch_base (sys_mutex (run ops s)))).
Proof.
  induction ops as [|o ops IH]; intros s; [cbn; tauto|].
  change (run (o :: ops) s) with (run ops (step s o)).
  destruct (IH (step s o)) as (He & Hs & Hm).
  repeat split; intros H.
  - now apply He, step_keeps_event_deleted.
  - now apply Hs, step_keeps_sem_deleted.
  - now apply Hm, step_keeps_mutex_deleted.
Qed.

Lemma set_event_same (s : rtdm_system) : set_event s (sys_pod s, sys_event s) = s.
Proof. now destruct s. Qed.

Lemma set_sem_same (s : rtdm_system) : set_sem s (sys_pod s, sys_sem s) = s.
Proof. now destruct s. Qed.

Lemma set_mutex_same (s : rtdm_system) : set_mutex s (sys_pod s, sys_mutex s) = s.
Proof. now destruct s. Qed.

(** C5.  [_rtdm_synch_flush] with reason XNRMID sets the deleted bit of the
    synch base, and no later operation of the driver (signal, pulse, clear,
    up, unlock, a flush with any reason, a clock tick, a forced unblock, or
    either part of a wait, down or lock by any thread), in any number and
    order, clears it: the bit is still set, and a wait, down or lock called
    then in a blockable context returns -EIDRM and changes nothing. *)
Theorem deleted_is_permanent :
  forall (s : rtdm_system) (ops : list rtdm_op) (thread : tid) (timeout : Z)
         (timeout_seq : option Z) (env : list (list rtdm_op)),
    (forall synch pod, deleted (snd (_rtdm_synch_flush synch XNRMID pod))) /\
    (let s' := run ops (step s (op_event_flush XNRMID)) in
     deleted (event_synch_base (sys_event s')) /\
     rtdm_event_timedwait thread timeout timeout_seq false env s'
     = Returned (neg EIDRM) s') /\
    (let s' := run ops (step s (op_sem_flush XNRMID)) in
     deleted (sem_synch_base (sys_sem s')) /\
     rtdm_sem_timeddown thread timeout timeout_seq false env s'
     = Returned (neg EIDRM) s') /\
    (let s' := run ops (step s (op_mutex_flush XNRMID)) in
     deleted (mutex_synch_base (sys_mutex s')) /\
     rtdm_mutex_timedlock thread timeout timeout_seq false env s'
     = Returned (neg EIDRM) s').
Proof.
  intros s ops thread timeout timeout_seq env.
  split; [exact _rtdm_synch_flush_deletes|].
  split; [|split]; cbv zeta.
  - assert (H0 : deleted (event_synch_base (sys_event (step s (op_event_flush XNRMID))))).
    { unfold step. cbv zeta.
      pose proof (_rtdm_synch_flush_deletes (event_synch_base (sys_event s))
                    (sys_pod s)) as L.
      split_results. exact L. }
    destruct (run_keeps_deleted ops (step s (op_event_flush XNRMID))) as (He & _ & _).
    specialize (He H0). split; [exact He|].
    unfold rtdm_event_timedwait.
    rewrite rtdm_event_timedwait_entry_deleted by exact He.
    now rewrite set_event_same.
  - assert (H0 : deleted (sem_synch_base (sys_sem (step s (op_sem_flush XNRMID))))).
    { unfold step. cbv zeta.
      pose proof (_rtdm_synch_flush_deletes (sem_synch_base (sys_sem s))
                    (sys_pod s)) as L.
      split_results. exact L. }
    destruct (run_keeps_deleted ops (step s (op_sem_flush XNRMID))) as (_ & Hs & _).
    specialize (Hs H0). split; [exact Hs|].
    unfold rtdm_sem_timeddown.
    rewrite rtdm_sem_timeddown_entry_deleted by exact Hs.
    now rewrite set_sem_same.
  - assert (H0 : deleted (mutex_synch_base (sys_mutex (step s (op_mutex_flush XNRMID))))).
    { unfold step. cbv zeta.
      pose proof (_rtdm_synch_flush_deletes (mutex_synch_base (sys_mutex s))
                    (sys_pod s)) as L.
      split_results. exact L. }
    destruct (run_keeps_deleted ops (step s (op_mutex_flush XNRMID))) as (_ & _ & Hm).
    specialize (Hm H0). split; [exact Hm|].
    unfold rtdm_mutex_timedlock.
    rewrite rtdm_mutex_timedlock_entry_deleted by exact Hm.
    now rewrite set_mutex_same.
Qed.

End Deletion.

(** ** Event services, continued *)

Lemma step_event_status (s : rtdm_system) (o : rtdm_op) :
  leaves_event_pending o = true ->
  status (event_synch_base (sys_event (step s o)))
  = status (event_synch_base (sys_event s)) \/
  status (event_synch_base (sys_event (step s o)))
  = setbits (status (event_synch_base (sys_event s))) RTDM_EVENT_PENDING \/
  status (event_synch_base (sys_event (step s o)))
  = setbits (status (event_synch_base (sys_event s))) RTDM_SYNCH_DELETED.
Proof.
  assert (Hflush : forall reason,
             status (snd (_rtdm_synch_flush (event_synch_base (sys_event s)) reason
                                            (sys_pod s)))
             = status (event_synch_base (sys_event s)) \/
             status (snd (_rtdm_synch_flush (event_synch_base (sys_event s)) reason
                                            (sys_pod s)))
             = setbits (status (event_synch_base (sys_event s))) RTDM_SYNCH_DELETED).
  { intros reason. rewrite _rtdm_synch_flush_status.
    destruct (reason =? XNRMID); [right | left]; reflexivity. }
  intros Ho. destruct o; try discriminate Ho; unfold step; cbv zeta;
    try (left; reflexivity).
  - right. left. apply rtdm_event_signal_status.
  - unfold rtdm_event_pulse. specialize (Hflush 0).
    split_results. destruct Hflush as [L | L]; [left | right; right]; exact L.
  - unfold rtdm_event_destroy. specialize (Hflush XNRMID).
    split_results. destruct Hflush as [L | L]; [left | right; right]; exact L.
  - specialize (Hflush reason).
    split_results. destruct Hflush as [L | L]; [left | right; right]; exact L.
  - left. split_results. reflexivity.
  - left. split_results. reflexivity.
  - left. split_results. reflexivity.
  - left. split_results. reflexivity.
  - left. split_results. reflexivity.
Qed.

Lemma run_keeps_event_pending (ops : list rtdm_op) :
  forall s,
    forallb leaves_event_pending ops = true ->
    xnsynch_test_flags (event_synch_base (sys_event s)) RTDM_EVENT_PENDING = true ->
    xnsynch_test_flags (event_synch_base (sys_event (run ops s))) RTDM_EVENT_PENDING
    = true.
Proof.
  induction ops as [|o ops IH]; intros s Hops Hp; [exact Hp|].
  cbn [forallb] in Hops. apply andb_true_iff in Hops. destruct Hops as (Ho & Hops).
  change (run (o :: ops) s) with (run ops (step s o)).
  apply IH; [exact Hops|]. unfold xnsynch_test_flags in *.
  destruct (step_event_status s o Ho) as [-> | [-> | ->]];
    [exact Hp | now apply testbits_setbits_keeps | now apply testbits_setbits_keeps].
Qed.

(** C6, as amended.  [rtdm_event_timedwait] called in a blockable context
    after [rtdm_event_signal], with neither a wait on the event nor
    [rtdm_event_clear] in between, on an event that is not deleted when the
    call is made, returns 0 whatever the timeout, the timeout sequence and
    the schedule are, without suspending the caller: the system on return is
    the system at the call with the pending flag of the event cleared and
    nothing else changed. *)
Theorem rtdm_event_signal_then_wait :
  forall (thread : tid) (timeout : Z) (timeout_seq : option Z)
         (env : list (list rtdm_op)) (between : list rtdm_op) (s : rtdm_system),
    RTDM_EVENT_PENDING <> 0 ->
    forallb leaves_event_pending between = true ->
    let s1 := run between (step s op_event_signal) in
    testbits (status (event_synch_base (sys_event s1))) RTDM_SYNCH_DELETED = false ->
    rtdm_event_timedwait thread timeout timeout_seq false env s1
    = Returned ok (set_event s1 (sys_pod s1, rtdm_event_clear (sys_event s1))) /\
    xnsynch_test_flags (event_synch_base (rtdm_event_clear (sys_event s1)))
                       RTDM_EVENT_PENDING = false.
Proof.
  intros thread timeout timeout_seq env between s Hpending Hbetween s1 Hlive.
  assert (Hp : xnsynch_test_flags (event_synch_base (sys_event s1)) RTDM_EVENT_PENDING
               = true).
  { apply run_keeps_event_pending; [exact Hbetween|].
    unfold step, xnsynch_test_flags. cbv zeta. cbn [set_event sys_event].
    now rewrite rtdm_event_signal_status, testbits_setbits_same. }
  split.
  - unfold rtdm_event_timedwait, rtdm_event_timedwait_entry.
    rewrite andb_false_r, Hlive, Hp. reflexivity.
  - unfold rtdm_event_clear, xnsynch_test_flags, xnsynch_clear_flags.
    cbn [event_synch_base status]. apply testbits_clrbits_same.
Qed.

End Properties.

(** * The properties on the sample configuration *)

Section Samples.

#[local] Existing Instance sample_nucleus.

Ltac concrete := vm_compute; first [reflexivity | discriminate | intro; discriminate].

Lemma rtdm_task_init_all_or_nothing_witness :
  task_live fresh_task = false /\
  rtdm_task_init fresh_task 10 1000 periodic_setup_fails
  = (-22, mk_task TaskDeleted 10 0) /\
  task_live (mk_task TaskDeleted 10 0) = false.
Proof.
  split; [reflexivity|]. split; [reflexivity|].
  apply (proj2 (proj2 (proj2
           (rtdm_task_init_all_or_nothing fresh_task 10 1000 periodic_setup_fails
              (-22) (mk_task TaskDeleted 10 0) eq_refl eq_refl)))).
  discriminate.
Defined.

Lemma rtdm_task_sleep_until_spec_witness :
  exists s',
    rtdm_task_sleep_until 1%nat 150 false [[op_task_unblock 1%nat]] idle_system
    = Returned (neg EINTR) s'.
Proof.
  destruct (rtdm_task_sleep_until_spec 1%nat 150 idle_system) as (_ & H);
    [concrete | concrete |].
  destruct H as (_ & _ & _ & H & _); [concrete | exact H].
Defined.

Lemma rtdm_event_signal_then_wait_witness :
  let s1 := run [op_event_pulse; op_sem_up; op_mutex_destroy; op_announce_tick 3]
                (step idle_system op_event_signal) in
  rtdm_event_timedwait 1%nat (-1) None false [] s1
  = Returned ok (set_event s1 (sys_pod s1, rtdm_event_clear (sys_event s1))) /\
  xnsynch_test_flags (event_synch_base (rtdm_event_clear (sys_event s1)))
                     RTDM_EVENT_PENDING = false.
Proof.
  apply (rtdm_event_signal_then_wait 1%nat (-1) None []
           [op_event_pulse; op_sem_up; op_mutex_destroy; op_announce_tick 3]
           idle_system); concrete.
Defined.

(** The wait of C6 with [rtdm_event_clear], which is not a wait, between the
    signal and the call: the event is live and the call returns
    -EWOULDBLOCK. *)
Lemma rtdm_event_signal_then_wait_counterexample :
  forallb (fun o => negb (is_event_wait o)) [op_event_clear] = true /\
  testbits (status (event_synch_base
                      (sys_event (run [op_event_clear]
                                      (step idle_system op_event_signal)))))
           RTDM_SYNCH_DELETED = false /\
  rtdm_event_timedwait 1%nat (-1) None false []
                       (run [op_event_clear] (step idle_system op_event_signal))
  = Returned (neg EWOULDBLOCK)
             (run [op_event_clear] (step idle_system op_event_signal)).
Proof.
  split; [reflexivity|]. split; concrete.
Qed.

Lemma availability_is_tested_before_the_timeout_witness :
  rtdm_sem_timeddown 1%nat (-1) None false [] idle_system
  = Returned ok (set_sem idle_system
                         (sys_pod idle_system,
                          mk_sem (value (sys_sem idle_system) - 1)
                                 (sem_synch_base (sys_sem idle_system)))).
Proof.
  apply (proj1 (proj2
           (availability_is_tested_before_the_timeout 1%nat (-1) None []
              idle_system))); [concrete | split; concrete].
Defined.

Lemma timeout_sequence_rule_witness :
  rtdm_event_timedwait 1%nat 5 (Some 90) false [] idle_system
  = Returned (neg ETIMEDOUT) idle_system.
Proof.
  destruct (timeout_sequence_rule 1%nat 5 90 idle_system) as (_ & H & _);
    [concrete|].
  destruct H as (H & _); [concrete | concrete |].
  apply H. concrete.
Defined.

Lemma rtdm_sem_counts_witness :
  rtdm_sem_timeddown_calls 1%nat [(-1, None); (-1, None); (-5, Some 200)] idle_system
  = ([ok; ok; neg EWOULDBLOCK], with_sem_value 0 idle_system).
Proof.
  apply (rtdm_sem_counts 1%nat 2%nat [(-1, None); (-1, None); (-5, Some 200)]
           idle_system); try concrete.
  repeat constructor.
Defined.

Lemma rtdm_mutex_timedlock_owner_contends_witness :
  rtdm_mutex_timedlock_entry 1%nat mutex_of_thread_1 (-1) None false idle_pod
  = (Done (neg EWOULDBLOCK), idle_pod, mutex_of_thread_1).
Proof.
  destruct (rtdm_mutex_timedlock_owner_contends 1%nat (-1) None mutex_of_thread_1
              idle_pod) as (_ & H & _); [concrete | concrete |].
  apply H. concrete.
Defined.

Lemma rtdm_mutex_timedlock_break_retries_witness :
  exists s',
    rtdm_mutex_timedlock 1%nat 0 None false
                         [[op_task_unblock 1%nat]; [op_mutex_unlock]]
                         contended_system
    = Returned ok s' /\
    xnsynch_owner (mutex_synch_base (sys_mutex s')) = Some 1%nat.
Proof.
  destruct (rtdm_mutex_timedlock_break_retries) with
    (thread := 1%nat) (timeout := 0) (timeout_seq := @None Z) (unblockable := false)
    (env := @nil (list rtdm_op)) (s := contended_system)
    as (_ & _ & _ & H); try concrete.
  destruct H as (_ & H & _); try concrete. exact H.
Defined.

Lemma rtdm_mutex_timedlock_relative_timeout_restarts_witness :
  exists s',
    rtdm_mutex_timedlock 1%nat 10 None false
      [[op_announce_tick 9; op_task_unblock 1%nat];
       [op_announce_tick 9; op_task_unblock 1%nat];
       [op_announce_tick 10]]
      contended_system
    = Returned (neg ETIMEDOUT) s' /\
    xnpod_get_time (sys_pod s') = 128 /\
    ((0 < 2)%nat -> 100 + 10 < xnpod_get_time (sys_pod s')).
Proof.
  destruct (rtdm_mutex_timedlock_relative_timeout_restarts) with
    (thread := 1%nat) (timeout := 10) (s := contended_system)
    as (_ & _ & H); [concrete | concrete | concrete | concrete | concrete |].
  exact (H eq_refl ltac:(concrete) eq_refl eq_refl 2%nat).
Defined.

Lemma deleted_is_permanent_witness :
  rtdm_event_timedwait 1%nat 0 None false []
    (run [op_event_signal; op_event_clear; op_event_pulse; op_event_flush 0;
          op_event_timedwait 2%nat 0 None false; op_event_resume 2%nat]
         (step idle_system (op_event_flush XNRMID)))
  = Returned (neg EIDRM)
      (run [op_event_signal; op_event_clear; op_event_pulse; op_event_flush 0;
            op_event_timedwait 2%nat 0 None false; op_event_resume 2%nat]
           (step idle_system (op_event_flush XNRMID))).
Proof.
  destruct (deleted_is_permanent) with
    (s := idle_system)
    (ops := [op_event_signal; op_event_clear; op_event_pulse; op_event_flush 0;
             op_event_timedwait 2%nat 0 None false; op_event_resume 2%nat])
    (thread := 1%nat) (timeout := 0) (timeout_seq := @None Z)
    (env := @nil (list rtdm_op))
    as (_ & H & _); [concrete | concrete |].
  exact (proj2 H).
Defined.

End Samples.

(** * Further properties of the driver library *)

Ltac break_branch :=
  match goal with
  | |- context [if ?b then _ else _] => destruct b eqn:?
  | |- context [match ?x with Some _ => _ | None => _ end] => destruct x eqn:?
  | H : context [if ?b then _ else _] |- _ => destruct b eqn:?
  | H : context [match ?x with Some _ => _ | None => _ end] |- _ => destruct x eqn:?
  end.

Ltac split_pairs :=
  repeat match goal with
         | |- context [match ?e with pair _ _ => _ end] => destruct e as [? ?]
         end.

Section Sleeping.

Context {nk : Nucleus}.

Lemma timer_for_armed (now ticks : Z) :
  ticks <> 0 -> timer_for now ticks = Some (now + ticks).
Proof.
  intros H. unfold timer_for, XN_INFINITE. apply Z.eqb_neq in H. now rewrite H.
Qed.

Lemma run_one (o : rtdm_op) (s : rtdm_system) : run [o] s = step s o.
Proof. reflexivity. Qed.

Lemma step_tick_pod (dt : nat) (s : rtdm_system) :
  sys_pod (step s (op_announce_tick dt)) = xnpod_announce_tick dt (sys_pod s).
Proof. reflexivity. Qed.

Lemma step_unblock_pod (t : tid) (s : rtdm_system) :
  sys_pod (step s (op_task_unblock t)) = xnpod_unblock_thread t (sys_pod s).
Proof. reflexivity. Qed.

(** A thread suspended without a timer sleeps through every clock tick. *)
Lemma ticks_leave_untimed (thread : tid) (ticks : list nat) :
  forall s,
    thread_wait (threads (sys_pod s) thread) = Waiting None ->
    thread_wait (threads (sys_pod (run (map op_announce_tick ticks) s)) thread)
    = Waiting None.
Proof.
  induction ticks as [|dt ticks IH]; intros s Hw; [exact Hw|].
  cbn [map]. change (run (op_announce_tick dt :: map op_announce_tick ticks) s)
    with (run (map op_announce_tick ticks) (step s (op_announce_tick dt))).
  apply IH. rewrite step_tick_pod, announce_tick_thread.
  unfold timer_due. now rewrite Hw.
Qed.

(** X1.  [rtdm_task_sleep] in a blockable context suspends the caller
    whatever the delay is, with a timer at [now + xnpod_ns2ticks delay]
    unless that is 0; the resumed call returns -EINTR exactly when XNBREAK
    is flagged and 0 otherwise: -EINTR after a forced unblock, 0 after the
    timer fired.  In an unblockable context, with the debug checks compiled
    in, it returns -EPERM and changes nothing. *)
Theorem rtdm_task_sleep_outcomes :
  forall (thread : tid) (delay : Z) (s : rtdm_system),
    XNBREAK <> 0 ->
    Z.land XNTIMEO XNBREAK = 0 ->
    let ticks := xnpod_ns2ticks delay in
    (exists s',
       rtdm_task_sleep thread delay false [] s = Blocked s' /\
       thread_wait (threads (sys_pod s') thread)
       = Waiting (timer_for (xnpod_get_time (sys_pod s)) ticks)) /\
    (forall env r s',
       rtdm_task_sleep thread delay false env s = Returned r s' ->
       (r = neg EINTR /\
        xnthread_test_flags (threads (sys_pod s') thread) XNBREAK = true) \/
       (r = ok /\
        xnthread_test_flags (threads (sys_pod s') thread) XNBREAK = false)) /\
    (exists s',
       rtdm_task_sleep thread delay false [[op_task_unblock thread]] s
       = Returned (neg EINTR) s') /\
    (0 < ticks ->
     exists s',
       rtdm_task_sleep thread delay false [[op_announce_tick (Z.to_nat ticks)]] s
       = Returned ok s' /\
       xnpod_get_time (sys_pod s') = xnpod_get_time (sys_pod s) + ticks) /\
    (XENO_DEBUG_RTDM = true ->
     forall env, rtdm_task_sleep thread delay true env s = Returned (neg EPERM) s).
Proof.
  intros thread delay [pod ev sm mx] Hbreak Hdisj ticks.
  unfold rtdm_task_sleep, rtdm_task_sleep_entry. cbn [sys_pod sys_event sys_sem sys_mutex].
  fold ticks. rewrite andb_false_r.
  destruct (suspended_thread thread ticks pod) as (Hw & _ & _ & Hb & Htimer).
  pose proof (suspend_thread_jiffies thread ticks pod) as Hj.
  set (pod1 := xnpod_suspend_thread thread ticks pod) in *. clearbody pod1.
  split; [|split; [|split; [|split]]].
  - eexists. split; [reflexivity|]. exact Htimer.
  - intros [|others env] r s'; [discriminate|]. cbv zeta.
    destruct (caller_waiting thread _); [discriminate|].
    intros [= <- <-]. unfold rtdm_task_sleep_resume.
    destruct (xnthread_test_flags _ XNBREAK); [left | right]; split; reflexivity.
  - exists (step (mk_system pod1 ev sm mx) (op_task_unblock thread)).
    cbv zeta. rewrite run_one. unfold caller_waiting, rtdm_task_sleep_resume,
      xnthread_test_flags.
    rewrite step_unblock_pod. cbn [sys_pod].
    rewrite (unblock_waiting_thread _ _ Hw). unfold is_waiting at 1.
    cbn [thread_wait thread_status].
    now rewrite testbits_setbits_same.
  - intros Hticks.
    assert (Hdue : timer_due (jiffies pod1 + Z.of_nat (Z.to_nat ticks))
                             (threads pod1 thread) = true).
    { rewrite (timer_due_at _ (jiffies pod + ticks)), Hj, Z2Nat.id by
          (try lia; rewrite Htimer; unfold XN_INFINITE;
           replace (ticks =? 0) with false by (symmetry; apply Z.eqb_neq; lia);
           reflexivity).
      apply Z.leb_refl. }
    exists (step (mk_system pod1 ev sm mx) (op_announce_tick (Z.to_nat ticks))).
    cbv zeta. rewrite run_one. unfold caller_waiting, rtdm_task_sleep_resume,
      xnthread_test_flags.
    rewrite step_tick_pod. cbn [sys_pod].
    rewrite announce_tick_thread, Hdue. unfold is_waiting at 1.
    cbn [thread_wait thread_status].
    rewrite testbits_setbits_other, Hb by assumption.
    split; [reflexivity|]. unfold xnpod_get_time.
    rewrite announce_tick_jiffies, Hj, Z2Nat.id by lia. reflexivity.
  - intros Hdebug env. unfold rtdm_task_sleep, rtdm_task_sleep_entry.
    now rewrite Hdebug.
Qed.

(** X2.  When the delay converts to 0 ticks, which the nucleus takes for an
    infinite timeout, [rtdm_task_sleep] is not woken by the clock: the
    caller is still suspended after any number of ticks, and only a forced
    unblock ends the call. *)
Theorem rtdm_task_sleep_zero_ticks :
  forall (thread : tid) (delay : Z) (ticks : list nat) (s : rtdm_system),
    xnpod_ns2ticks delay = XN_INFINITE ->
    exists s',
      rtdm_task_sleep thread delay false [map op_announce_tick ticks] s = Blocked s' /\
      caller_waiting thread s' = true /\
      xnpod_get_time (sys_pod s')
      = xnpod_get_time (sys_pod s) + Z.of_nat (fold_right Nat.add 0%nat ticks).
Proof.
  intros thread delay ticks [pod ev sm mx] Hzero.
  unfold rtdm_task_sleep, rtdm_task_sleep_entry. cbn [sys_pod sys_event sys_sem sys_mutex].
  rewrite andb_false_r, Hzero.
  destruct (suspended_thread thread XN_INFINITE pod) as (_ & _ & _ & _ & Htimer).
  pose proof (suspend_thread_jiffies thread XN_INFINITE pod) as Hj.
  set (pod1 := xnpod_suspend_thread thread XN_INFINITE pod) in *. clearbody pod1.
  cbn [Z.eqb XN_INFINITE] in Htimer. cbv zeta.
  pose proof (ticks_leave_untimed thread ticks (mk_system pod1 ev sm mx) Htimer) as Hw.
  exists (run (map op_announce_tick ticks) (mk_system pod1 ev sm mx)).
  unfold caller_waiting, is_waiting. rewrite Hw.
  split; [reflexivity|]. split; [reflexivity|].
  unfold xnpod_get_time. rewrite <- Hj. clear.
  revert pod1 ev sm mx. induction ticks as [|dt ticks IH]; intros pod1 ev sm mx.
  - cbn. lia.
  - cbn [map fold_right].
    change (run (op_announce_tick dt :: map op_announce_tick ticks)
                (mk_system pod1 ev sm mx))
      with (run (map op_announce_tick ticks)
                (step (mk_system pod1 ev sm mx) (op_announce_tick dt))).
    destruct (step (mk_system pod1 ev sm mx) (op_announce_tick dt))
      as [pod2 ev2 sm2 mx2] eqn:Hstep.
    rewrite IH.
    assert (Hp : pod2 = xnpod_announce_tick dt pod1)
      by (change pod2 with (sys_pod (mk_system pod2 ev2 sm2 mx2));
          rewrite <- Hstep; reflexivity).
    rewrite Hp, announce_tick_jiffies. lia.
Qed.

End Sleeping.

Section JoinAndSpin.

Context {nk : Nucleus}.

Lemma rtdm_task_join_nrt_loop_returns (XNZOMBIE : Z) (task : tid) (poll_delay : Z)
    (later : list nkpod) :
  forall (pod : nkpod) (sleeps : list Z),
    rtdm_task_join_nrt_loop XNZOMBIE task poll_delay pod later = Some sleeps <->
    exists k : nat,
      sleeps = repeat poll_delay k /\
      (k <= length later)%nat /\
      xnthread_test_flags (threads (nth k (pod :: later) pod) task) XNZOMBIE = true /\
      forall i, (i < k)%nat ->
        xnthread_test_flags (threads (nth i (pod :: later) pod) task) XNZOMBIE = false.
Proof.
  induction later as [|pod' later IH]; intros pod sleeps;
    cbn [rtdm_task_join_nrt_loop];
    destruct (xnthread_test_flags (threads pod task) XNZOMBIE) eqn:Hz.
  - split.
    + intros [= <-]. exists 0%nat. cbn. repeat split; [lia | exact Hz | lia].
    + intros (k & -> & _ & _ & Hbefore). destruct k as [|k]; [reflexivity|].
      specialize (Hbefore 0%nat (Nat.lt_0_succ k)). cbn in Hbefore. congruence.
  - split; [discriminate|].
    intros (k & _ & Hk & Hzk & _). cbn in Hk.
    assert (k = 0%nat) by lia. subst k. cbn in Hzk. congruence.
  - split.
    + intros [= <-]. exists 0%nat. cbn. repeat split; [lia | exact Hz | lia].
    + intros (k & -> & _ & _ & Hbefore). destruct k as [|k]; [reflexivity|].
      specialize (Hbefore 0%nat (Nat.lt_0_succ k)). cbn in Hbefore. congruence.
  - split.
    + destruct (rtdm_task_join_nrt_loop XNZOMBIE task poll_delay pod' later)
        as [sleeps'|] eqn:Hloop; [|discriminate].
      intros [= <-]. apply IH in Hloop.
      destruct Hloop as (k & -> & Hk & Hzk & Hbefore).
      exists (S k). cbn [repeat length]. repeat split; [lia| |].
      * change (nth (S k) (pod :: pod' :: later) pod)
          with (nth k (pod' :: later) pod).
        rewrite (nth_indep _ pod pod') by (cbn [length]; lia). exact Hzk.
      * intros [|i] Hi; [exact Hz|].
        change (nth (S i) (pod :: pod' :: later) pod)
          with (nth i (pod' :: later) pod).
        rewrite (nth_indep _ pod pod') by (cbn [length]; lia).
        apply Hbefore. lia.
    + intros (k & -> & Hk & Hzk & Hbefore).
      destruct k as [|k]; [cbn in Hzk; congruence|].
      cbn [repeat]. cbn [length] in Hk.
      assert (Hloop : rtdm_task_join_nrt_loop XNZOMBIE task poll_delay pod' later
                      = Some (repeat poll_delay k)).
      { apply IH. exists k. repeat split; [lia| |].
        - rewrite (nth_indep _ pod' pod) by (cbn [length]; lia). exact Hzk.
        - intros i Hi.
          rewrite (nth_indep _ pod' pod) by (cbn [length]; lia).
          apply (Hbefore (S i)). lia. }
      now rewrite Hloop.
Qed.

Lemma rtdm_task_join_nrt_loop_polling (XNZOMBIE : Z) (task : tid) (poll_delay : Z)
    (later : list nkpod) :
  forall pod : nkpod,
    rtdm_task_join_nrt_loop XNZOMBIE task poll_delay pod later = None <->
    forall p, In p (pod :: later) ->
              xnthread_test_flags (threads p task) XNZOMBIE = false.
Proof.
  induction later as [|pod' later IH]; intros pod;
    cbn [rtdm_task_join_nrt_loop];
    destruct (xnthread_test_flags (threads pod task) XNZOMBIE) eqn:Hz.
  - split; [discriminate|]. intros H. specialize (H pod (or_introl eq_refl)). congruence.
  - split; [|reflexivity]. intros _ p [<- | []]. exact Hz.
  - split; [discriminate|]. intros H. specialize (H pod (or_introl eq_refl)). congruence.
  - destruct (rtdm_task_join_nrt_loop XNZOMBIE task poll_delay pod' later)
      as [sleeps'|] eqn:Hloop.
    + split; [discriminate|]. intros H.
      assert (Hnone : @None (list Z) = Some sleeps'); [|discriminate].
      rewrite <- Hloop. symmetry. apply IH. intros p Hp. apply H. now right.
    + split; [|reflexivity]. intros _ p [<- | Hp]; [exact Hz|].
      now apply (proj1 (IH pod') Hloop).
Qed.

(** X3.  [rtdm_task_join_nrt] called from the root context returns when it
    finds the task flagged XNZOMBIE, having called [msleep (poll_delay)]
    once for every earlier test that found it alive: not at all when the
    task has already terminated.  It is still polling at the end of any
    schedule in which the task never terminates.  Outside the root context,
    with the debug checks compiled in, it returns at once, without a test
    and whether the task has terminated or not. *)
Theorem rtdm_task_join_nrt_polls :
  forall (XNZOMBIE : Z) (task : tid) (poll_delay : Z) (pod : nkpod)
         (later : list nkpod),
    (forall sleeps,
       rtdm_task_join_nrt XNZOMBIE task poll_delay true pod later = Some sleeps <->
       exists k : nat,
         sleeps = repeat poll_delay k /\
         (k <= length later)%nat /\
         xnthread_test_flags (threads (nth k (pod :: later) pod) task) XNZOMBIE = true /\
         forall i, (i < k)%nat ->
           xnthread_test_flags (threads (nth i (pod :: later) pod) task) XNZOMBIE
           = false) /\
    (rtdm_task_join_nrt XNZOMBIE task poll_delay true pod later = None <->
     forall p, In p (pod :: later) ->
               xnthread_test_flags (threads p task) XNZOMBIE = false) /\
    (XENO_DEBUG_RTDM = true ->
     rtdm_task_join_nrt XNZOMBIE task poll_delay false pod later = Some []).
Proof.
  intros XNZOMBIE task poll_delay pod later.
  unfold rtdm_task_join_nrt. cbn [negb]. rewrite andb_false_r.
  split; [|split].
  - apply rtdm_task_join_nrt_loop_returns.
  - apply rtdm_task_join_nrt_loop_polling.
  - intros ->. reflexivity.
Qed.

Lemma rtdm_task_busy_sleep_loop_returns (wakeup : Z) (tsc : list Z) :
  forall (n : nat) (stop : Z),
    rtdm_task_busy_sleep_loop wakeup tsc = Some (n, stop) <->
    nth_error tsc n = Some stop /\
    wakeup <= stop /\
    forall i t, (i < n)%nat -> nth_error tsc i = Some t -> t < wakeup.
Proof.
  induction tsc as [|now tsc IH]; intros n stop; cbn [rtdm_task_busy_sleep_loop].
  - split; [discriminate|]. intros (H & _). now destruct n.
  - destruct (now <? wakeup) eqn:Hlt.
    + apply Z.ltb_lt in Hlt. split.
      * destruct (rtdm_task_busy_sleep_loop wakeup tsc) as [[n' stop']|] eqn:Hloop;
          [|discriminate].
        cbn. intros [= <- <-]. destruct (proj1 (IH n' stop') eq_refl) as (Hn & Hs & Hb).
        repeat split; [exact Hn | exact Hs |].
        intros [|i] t Hi; cbn; [intros [= <-]; exact Hlt|].
        apply Hb. lia.
      * intros (Hn & Hs & Hb). destruct n as [|n].
        -- cbn in Hn. injection Hn as <-. lia.
        -- cbn in Hn.
           assert (Hloop : rtdm_task_busy_sleep_loop wakeup tsc = Some (n, stop)).
           { apply IH. repeat split; [exact Hn | exact Hs |].
             intros i t Hi Ht. apply (Hb (S i) t); [lia | exact Ht]. }
           now rewrite Hloop.
    + apply Z.ltb_ge in Hlt. split.
      * intros [= <- <-]. repeat split; [exact Hlt|]. intros i t Hi. lia.
      * intros (Hn & Hs & Hb). destruct n as [|n].
        -- cbn in Hn. now injection Hn as <-.
        -- specialize (Hb 0%nat now (Nat.lt_0_succ n) eq_refl). lia.
Qed.

(** X4.  [rtdm_task_busy_sleep] returns at the first reading of the time
    stamp counter that is not below [wakeup], the 64-bit sum of the first
    reading and the converted delay, after one [cpu_relax] for every reading
    below it.  As long as that sum fits in 64 bits, the counter has advanced
    by at least the converted delay when the function returns. *)
Theorem rtdm_task_busy_sleep_spins :
  forall (xnarch_ns_to_tsc : Z -> Z) (delay start : Z) (tsc : list Z)
         (n : nat) (stop : Z),
    let wakeup := uint64_t (start + xnarch_ns_to_tsc delay) in
    (rtdm_task_busy_sleep xnarch_ns_to_tsc delay (start :: tsc) = Some (n, stop) <->
     nth_error tsc n = Some stop /\
     wakeup <= stop /\
     forall i t, (i < n)%nat -> nth_error tsc i = Some t -> t < wakeup) /\
    (rtdm_task_busy_sleep xnarch_ns_to_tsc delay (start :: tsc) = Some (n, stop) ->
     0 <= start + xnarch_ns_to_tsc delay < 2 ^ 64 ->
     xnarch_ns_to_tsc delay <= stop - start).
Proof.
  intros xnarch_ns_to_tsc delay start tsc n stop wakeup.
  unfold rtdm_task_busy_sleep. fold wakeup.
  split; [apply rtdm_task_busy_sleep_loop_returns|].
  intros H Hfits. apply rtdm_task_busy_sleep_loop_returns in H.
  destruct H as (_ & Hstop & _).
  unfold wakeup, uint64_t, wrap_unsigned in Hstop.
  rewrite Z.mod_small in Hstop by exact Hfits. lia.
Qed.

(** X5.  When the 64-bit sum that gives [wakeup] wraps around,
    [rtdm_task_busy_sleep] returns at the very next reading of a counter
    that has not gone backwards, without a single [cpu_relax]: the delay is
    cut short. *)
Theorem rtdm_task_busy_sleep_wraps :
  forall (xnarch_ns_to_tsc : Z -> Z) (delay start next : Z) (tsc : list Z),
    0 <= start < 2 ^ 64 ->
    0 <= xnarch_ns_to_tsc delay < 2 ^ 64 ->
    2 ^ 64 <= start + xnarch_ns_to_tsc delay ->
    start <= next ->
    rtdm_task_busy_sleep xnarch_ns_to_tsc delay (start :: next :: tsc)
    = Some (0%nat, next).
Proof.
  intros xnarch_ns_to_tsc delay start next tsc Hstart Hdelay Hwrap Hnext.
  unfold rtdm_task_busy_sleep. cbn [rtdm_task_busy_sleep_loop].
  assert (Hw : uint64_t (start + xnarch_ns_to_tsc delay)
               = start + xnarch_ns_to_tsc delay - 2 ^ 64).
  { unfold uint64_t, wrap_unsigned.
    symmetry. apply Z.mod_unique with (q := 1); lia. }
  rewrite Hw.
  replace (next <? start + xnarch_ns_to_tsc delay - 2 ^ 64) with false
    by (symmetry; apply Z.ltb_ge; lia).
  reflexivity.
Qed.

End JoinAndSpin.

Section WaiterOutcomes.

Context {nk : Nucleus}.

(** The three wake reasons are distinct bits. *)
Hypothesis XNBREAK_nonzero : XNBREAK <> 0.
Hypothesis XNTIMEO_nonzero : XNTIMEO <> 0.
Hypothesis XNRMID_nonzero : XNRMID <> 0.
Hypothesis XNBREAK_XNTIMEO : Z.land XNBREAK XNTIMEO = 0.
Hypothesis XNBREAK_XNRMID : Z.land XNBREAK XNRMID = 0.
Hypothesis XNRMID_XNTIMEO : Z.land XNRMID XNTIMEO = 0.

(** How the suspended caller of a wait service fares under the four ways of
    being resumed, read on the thread once it runs again. *)
Lemma resumed_untagged (thread : tid) (pod : nkpod) :
  no_wake_reason (threads pod thread) ->
  let th := threads (xnpod_resume_thread 0 pod thread) thread in
  is_waiting th = false /\
  xnthread_test_flags th (Z.lor XNTIMEO (Z.lor XNRMID XNBREAK)) = false.
Proof.
  intros (Ht & Hr & Hb). unfold xnpod_resume_thread. cbv zeta.
  rewrite threads_set_thread_same. unfold xnthread_test_flags in *.
  cbn [thread_status]. rewrite setbits_nothing.
  split; [reflexivity|]. now apply testbits_wake_reasons_clear.
Qed.

Lemma resumed_deleted (thread : tid) (pod : nkpod) :
  no_wake_reason (threads pod thread) ->
  let th := threads (xnpod_resume_thread XNRMID pod thread) thread in
  is_waiting th = false /\
  xnthread_test_flags th (Z.lor XNTIMEO (Z.lor XNRMID XNBREAK)) = true /\
  xnthread_test_flags th XNTIMEO = false /\
  xnthread_test_flags th XNRMID = true.
Proof.
  intros (Ht & Hr & Hb). unfold xnpod_resume_thread. cbv zeta.
  rewrite threads_set_thread_same. unfold xnthread_test_flags in *.
  cbn [thread_status].
  rewrite !testbits_lor, testbits_setbits_same, testbits_setbits_other, Ht
    by assumption.
  repeat split.
Qed.

Lemma resumed_broken (thread : tid) (pod : nkpod) :
  is_waiting (threads pod thread) = true ->
  no_wake_reason (threads pod thread) ->
  let th := threads (xnpod_unblock_thread thread pod) thread in
  is_waiting th = false /\
  xnthread_test_flags th (Z.lor XNTIMEO (Z.lor XNRMID XNBREAK)) = true /\
  xnthread_test_flags th XNTIMEO = false /\
  xnthread_test_flags th XNRMID = false.
Proof.
  intros Hw (Ht & Hr & Hb). cbv zeta. rewrite (unblock_waiting_thread _ _ Hw).
  unfold xnthread_test_flags in *. cbn [thread_status].
  rewrite !testbits_lor, testbits_setbits_same, !testbits_setbits_other, Ht, Hr
    by assumption.
  repeat split.
Qed.

Lemma resumed_timed_out (thread : tid) (date : Z) (dt : nat) (pod : nkpod) :
  thread_wait (threads pod thread) = Waiting (Some date) ->
  date <= jiffies pod + Z.of_nat dt ->
  let th := threads (xnpod_announce_tick dt pod) thread in
  is_waiting th = false /\
  xnthread_test_flags th (Z.lor XNTIMEO (Z.lor XNRMID XNBREAK)) = true /\
  xnthread_test_flags th XNTIMEO = true.
Proof.
  intros Hw Hdate. cbv zeta.
  rewrite announce_tick_thread, (timer_due_at _ _ _ Hw).
  replace (date <=? jiffies pod + Z.of_nat dt) with true
    by (symmetry; now apply Z.leb_le).
  unfold xnthread_test_flags. cbn [thread_status].
  rewrite !testbits_lor, testbits_setbits_same by assumption.
  repeat split.
Qed.

(** X6.  A caller suspended in [rtdm_event_timedwait] (live event, nothing
    pending, nobody else waiting, no timeout sequence in force) returns 0
    when the event is signalled or pulsed, and the pending flag is clear
    afterwards; it returns -EIDRM when the event is destroyed, -EINTR when
    it is forcibly unblocked, and -ETIMEDOUT when its timer fires. *)
Theorem rtdm_event_timedwait_resumed :
  forall (thread : tid) (timeout : Z) (timeout_seq : option Z) (s : rtdm_system),
    testbits (status (event_synch_base (sys_event s))) RTDM_SYNCH_DELETED = false ->
    xnsynch_test_flags (event_synch_base (sys_event s)) RTDM_EVENT_PENDING = false ->
    pendq (event_synch_base (sys_event s)) = [] ->
    0 <= timeout ->
    toseq_in_force timeout_seq timeout = None ->
    let wait := rtdm_event_timedwait thread timeout timeout_seq false in
    (exists s', wait [] s = Blocked s' /\
                pendq (event_synch_base (sys_event s')) = [thread]) /\
    (exists s', wait [[op_event_signal]] s = Returned ok s' /\
                xnsynch_test_flags (event_synch_base (sys_event s'))
                                   RTDM_EVENT_PENDING = false) /\
    (exists s', wait [[op_event_pulse]] s = Returned ok s' /\
                xnsynch_test_flags (event_synch_base (sys_event s'))
                                   RTDM_EVENT_PENDING = false) /\
    (exists s', wait [[op_event_destroy]] s = Returned (neg EIDRM) s') /\
    (exists s', wait [[op_task_unblock thread]] s = Returned (neg EINTR) s') /\
    (0 < xnpod_ns2ticks timeout ->
     exists s', wait [[op_announce_tick (Z.to_nat (xnpod_ns2ticks timeout))]] s
                = Returned (neg ETIMEDOUT) s').
Proof.
  intros thread timeout timeout_seq [pod [[st ow q]] sm mx] Hlive Hclear Hq Hnonneg
    Hforce wait.
  cbn [sys_event event_synch_base status pendq] in Hlive, Hclear, Hq. subst q.
  apply Z.ltb_ge in Hnonneg.
  subst wait. unfold rtdm_event_timedwait, rtdm_event_timedwait_entry, xnsynch_sleep_on.
  cbn [sys_event sys_pod event_synch_base status pendq owner].
  rewrite andb_false_r, Hlive, Hclear, Hnonneg, Hforce.
  cbn [app set_event fst snd].
  destruct (suspended_thread thread (xnpod_ns2ticks timeout) pod)
    as (Hw & Ht & Hr & Hb & Htimer).
  pose proof (suspend_thread_jiffies thread (xnpod_ns2ticks timeout) pod) as Hj.
  set (pod1 := xnpod_suspend_thread thread (xnpod_ns2ticks timeout) pod) in *.
  clearbody pod1.
  assert (Hnone : no_wake_reason (threads pod1 thread)) by (repeat split; assumption).
  split; [|split; [|split; [|split; [|split]]]].
  - eexists. split; reflexivity.
  - destruct (resumed_untagged thread pod1 Hnone) as (Hawake & Hflags).
    cbv zeta in Hawake, Hflags.
    rewrite run_one. unfold step, rtdm_event_signal, xnsynch_flush, xnsynch_set_flags,
      caller_waiting, rtdm_event_timedwait_resume, xnpod_schedule.
    cbn [sys_event sys_pod event_synch_base pendq fold_left set_event fst snd threads].
    rewrite Hawake, Hflags. cbn [negb].
    eexists. split; [reflexivity|].
    cbn [set_event sys_event snd event_synch_base]. unfold xnsynch_test_flags,
      xnsynch_clear_flags. cbn [status]. apply testbits_clrbits_same.
  - destruct (resumed_untagged thread pod1 Hnone) as (Hawake & Hflags).
    cbv zeta in Hawake, Hflags.
    rewrite run_one. unfold step, rtdm_event_pulse, _rtdm_synch_flush, xnsynch_flush,
      caller_waiting, rtdm_event_timedwait_resume, xnpod_schedule.
    replace (0 =? XNRMID) with false by (symmetry; apply Z.eqb_neq; congruence).
    cbn [sys_event sys_pod event_synch_base pendq fold_left set_event fst snd threads].
    rewrite Hawake, Hflags. cbn [negb].
    eexists. split; [reflexivity|].
    cbn [set_event sys_event snd event_synch_base]. unfold xnsynch_test_flags,
      xnsynch_clear_flags. cbn [status]. apply testbits_clrbits_same.
  - destruct (resumed_deleted thread pod1 Hnone) as (Hawake & Hflags & Hto & Hrm).
    cbv zeta in Hawake, Hflags, Hto, Hrm.
    rewrite run_one. unfold step, rtdm_event_destroy, _rtdm_synch_flush, xnsynch_flush,
      caller_waiting, rtdm_event_timedwait_resume, xnpod_schedule.
    rewrite Z.eqb_refl.
    cbn [sys_event sys_pod event_synch_base pendq fold_left set_event fst snd threads].
    rewrite Hawake, Hflags, Hto, Hrm. cbn [negb].
    eexists. reflexivity.
  - destruct (resumed_broken thread pod1 Hw Hnone) as (Hawake & Hflags & Hto & Hrm).
    cbv zeta in Hawake, Hflags, Hto, Hrm.
    rewrite run_one. unfold caller_waiting, rtdm_event_timedwait_resume, set_event.
    cbn [sys_pod sys_event sys_sem sys_mutex fst snd].
    rewrite !step_unblock_pod. cbn [sys_pod].
    rewrite Hawake, Hflags, Hto, Hrm. cbn [negb].
    eexists. reflexivity.
  - intros Hticks.
    change (thread_wait (threads pod1 thread)
            = Waiting (timer_for (jiffies pod) (xnpod_ns2ticks timeout))) in Htimer.
    rewrite timer_for_armed in Htimer by lia.
    destruct (resumed_timed_out thread _ (Z.to_nat (xnpod_ns2ticks timeout)) pod1 Htimer)
      as (Hawake & Hflags & Hto).
    { rewrite Hj, Z2Nat.id by lia. lia. }
    cbv zeta in Hawake, Hflags, Hto.
    rewrite run_one. unfold caller_waiting, rtdm_event_timedwait_resume, set_event.
    cbn [sys_pod sys_event sys_sem sys_mutex fst snd].
    rewrite !step_tick_pod. cbn [sys_pod].
    rewrite Hawake, Hflags, Hto. cbn [negb].
    eexists. reflexivity.
Qed.

(** X7.  A caller suspended in [rtdm_sem_timeddown] (live semaphore of value
    0, nobody else waiting, no timeout sequence in force) returns -EIDRM when
    the semaphore is destroyed, -EINTR when it is forcibly unblocked, and
    -ETIMEDOUT when its timer fires; in each case the value is still 0 and
    the wait queue is empty afterwards. *)
Theorem rtdm_sem_timeddown_resumed :
  forall (thread : tid) (timeout : Z) (timeout_seq : option Z) (s : rtdm_system),
    testbits (status (sem_synch_base (sys_sem s))) RTDM_SYNCH_DELETED = false ->
    value (sys_sem s) = 0 ->
    pendq (sem_synch_base (sys_sem s)) = [] ->
    0 <= timeout ->
    toseq_in_force timeout_seq timeout = None ->
    let down := rtdm_sem_timeddown thread timeout timeout_seq false in
    let left_alone s' :=
      value (sys_sem s') = 0 /\ pendq (sem_synch_base (sys_sem s')) = [] in
    (exists s', down [[op_sem_destroy]] s = Returned (neg EIDRM) s' /\ left_alone s') /\
    (exists s', down [[op_task_unblock thread]] s = Returned (neg EINTR) s' /\
                left_alone s') /\
    (0 < xnpod_ns2ticks timeout ->
     exists s', down [[op_announce_tick (Z.to_nat (xnpod_ns2ticks timeout))]] s
                = Returned (neg ETIMEDOUT) s' /\ left_alone s').
Proof.
  intros thread timeout timeout_seq [pod ev [v [st ow q]] mx] Hlive Hzero Hq Hnonneg
    Hforce down left_alone.
  cbn [sys_sem sem_synch_base status pendq value] in Hlive, Hzero, Hq. subst q v.
  apply Z.ltb_ge in Hnonneg.
  subst down left_alone.
  unfold rtdm_sem_timeddown, rtdm_sem_timeddown_entry, xnsynch_sleep_on.
  cbn [sys_sem sys_pod sem_synch_base status pendq owner value].
  rewrite andb_false_r, Hlive, Hnonneg, Hforce.
  cbn [app set_sem fst snd Z.ltb Z.compare].
  destruct (suspended_thread thread (xnpod_ns2ticks timeout) pod)
    as (Hw & Ht & Hr & Hb & Htimer).
  pose proof (suspend_thread_jiffies thread (xnpod_ns2ticks timeout) pod) as Hj.
  set (pod1 := xnpod_suspend_thread thread (xnpod_ns2ticks timeout) pod) in *.
  clearbody pod1.
  assert (Hnone : no_wake_reason (threads pod1 thread)) by (repeat split; assumption).
  split; [|split].
  - destruct (resumed_deleted thread pod1 Hnone) as (Hawake & Hflags & Hto & Hrm).
    cbv zeta in Hawake, Hflags, Hto, Hrm.
    rewrite run_one. unfold step, rtdm_sem_destroy, _rtdm_synch_flush, xnsynch_flush,
      caller_waiting, rtdm_sem_timeddown_resume, xnpod_schedule.
    rewrite Z.eqb_refl.
    cbn [sys_sem sys_pod sem_synch_base pendq fold_left set_sem fst snd threads value].
    rewrite Hawake, Hflags, Hto, Hrm.
    eexists. split; [reflexivity|]. split; reflexivity.
  - destruct (resumed_broken thread pod1 Hw Hnone) as (Hawake & Hflags & Hto & Hrm).
    cbv zeta in Hawake, Hflags, Hto, Hrm.
    rewrite run_one. unfold caller_waiting, rtdm_sem_timeddown_resume, set_sem.
    cbn [sys_pod sys_event sys_sem sys_mutex fst snd].
    rewrite !step_unblock_pod. cbn [sys_pod].
    rewrite Hawake, Hflags, Hto, Hrm.
    eexists. split; [reflexivity|].
    unfold step, forget_sleepers, xnsynch_forget_sleepers.
    cbn [sys_sem sys_pod sem_synch_base pendq value filter].
    rewrite Hawake. split; reflexivity.
  - intros Hticks.
    change (thread_wait (threads pod1 thread)
            = Waiting (timer_for (jiffies pod) (xnpod_ns2ticks timeout))) in Htimer.
    rewrite timer_for_armed in Htimer by lia.
    destruct (resumed_timed_out thread _ (Z.to_nat (xnpod_ns2ticks timeout)) pod1 Htimer)
      as (Hawake & Hflags & Hto).
    { rewrite Hj, Z2Nat.id by lia. lia. }
    cbv zeta in Hawake, Hflags, Hto.
    rewrite run_one. unfold caller_waiting, rtdm_sem_timeddown_resume, set_sem.
    cbn [sys_pod sys_event sys_sem sys_mutex fst snd].
    rewrite !step_tick_pod. cbn [sys_pod].
    rewrite Hawake, Hflags, Hto.
    eexists. split; [reflexivity|].
    unfold step, forget_sleepers, xnsynch_forget_sleepers.
    cbn [sys_sem sys_pod sem_synch_base pendq value filter].
    rewrite Hawake. split; reflexivity.
Qed.

End WaiterOutcomes.

Section Flushing.

Context {nk : Nucleus}.

Lemma land_setbits_same (flags m : Z) : Z.land (setbits flags m) m = m.
Proof.
  unfold setbits. apply Z.bits_inj'. intros n Hn.
  rewrite Z.land_spec, Z.lor_spec.
  destruct (Z.testbit flags n), (Z.testbit m n); reflexivity.
Qed.

(** Resuming the threads of a queue one after the other. *)
Lemma resume_queue (reason : Z) (q : list tid) :
  forall pod,
    let pod' := fold_left (xnpod_resume_thread reason) q pod in
    jiffies pod' = jiffies pod /\
    nresched pod' = nresched pod /\
    (forall t, ~ In t q -> threads pod' t = threads pod t) /\
    (forall t, In t q ->
               thread_wait (threads pod' t) = Ready /\
               Z.land (thread_status (threads pod' t)) reason = reason) /\
    (forall t, thread_wait (threads pod t) = Ready ->
               thread_wait (threads pod' t) = Ready).
Proof.
  induction q as [|t0 q IH]; intros pod; cbn [fold_left]; cbv zeta.
  - repeat split; intros; try tauto; contradiction.
  - specialize (IH (xnpod_resume_thread reason pod t0)). cbv zeta in IH.
    destruct IH as (Hj & Hn & Hout & Hin & Hready).
    set (pod' := fold_left _ q _) in *. clearbody pod'.
    assert (Hhead : thread_wait (threads (xnpod_resume_thread reason pod t0) t0) = Ready /\
                    Z.land (thread_status (threads (xnpod_resume_thread reason pod t0) t0))
                           reason = reason).
    { unfold xnpod_resume_thread. rewrite threads_set_thread_same.
      cbn [thread_wait thread_status]. split; [reflexivity|apply land_setbits_same]. }
    split; [exact Hj|]. split; [exact Hn|]. split; [|split].
    + intros t Ht. rewrite Hout by (intro; apply Ht; now right).
      unfold xnpod_resume_thread. apply threads_set_thread_other.
      intro; apply Ht; now left.
    + intros t [<- | Ht]; [|now apply Hin].
      destruct (in_dec Nat.eq_dec t0 q) as [Hq | Hq]; [now apply Hin|].
      rewrite Hout by exact Hq. exact Hhead.
    + intros t Ht. apply Hready.
      destruct (Nat.eq_dec t t0) as [-> | Hne]; [apply Hhead|].
      unfold xnpod_resume_thread. now rewrite threads_set_thread_other.
Qed.

(** X8.  [_rtdm_synch_flush] resumes every thread of the wait queue, tagged
    with the reason, and leaves the queue empty; threads that were not
    queued are untouched; the scheduler is called exactly when the queue
    was not empty; the owner is kept, and the status word changes only by
    the deleted bit, set exactly when the reason is XNRMID. *)
Theorem _rtdm_synch_flush_wakes_all :
  forall (synch : xnsynch_t) (reason : Z) (pod : nkpod),
    let pod' := fst (_rtdm_synch_flush synch reason pod) in
    let synch' := snd (_rtdm_synch_flush synch reason pod) in
    pendq synch' = [] /\
    owner synch' = owner synch /\
    status synch' = (if reason =? XNRMID
                     then setbits (status synch) RTDM_SYNCH_DELETED
                     else status synch) /\
    (forall t, In t (pendq synch) ->
               is_waiting (threads pod' t) = false /\
               Z.land (thread_status (threads pod' t)) reason = reason) /\
    (forall t, ~ In t (pendq synch) -> threads pod' t = threads pod t) /\
    jiffies pod' = jiffies pod /\
    nresched pod' = (match pendq synch with
                     | [] => nresched pod
                     | _ :: _ => S (nresched pod)
                     end).
Proof.
  intros [st ow q] reason pod. unfold _rtdm_synch_flush, xnsynch_flush.
  cbn [status owner pendq].
  assert (Hq : pendq (if reason =? XNRMID
                      then mk_synch (setbits st RTDM_SYNCH_DELETED) ow q
                      else mk_synch st ow q) = q) by now destruct (reason =? XNRMID).
  rewrite Hq.
  destruct q as [|t0 q].
  - destruct (reason =? XNRMID); cbn [fst snd pendq owner status];
      repeat split; intros; try contradiction.
  - destruct (resume_queue reason (t0 :: q) pod) as (Hj & Hn & Hout & Hin & _).
    cbv zeta in Hj, Hn, Hout, Hin.
    set (pod' := fold_left _ (t0 :: q) pod) in *. clearbody pod'.
    cbn [fst snd pendq owner status]. unfold xnpod_schedule. cbn [threads jiffies nresched].
    split; [reflexivity|]. split; [now destruct (reason =? XNRMID)|].
    split; [now destruct (reason =? XNRMID)|].
    split; [|split; [exact Hout|split; [exact Hj|now rewrite Hn]]].
    intros t Ht. destruct (Hin t Ht) as (Hready & Htag).
    unfold is_waiting. rewrite Hready. split; [reflexivity|exact Htag].
Qed.

End Flushing.

Section EventFlag.

Context {nk : Nucleus}.

Hypothesis pending_set : RTDM_EVENT_PENDING <> 0.
Hypothesis pending_not_deleted : Z.land RTDM_EVENT_PENDING RTDM_SYNCH_DELETED = 0.

Lemma rtdm_event_signal_live (event : rtdm_event_t) (pod : nkpod) :
  testbits (status (event_synch_base event)) RTDM_SYNCH_DELETED = false ->
  testbits (status (event_synch_base (snd (rtdm_event_signal event pod))))
           RTDM_SYNCH_DELETED = false /\
  xnsynch_test_flags (event_synch_base (snd (rtdm_event_signal event pod)))
                     RTDM_EVENT_PENDING = true.
Proof.
  intros Hlive. destruct event as [[st ow q]]. cbn [event_synch_base status] in Hlive.
  unfold rtdm_event_signal, xnsynch_flush, xnsynch_set_flags, xnsynch_test_flags.
  cbn [event_synch_base status owner pendq].
  destruct q; cbn [snd event_synch_base status];
    rewrite testbits_setbits_other, testbits_setbits_same by assumption; now split.
Qed.

Lemma signals_leave_pending (n : nat) :
  forall s,
    testbits (status (event_synch_base (sys_event s))) RTDM_SYNCH_DELETED = false ->
    let s' := run (repeat op_event_signal (S n)) s in
    testbits (status (event_synch_base (sys_event s'))) RTDM_SYNCH_DELETED = false /\
    xnsynch_test_flags (event_synch_base (sys_event s')) RTDM_EVENT_PENDING = true.
Proof.
  induction n as [|n IH]; intros s Hlive; cbv zeta.
  - cbn [repeat]. rewrite run_one. cbn [step set_event sys_event snd].
    now apply rtdm_event_signal_live.
  - change (repeat op_event_signal (S (S n)))
      with ([op_event_signal] ++ repeat op_event_signal (S n)).
    rewrite run_app, run_one. apply IH.
    cbn [step set_event sys_event snd]. now apply rtdm_event_signal_live.
Qed.

(** X9.  The event is a flag, not a counter: however many times a live
    event is signalled in a row, one wait consumes the signal, and the next
    non-blocking wait finds nothing and returns -EWOULDBLOCK. *)
Theorem rtdm_event_signals_do_not_accumulate :
  forall (n : nat) (thread : tid) (timeout : Z) (timeout_seq : option Z)
         (env : list (list rtdm_op)) (s : rtdm_system),
    testbits (status (event_synch_base (sys_event s))) RTDM_SYNCH_DELETED = false ->
    timeout < 0 ->
    exists s1,
      rtdm_event_timedwait thread timeout timeout_seq false env
                           (run (repeat op_event_signal (S n)) s)
      = Returned ok s1 /\
      rtdm_event_timedwait thread timeout timeout_seq false env s1
      = Returned (neg EWOULDBLOCK) s1.
Proof.
  intros n thread timeout timeout_seq env s Hlive Hneg.
  destruct (signals_leave_pending n s Hlive) as (Hlive' & Hpending).
  cbv zeta in Hlive', Hpending.
  set (s' := run _ s) in *. clearbody s'.
  destruct s' as [pod [[st ow q]] sm mx].
  cbn [sys_event event_synch_base status] in Hlive', Hpending.
  unfold xnsynch_test_flags in Hpending. cbn [status] in Hpending.
  apply Z.ltb_lt in Hneg.
  eexists. split.
  - unfold rtdm_event_timedwait, rtdm_event_timedwait_entry, xnsynch_test_flags.
    cbn [sys_event sys_pod event_synch_base status].
    rewrite andb_false_r, Hlive', Hpending. reflexivity.
  - unfold rtdm_event_timedwait, rtdm_event_timedwait_entry, xnsynch_test_flags,
      xnsynch_clear_flags, set_event.
    cbn [sys_event sys_pod event_synch_base status fst snd].
    rewrite andb_false_r, testbits_clrbits_other, Hlive', testbits_clrbits_same, Hneg
      by assumption.
    reflexivity.
Qed.

(** X10.  [rtdm_event_clear] cancels a signal that nobody has consumed: on a
    live event without waiters, signal followed by clear leaves the system
    as clear alone does, and a non-blocking wait then returns -EWOULDBLOCK
    without changing anything. *)
Theorem rtdm_event_clear_cancels_signal :
  forall (thread : tid) (timeout : Z) (timeout_seq : option Z)
         (env : list (list rtdm_op)) (s : rtdm_system),
    testbits (status (event_synch_base (sys_event s))) RTDM_SYNCH_DELETED = false ->
    pendq (event_synch_base (sys_event s)) = [] ->
    timeout < 0 ->
    let s' := run [op_event_signal; op_event_clear] s in
    s' = run [op_event_clear] s /\
    rtdm_event_timedwait thread timeout timeout_seq false env s'
    = Returned (neg EWOULDBLOCK) s'.
Proof.
  intros thread timeout timeout_seq env [pod [[st ow q]] sm mx] Hlive Hq Hneg.
  cbn [sys_event event_synch_base status pendq] in Hlive, Hq. subst q.
  apply Z.ltb_lt in Hneg.
  assert (Hsame : clrbits (setbits st RTDM_EVENT_PENDING) RTDM_EVENT_PENDING
                  = clrbits st RTDM_EVENT_PENDING).
  { unfold clrbits, setbits. apply Z.bits_inj'. intros n Hn.
    rewrite !Z.land_spec, Z.lor_spec, Z.lnot_spec by exact Hn.
    destruct (Z.testbit st n), (Z.testbit RTDM_EVENT_PENDING n); reflexivity. }
  cbv zeta. unfold run. cbn [fold_left]. unfold step, rtdm_event_signal, xnsynch_flush,
    xnsynch_set_flags, rtdm_event_clear, xnsynch_clear_flags, set_event.
  cbn [sys_event sys_pod sys_sem sys_mutex event_synch_base status owner pendq fst snd].
  rewrite Hsame. split; [reflexivity|].
  unfold rtdm_event_timedwait, rtdm_event_timedwait_entry, xnsynch_test_flags, set_event.
  cbn [sys_event sys_pod sys_sem sys_mutex event_synch_base status fst snd].
  rewrite andb_false_r, testbits_clrbits_other, Hlive, testbits_clrbits_same, Hneg
    by assumption.
  reflexivity.
Qed.

End EventFlag.

Section SemaphoreValue.

Context {nk : Nucleus}.

Lemma filter_nonempty {A : Type} (f : A -> bool) (l : list A) :
  filter f l <> [] -> l <> [].
Proof. now destruct l. Qed.

Lemma _rtdm_synch_flush_pendq (synch : xnsynch_t) (reason : Z) (pod : nkpod) :
  pendq (snd (_rtdm_synch_flush synch reason pod)) = [].
Proof.
  destruct synch as [st ow q]. unfold _rtdm_synch_flush, xnsynch_flush.
  destruct (reason =? XNRMID), q; reflexivity.
Qed.

Lemma ulong_range (z : Z) : 0 <= BITS_PER_LONG -> 0 <= ulong z < 2 ^ BITS_PER_LONG.
Proof.
  intros H. unfold ulong, wrap_unsigned. apply Z.mod_pos_bound.
  now apply Z.pow_pos_nonneg.
Qed.

Lemma sem_consistent_word (sem : rtdm_sem_t) : sem_consistent sem -> 0 <= BITS_PER_LONG.
Proof.
  intros ([H0 H1] & _). destruct (Z.le_gt_cases 0 BITS_PER_LONG) as [H | H]; [exact H|].
  rewrite Z.pow_neg_r in H1 by exact H. lia.
Qed.

Lemma rtdm_sem_timeddown_entry_consistent (thread : tid) (sem : rtdm_sem_t)
    (timeout : Z) (timeout_seq : option Z) (unblockable : bool) (pod : nkpod) :
  sem_consistent sem ->
  sem_consistent
    (snd (rtdm_sem_timeddown_entry thread sem timeout timeout_seq unblockable pod)).
Proof.
  intros H. pose proof (sem_consistent_word _ H) as Hword.
  destruct sem as [v [st ow q]]. destruct H as (Hrange & Hzero).
  cbn [value sem_synch_base pendq] in Hrange, Hzero.
  unfold rtdm_sem_timeddown_entry, xnsynch_sleep_on.
  cbn [sem_synch_base status value pendq owner].
  assert (Hsame : sem_consistent (mk_sem v (mk_synch st ow q)))
    by (split; [exact Hrange | exact Hzero]).
  destruct (XENO_DEBUG_RTDM && unblockable); [exact Hsame|].
  destruct (testbits st RTDM_SYNCH_DELETED); [exact Hsame|].
  destruct (0 <? v) eqn:Hv.
  - apply Z.ltb_lt in Hv. split; cbn [snd value sem_synch_base pendq].
    + now apply ulong_range.
    + intros Hne. specialize (Hzero Hne). lia.
  - apply Z.ltb_ge in Hv.
    assert (Hasleep : forall q', sem_consistent (mk_sem v (mk_synch st ow q')))
      by (intros q'; split; [exact Hrange | cbn [value]; lia]).
    destruct (timeout <? 0); [exact Hsame|].
    destruct (toseq_in_force timeout_seq timeout) as [deadline|].
    + destruct (int64_t (deadline - xnpod_get_time pod) <=? 0); [exact Hsame|].
      apply Hasleep.
    + apply Hasleep.
Qed.

Lemma step_keeps_sem_consistent (s : rtdm_system) (o : rtdm_op) :
  sem_consistent (sys_sem s) -> sem_consistent (sys_sem (step s o)).
Proof.
  intros H. pose proof (sem_consistent_word _ H) as Hword.
  pose proof (fun t timeout timeout_seq unblockable =>
                rtdm_sem_timeddown_entry_consistent t (sys_sem s) timeout timeout_seq
                  unblockable (sys_pod s) H) as Hdown.
  destruct s as [pod ev [v [st ow q]] mx].
  pose proof H as (Hrange & Hzero).
  cbn [sys_sem sys_pod value sem_synch_base pendq] in Hrange, Hzero, Hdown.
  assert (Hforget : forall pod',
             sem_consistent (mk_sem v (xnsynch_forget_sleepers pod' (mk_synch st ow q)))).
  { intros pod'. split; [exact Hrange|].
    cbn [value sem_synch_base xnsynch_forget_sleepers pendq].
    intros Hne. apply Hzero. exact (filter_nonempty _ _ Hne). }
  assert (Hflush : forall reason,
             sem_consistent
               (mk_sem v (snd (_rtdm_synch_flush (mk_synch st ow q) reason pod)))).
  { intros reason. split; [exact Hrange|].
    cbn [value sem_synch_base]. now rewrite _rtdm_synch_flush_pendq. }
  destruct o; unfold step; cbn [sys_pod sys_event sys_sem sys_mutex];
    try exact H.
  - apply Hforget.
  - apply Hforget.
  - destruct (_rtdm_synch_flush _ reason pod) as [pod' synch']. exact H.
  - destruct (rtdm_event_timedwait_entry _ _ _ _ _ _) as [[p pod'] ev']. exact H.
  - unfold rtdm_sem_up, xnsynch_wakeup_one_sleeper. cbn [sem_synch_base pendq value].
    destruct q as [|t q]; cbn [set_sem sys_sem snd].
    + split; [now apply ulong_range|]. cbn [sem_synch_base pendq]. congruence.
    + split; [exact Hrange|]. intros _. apply Hzero. discriminate.
  - unfold rtdm_sem_destroy.
    specialize (Hflush XNRMID).
    destruct (_rtdm_synch_flush _ XNRMID pod) as [pod' synch']. exact Hflush.
  - specialize (Hflush reason).
    destruct (_rtdm_synch_flush _ reason pod) as [pod' synch']. exact Hflush.
  - specialize (Hdown t timeout timeout_seq unblockable).
    destruct (rtdm_sem_timeddown_entry _ _ _ _ _ _) as [[p pod'] sem']. exact Hdown.
  - destruct (_rtdm_synch_flush _ reason pod) as [pod' synch']. exact H.
  - destruct (rtdm_mutex_timedlock_entry _ _ _ _ _ _) as [[p pod'] mx']. exact H.
  - destruct (rtdm_mutex_timedlock_resume _ _ _ _ _) as [[p pod'] mx']. exact H.
Qed.

(** X11.  A semaphore never holds units while threads wait on it: if the
    value is within the range of [unsigned long] and is 0 whenever the wait
    queue is not empty, the same is true after any sequence of operations of
    the driver library and of the nucleus, and after any call of
    [rtdm_sem_timeddown], whether it returns or stays blocked. *)
Theorem sem_never_has_units_and_waiters :
  forall (s : rtdm_system),
    sem_consistent (sys_sem s) ->
    (forall ops, sem_consistent (sys_sem (run ops s))) /\
    (forall thread timeout timeout_seq unblockable env,
       match rtdm_sem_timeddown thread timeout timeout_seq unblockable env s with
       | Returned _ s' | Blocked s' => sem_consistent (sys_sem s')
       end).
Proof.
  intros s H.
  assert (Hrun : forall ops s0, sem_consistent (sys_sem s0) ->
                                sem_consistent (sys_sem (run ops s0))).
  { induction ops as [|o ops IH]; intros s0 H0; [exact H0|].
    change (run (o :: ops) s0) with (run ops (step s0 o)).
    apply IH. now apply step_keeps_sem_consistent. }
  split; [intros ops; now apply Hrun|].
  intros thread timeout timeout_seq unblockable env.
  pose proof (rtdm_sem_timeddown_entry_consistent thread (sys_sem s) timeout timeout_seq
                unblockable (sys_pod s) H) as Hentry.
  unfold rtdm_sem_timeddown.
  destruct (rtdm_sem_timeddown_entry _ _ _ _ _ _) as [[[r | ticks timeout'] pod'] sem'];
    cbn [snd] in Hentry.
  - exact Hentry.
  - destruct env as [|others env]; [exact Hentry|]. cbv zeta.
    assert (Hafter : sem_consistent (sys_sem (run others (set_sem s (pod', sem')))))
      by (apply Hrun; exact Hentry).
    destruct (caller_waiting thread _); exact Hafter.
Qed.

(** X12.  [rtdm_sem_up] followed by a call of [rtdm_sem_timeddown] gives the
    system back as it was, with result 0 and whatever the timeout: on a live
    semaphore without waiters whose value is below the largest
    [unsigned long]. *)
Theorem rtdm_sem_up_then_down :
  forall (thread : tid) (timeout : Z) (timeout_seq : option Z)
         (env : list (list rtdm_op)) (s : rtdm_system),
    testbits (status (sem_synch_base (sys_sem s))) RTDM_SYNCH_DELETED = false ->
    pendq (sem_synch_base (sys_sem s)) = [] ->
    0 <= value (sys_sem s) ->
    value (sys_sem s) + 1 < 2 ^ BITS_PER_LONG ->
    rtdm_sem_timeddown thread timeout timeout_seq false env (run [op_sem_up] s)
    = Returned ok s.
Proof.
  intros thread timeout timeout_seq env [pod ev [v [st ow q]] mx] Hlive Hq Hlo Hhi.
  cbn [sys_sem sem_synch_base status pendq value] in Hlive, Hq, Hlo, Hhi. subst q.
  rewrite run_one. unfold step, rtdm_sem_up, xnsynch_wakeup_one_sleeper, set_sem.
  cbn [sys_sem sys_pod sys_event sys_mutex sem_synch_base pendq value fst snd].
  unfold rtdm_sem_timeddown, rtdm_sem_timeddown_entry, set_sem.
  cbn [sys_sem sys_pod sys_event sys_mutex sem_synch_base status value fst snd].
  rewrite andb_false_r, Hlive, (ulong_small (v + 1)) by lia.
  replace (0 <? v + 1) with true by (symmetry; apply Z.ltb_lt; lia).
  replace (v + 1 - 1) with v by lia. rewrite ulong_small by lia. reflexivity.
Qed.

(** X13.  The value of a semaphore wraps: [rtdm_sem_up] on a live semaphore
    without waiters that holds the largest [unsigned long] leaves the value
    0, so that the next non-blocking [rtdm_sem_timeddown] returns
    -EWOULDBLOCK. *)
Theorem rtdm_sem_up_wraps :
  forall (thread : tid) (timeout : Z) (timeout_seq : option Z)
         (env : list (list rtdm_op)) (s : rtdm_system),
    testbits (status (sem_synch_base (sys_sem s))) RTDM_SYNCH_DELETED = false ->
    pendq (sem_synch_base (sys_sem s)) = [] ->
    value (sys_sem s) = 2 ^ BITS_PER_LONG - 1 ->
    timeout < 0 ->
    let s' := run [op_sem_up] s in
    value (sys_sem s') = 0 /\
    rtdm_sem_timeddown thread timeout timeout_seq false env s'
    = Returned (neg EWOULDBLOCK) s'.
Proof.
  intros thread timeout timeout_seq env [pod ev [v [st ow q]] mx] Hlive Hq Hmax Hneg.
  cbn [sys_sem sem_synch_base status pendq value] in Hlive, Hq, Hmax. subst q v.
  apply Z.ltb_lt in Hneg. cbv zeta.
  rewrite run_one. unfold step, rtdm_sem_up, xnsynch_wakeup_one_sleeper, set_sem.
  cbn [sys_sem sys_pod sys_event sys_mutex sem_synch_base pendq value fst snd].
  assert (Hwrap : ulong (2 ^ BITS_PER_LONG - 1 + 1) = 0).
  { unfold ulong, wrap_unsigned. replace (2 ^ BITS_PER_LONG - 1 + 1)
      with (2 ^ BITS_PER_LONG) by lia. apply Z_mod_same_full. }
  rewrite Hwrap. split; [reflexivity|].
  unfold rtdm_sem_timeddown, rtdm_sem_timeddown_entry, set_sem.
  cbn [sys_sem sys_pod sys_event sys_mutex sem_synch_base status value fst snd].
  rewrite andb_false_r, Hlive, Hneg. reflexivity.
Qed.

End SemaphoreValue.

Section MutexOwnership.

Context {nk : Nucleus}.

Hypothesis XNBREAK_nonzero : XNBREAK <> 0.
Hypothesis XNTIMEO_nonzero : XNTIMEO <> 0.

Lemma step_clock_or_break (thread : tid) (s : rtdm_system) (o : rtdm_op) :
  clock_or_break o = true ->
  asleep_or_tagged (threads (sys_pod s) thread) ->
  asleep_or_tagged (threads (sys_pod (step s o)) thread) /\
  sys_mutex (step s o)
  = mk_mutex (xnsynch_forget_sleepers (sys_pod (step s o))
                                      (mutex_synch_base (sys_mutex s))).
Proof.
  intros Ho Hth. destruct o; try discriminate; clear Ho.
  - split; [|reflexivity]. rewrite step_tick_pod, announce_tick_thread.
    destruct (timer_due _ _); [|exact Hth].
    right. unfold xnthread_test_flags. cbn [thread_status].
    now rewrite testbits_lor, testbits_setbits_same.
  - split; [|reflexivity]. rewrite step_unblock_pod. unfold xnpod_unblock_thread.
    destruct (is_waiting (threads (sys_pod s) t)) eqn:Hw; [|exact Hth].
    destruct (Nat.eq_dec thread t) as [-> | Hne].
    + rewrite threads_set_thread_same. right. unfold xnthread_test_flags.
      cbn [thread_status].
      now rewrite !testbits_lor, testbits_setbits_same, !orb_true_r.
    + now rewrite threads_set_thread_other.
Qed.

Lemma run_clock_or_break (thread : tid) (ops : list rtdm_op) :
  forall s,
    forallb clock_or_break ops = true ->
    asleep_or_tagged (threads (sys_pod s) thread) ->
    asleep_or_tagged (threads (sys_pod (run ops s)) thread) /\
    xnsynch_owner (mutex_synch_base (sys_mutex (run ops s)))
    = xnsynch_owner (mutex_synch_base (sys_mutex s)).
Proof.
  induction ops as [|o ops IH]; intros s Hops Hth; [now split|].
  cbn [forallb] in Hops. apply andb_true_iff in Hops as (Ho & Hops).
  change (run (o :: ops) s) with (run ops (step s o)).
  destruct (step_clock_or_break thread s o Ho Hth) as (Hth' & Hmx).
  destruct (IH (step s o) Hops Hth') as (Hth'' & Hown).
  split; [exact Hth''|]. rewrite Hown, Hmx. reflexivity.
Qed.

Lemma rtdm_mutex_timedlock_wait_contended (thread : tid) (o : tid)
    (timeout_seq : option Z) (env : list (list rtdm_op)) :
  forall (timeout : Z) (s : rtdm_system),
    Forall (fun others => forallb clock_or_break others = true) env ->
    xnsynch_owner (mutex_synch_base (sys_mutex s)) = Some o ->
    asleep_or_tagged (threads (sys_pod s) thread) ->
    match rtdm_mutex_timedlock_wait thread timeout timeout_seq env s with
    | Returned r s' =>
        r <> ok /\ xnsynch_owner (mutex_synch_base (sys_mutex s')) = Some o
    | Blocked s' => xnsynch_owner (mutex_synch_base (sys_mutex s')) = Some o
    end.
Proof.
  induction env as [|others env IH]; intros timeout s Henv Hown Hth; [exact Hown|].
  inversion Henv as [|? ? Hothers Henv']; subst.
  rewrite rtdm_mutex_timedlock_wait_cons.
  destruct (run_clock_or_break thread others s Hothers Hth) as (Hth1 & Hown1).
  rewrite Hown in Hown1.
  set (s1 := run others s) in *. clearbody s1.
  unfold caller_waiting. destruct Hth1 as [Hw | Hflags]; [now rewrite Hw|].
  destruct (is_waiting (threads (sys_pod s1) thread)); [exact Hown1|].
  unfold rtdm_mutex_timedlock_resume. rewrite Hflags.
  destruct (xnthread_test_flags _ XNTIMEO); [split; [discriminate | exact Hown1]|].
  destruct (xnthread_test_flags _ XNRMID); [split; [discriminate | exact Hown1]|].
  destruct (rtdm_mutex_timedlock_restart_keeps_owner thread (sys_mutex s1) timeout
              timeout_seq (sys_pod s1)) as (Hown2 & _ & Hcases).
  destruct (rtdm_mutex_timedlock_restart thread (sys_mutex s1) timeout timeout_seq
              (sys_pod s1)) as [[p pod'] mx'].
  cbn [fst snd] in Hown2, Hcases. rewrite Hown1 in Hown2.
  destruct Hcases as [(-> & _ & _) | ((ticks & timeout' & ->) & _ & Hw)].
  - split; [discriminate | exact Hown2].
  - apply IH; [exact Henv' | exact Hown2 | left; exact Hw].
Qed.

(** X14.  [rtdm_mutex_timedlock] never takes a mutex away from its owner:
    on a mutex that is owned, and as long as the owner does not release or
    destroy it, that is while only the clock and forced unblocks act on the
    caller, the call does not return 0, whatever the timeout, the timeout
    sequence and the calling context, and the owner is the same when the
    call returns or stays blocked. *)
Theorem rtdm_mutex_timedlock_never_steals :
  forall (thread o : tid) (timeout : Z) (timeout_seq : option Z)
         (unblockable : bool) (env : list (list rtdm_op)) (s : rtdm_system),
    xnsynch_owner (mutex_synch_base (sys_mutex s)) = Some o ->
    Forall (fun others => forallb clock_or_break others = true) env ->
    match rtdm_mutex_timedlock thread timeout timeout_seq unblockable env s with
    | Returned r s' =>
        r <> ok /\ xnsynch_owner (mutex_synch_base (sys_mutex s')) = Some o
    | Blocked s' => xnsynch_owner (mutex_synch_base (sys_mutex s')) = Some o
    end.
Proof.
  intros thread o timeout timeout_seq unblockable env s Hown Henv.
  unfold rtdm_mutex_timedlock, rtdm_mutex_timedlock_entry.
  destruct (XENO_DEBUG_RTDM && unblockable);
    [split; [discriminate | exact Hown]|].
  destruct (testbits _ RTDM_SYNCH_DELETED); [split; [discriminate | exact Hown]|].
  rewrite Hown.
  destruct (timeout <? 0); [split; [discriminate | exact Hown]|].
  destruct (rtdm_mutex_timedlock_restart_keeps_owner thread (sys_mutex s) timeout
              timeout_seq (sys_pod s)) as (Hown2 & _ & Hcases).
  destruct (rtdm_mutex_timedlock_restart thread (sys_mutex s) timeout timeout_seq
              (sys_pod s)) as [[p pod'] mx'].
  cbn [fst snd] in Hown2, Hcases. rewrite Hown in Hown2.
  destruct Hcases as [(-> & _ & _) | ((ticks & timeout' & ->) & _ & Hw)].
  - split; [discriminate | exact Hown2].
  - apply rtdm_mutex_timedlock_wait_contended;
      [exact Henv | exact Hown2 | left; exact Hw].
Qed.

Hypothesis XNBREAK_XNTIMEO : Z.land XNBREAK XNTIMEO = 0.
Hypothesis XNBREAK_XNRMID : Z.land XNBREAK XNRMID = 0.

Lemma unlock_after_break (thread : tid) (s : rtdm_system) :
  broken_mutex_waiter thread s ->
  broken_mutex_waiter thread (step s op_mutex_unlock) /\
  xnsynch_owner (mutex_synch_base (sys_mutex (step s op_mutex_unlock))) = None.
Proof.
  destruct s as [pod1 ev1 sm1 [[st1 ow1 q1]]]. intros (Hl & Hp & Hr & Hb).
  cbn [sys_mutex sys_pod mutex_synch_base status pendq] in Hl, Hp, Hr, Hb. subst q1.
  unfold step, rtdm_mutex_unlock, xnsynch_wakeup_one_sleeper, xnsynch_set_owner,
    set_mutex.
  cbn [sys_mutex sys_pod sys_event sys_sem mutex_synch_base status pendq owner fst snd].
  split; [|reflexivity]. repeat split; try assumption; apply Hb.
Qed.

(** X15.  A waiter of [rtdm_mutex_timedlock] that is forcibly unblocked
    goes back to sleep without looking at the owner again.  When the owner
    unlocks between the forced unblock and the moment the waiter runs, the
    waiter ends up suspended on a mutex that nobody owns; with a timeout
    that the nucleus takes for infinite, no number of clock ticks wakes
    it. *)
Theorem rtdm_mutex_timedlock_sleeps_on_free_mutex :
  forall (thread : tid) (timeout : Z) (s : rtdm_system),
    testbits (status (mutex_synch_base (sys_mutex s))) RTDM_SYNCH_DELETED = false ->
    xnsynch_owner (mutex_synch_base (sys_mutex s)) <> None ->
    pendq (mutex_synch_base (sys_mutex s)) = [] ->
    0 <= timeout ->
    let lock := rtdm_mutex_timedlock thread timeout None false in
    (exists s',
       lock [[op_task_unblock thread; op_mutex_unlock]] s = Blocked s' /\
       xnsynch_owner (mutex_synch_base (sys_mutex s')) = None /\
       pendq (mutex_synch_base (sys_mutex s')) = [thread] /\
       caller_waiting thread s' = true) /\
    (xnpod_ns2ticks timeout = XN_INFINITE ->
     forall ticks,
     exists s',
       lock [[op_task_unblock thread; op_mutex_unlock]; map op_announce_tick ticks] s
       = Blocked s' /\
       xnsynch_owner (mutex_synch_base (sys_mutex s')) = None /\
       caller_waiting thread s' = true).
Proof.
  intros thread timeout s Hlive Howned Hq Hnonneg lock.
  destruct (rtdm_mutex_timedlock_entry_contended thread timeout None s Hlive Howned Hq
              Hnonneg eq_refl) as (s0 & Hcall & Hsole & _).
  destruct (unblock_sole_waiter XNBREAK_nonzero XNBREAK_XNTIMEO XNBREAK_XNRMID
              thread _ s0 Hsole) as (Hbroken & _ & _).
  destruct (unlock_after_break thread _ Hbroken) as (Hbroken2 & Hfree).
  set (s2 := step (step s0 (op_task_unblock thread)) op_mutex_unlock) in *.
  destruct (broken_waiter_restarts thread timeout None s2 Hbroken2 eq_refl)
    as (Hawake & pod' & mx' & Hresume & Hsole3 & _ & Hown3).
  rewrite Hfree in Hown3.
  assert (Hfirst : forall env,
             lock ([op_task_unblock thread; op_mutex_unlock] :: env) s
             = rtdm_mutex_timedlock_wait thread timeout None env
                                         (set_mutex s2 (pod', mx'))).
  { intros env. subst lock. cbv beta. rewrite Hcall, rtdm_mutex_timedlock_wait_cons.
    change (run [op_task_unblock thread; op_mutex_unlock] s0) with s2.
    rewrite Hawake, Hresume. reflexivity. }
  set (s3 := set_mutex s2 (pod', mx')) in *.
  assert (Hown : xnsynch_owner (mutex_synch_base (sys_mutex s3)) = None) by exact Hown3.
  clearbody s3. clear Hresume Hown3.
  destruct Hsole3 as (_ & Hq3 & Hwait3 & _).
  assert (Hw3 : caller_waiting thread s3 = true)
    by (unfold caller_waiting, is_waiting; now rewrite Hwait3).
  split.
  - exists s3. rewrite Hfirst. repeat split; assumption.
  - intros Hinf ticks. rewrite Hfirst, rtdm_mutex_timedlock_wait_cons.
    rewrite Hinf in Hwait3. cbn [timer_for XN_INFINITE Z.eqb] in Hwait3.
    pose proof (ticks_leave_untimed thread ticks s3 Hwait3) as Hstill.
    assert (Hw4 : caller_waiting thread (run (map op_announce_tick ticks) s3) = true)
      by (unfold caller_waiting, is_waiting; now rewrite Hstill).
    rewrite Hw4. eexists. split; [reflexivity|]. split; [|exact Hw4].
    destruct (run_clock_or_break thread (map op_announce_tick ticks) s3) as (_ & Hkeep).
    + clear. induction ticks; [reflexivity | assumption].
    + left. exact Hw3.
    + now rewrite Hkeep.
Qed.

End MutexOwnership.

Section MmapProperties.

Context {nk : Nucleus} {mm : LinuxMm}.

Variable remap : remap_call -> Z.

Lemma ulong_add_page (a : Z) (i : nat) :
  ulong (ulong (a + Z.of_nat i * PAGE_SIZE) + PAGE_SIZE)
  = ulong (a + Z.of_nat (S i) * PAGE_SIZE).
Proof.
  unfold ulong, wrap_unsigned. rewrite Zplus_mod_idemp_l. f_equal. lia.
Qed.

(** The loop from page [j] on, when the pages up to [j + m] map. *)
Lemma rtdm_mmap_buffer_loop_maps (mmap_data : rtdm_mmap_data) (vma : vm_area_struct)
    (n : nat) :
  0 < PAGE_SIZE ->
  Z.of_nat n * PAGE_SIZE < 2 ^ BITS_PER_LONG ->
  forall (m j : nat) (fuel : nat),
    (j + m = n)%nat ->
    (m < fuel)%nat ->
    (forall i, (j <= i < n)%nat -> remap (page_call mmap_data vma i) = 0) ->
    rtdm_mmap_buffer_loop remap fuel
      (ulong (vm_start vma + Z.of_nat j * PAGE_SIZE))
      (ulong (src_addr mmap_data + Z.of_nat j * PAGE_SIZE))
      (Z.of_nat j * PAGE_SIZE) (Z.of_nat n * PAGE_SIZE)
    = Some (0, map (page_call mmap_data vma) (seq j m)).
Proof.
  intros Hpage Hsize. induction m as [|m IH]; intros j fuel Hj Hfuel Hmaps.
  - destruct fuel as [|fuel]; [lia|]. cbn [rtdm_mmap_buffer_loop seq map].
    replace (Z.of_nat j * PAGE_SIZE <? Z.of_nat n * PAGE_SIZE) with false; [reflexivity|].
    symmetry. apply Z.ltb_ge. replace j with n by lia. lia.
  - destruct fuel as [|fuel]; [lia|]. cbn [rtdm_mmap_buffer_loop seq map].
    replace (Z.of_nat j * PAGE_SIZE <? Z.of_nat n * PAGE_SIZE) with true
      by (symmetry; apply Z.ltb_lt; nia).
    change (xnarch_remap_vm_page (ulong (vm_start vma + Z.of_nat j * PAGE_SIZE))
              (ulong (src_addr mmap_data + Z.of_nat j * PAGE_SIZE)))
      with (page_call mmap_data vma j).
    rewrite (Hmaps j) by lia. cbn [Z.eqb negb].
    rewrite !ulong_add_page.
    replace (Z.of_nat j * PAGE_SIZE + PAGE_SIZE) with (Z.of_nat (S j) * PAGE_SIZE) by lia.
    rewrite (ulong_small (Z.of_nat (S j) * PAGE_SIZE)) by nia.
    rewrite (IH (S j) fuel) by (try lia; intros i Hi; apply Hmaps; lia).
    reflexivity.
Qed.

(** The loop from page [j] on, when page [j + m] is the first that fails. *)
Lemma rtdm_mmap_buffer_loop_fails (mmap_data : rtdm_mmap_data) (vma : vm_area_struct)
    (n k : nat) :
  0 < PAGE_SIZE ->
  Z.of_nat n * PAGE_SIZE < 2 ^ BITS_PER_LONG ->
  (k < n)%nat ->
  remap (page_call mmap_data vma k) <> 0 ->
  forall (m j : nat) (fuel : nat),
    (j + m = k)%nat ->
    (m < fuel)%nat ->
    (forall i, (j <= i < k)%nat -> remap (page_call mmap_data vma i) = 0) ->
    rtdm_mmap_buffer_loop remap fuel
      (ulong (vm_start vma + Z.of_nat j * PAGE_SIZE))
      (ulong (src_addr mmap_data + Z.of_nat j * PAGE_SIZE))
      (Z.of_nat j * PAGE_SIZE) (Z.of_nat n * PAGE_SIZE)
    = Some (- EAGAIN, map (page_call mmap_data vma) (seq j (S m))).
Proof.
  intros Hpage Hsize Hk Hfail. induction m as [|m IH]; intros j fuel Hj Hfuel Hmaps.
  - destruct fuel as [|fuel]; [lia|]. cbn [rtdm_mmap_buffer_loop seq map].
    replace (Z.of_nat j * PAGE_SIZE <? Z.of_nat n * PAGE_SIZE) with true
      by (symmetry; apply Z.ltb_lt; nia).
    change (xnarch_remap_vm_page (ulong (vm_start vma + Z.of_nat j * PAGE_SIZE))
              (ulong (src_addr mmap_data + Z.of_nat j * PAGE_SIZE)))
      with (page_call mmap_data vma j).
    replace j with k in * by lia.
    apply Z.eqb_neq in Hfail. rewrite Hfail. reflexivity.
  - destruct fuel as [|fuel]; [lia|].
    cbn [rtdm_mmap_buffer_loop]. rewrite <- cons_seq. cbn [map].
    replace (Z.of_nat j * PAGE_SIZE <? Z.of_nat n * PAGE_SIZE) with true
      by (symmetry; apply Z.ltb_lt; nia).
    change (xnarch_remap_vm_page (ulong (vm_start vma + Z.of_nat j * PAGE_SIZE))
              (ulong (src_addr mmap_data + Z.of_nat j * PAGE_SIZE)))
      with (page_call mmap_data vma j).
    rewrite (Hmaps j) by lia. cbn [Z.eqb negb].
    rewrite !ulong_add_page.
    replace (Z.of_nat j * PAGE_SIZE + PAGE_SIZE) with (Z.of_nat (S j) * PAGE_SIZE) by lia.
    rewrite (ulong_small (Z.of_nat (S j) * PAGE_SIZE)) by nia.
    rewrite (IH (S j) fuel) by (try lia; intros i Hi; apply Hmaps; lia).
    reflexivity.
Qed.

(** X16.  [rtdm_mmap_buffer] on a source in the vmalloc area maps the range
    page by page, in ascending order: when every page maps it returns 0
    after exactly [size / PAGE_SIZE] calls of [xnarch_remap_vm_page], none
    for an empty range; when a page fails it returns -EAGAIN at once, and
    the pages mapped before it are left mapped.  In both cases the handlers
    and the private data of the caller are installed in the area. *)
Theorem rtdm_mmap_buffer_maps_pages :
  forall (mmap_data : rtdm_mmap_data) (vma : vm_area_struct) (n : nat),
    CONFIG_MMU = true ->
    0 < PAGE_SIZE ->
    VMALLOC_START <= src_addr mmap_data < VMALLOC_END ->
    src_addr mmap_data = PAGE_ALIGN (src_addr mmap_data) ->
    0 <= src_addr mmap_data < 2 ^ BITS_PER_LONG ->
    0 <= vm_start vma < 2 ^ BITS_PER_LONG ->
    ulong (vm_end vma - vm_start vma) = Z.of_nat n * PAGE_SIZE ->
    let vma' := mk_vma (vm_start vma) (vm_end vma) (mmap_vm_ops mmap_data)
                       (mmap_vm_private_data mmap_data) in
    ((forall i, (i < n)%nat -> remap (page_call mmap_data vma i) = 0) ->
     forall fuel, (n < fuel)%nat ->
       rtdm_mmap_buffer remap fuel mmap_data vma
       = (Some (0, map (page_call mmap_data vma) (seq 0 n)), vma')) /\
    (forall k, (k < n)%nat ->
       (forall i, (i < k)%nat -> remap (page_call mmap_data vma i) = 0) ->
       remap (page_call mmap_data vma k) <> 0 ->
       forall fuel, (k < fuel)%nat ->
         rtdm_mmap_buffer remap fuel mmap_data vma
         = (Some (- EAGAIN, map (page_call mmap_data vma) (seq 0 (S k))), vma')).
Proof.
  intros mmap_data vma n Hmmu Hpage Hrange Halign Hsrc Hstart Hsize vma'.
  assert (Hbound : Z.of_nat n * PAGE_SIZE < 2 ^ BITS_PER_LONG).
  { rewrite <- Hsize. unfold ulong, wrap_unsigned. apply Z.mod_pos_bound. lia. }
  assert (Hentry : forall fuel,
             rtdm_mmap_buffer remap fuel mmap_data vma
             = (rtdm_mmap_buffer_loop remap fuel
                  (ulong (vm_start vma + Z.of_nat 0 * PAGE_SIZE))
                  (ulong (src_addr mmap_data + Z.of_nat 0 * PAGE_SIZE))
                  (Z.of_nat 0 * PAGE_SIZE) (Z.of_nat n * PAGE_SIZE), vma')).
  { intros fuel. unfold rtdm_mmap_buffer. cbn [vm_start vm_end].
    rewrite Hmmu, Hsize.
    replace (VMALLOC_START <=? src_addr mmap_data) with true
      by (symmetry; apply Z.leb_le; lia).
    replace (src_addr mmap_data <? VMALLOC_END) with true
      by (symmetry; apply Z.ltb_lt; lia).
    rewrite <- Halign, Z.eqb_refl, Z_mod_mult, Z.eqb_refl.
    cbn [andb negb]. rewrite !andb_false_r.
    cbn [Z.of_nat Z.mul]. rewrite !Z.add_0_r, !ulong_small by assumption.
    reflexivity. }
  split.
  - intros Hmaps fuel Hfuel. rewrite Hentry.
    rewrite (rtdm_mmap_buffer_loop_maps mmap_data vma n Hpage Hbound n 0%nat fuel);
      [reflexivity | lia | exact Hfuel | intros i Hi; apply Hmaps; lia].
  - intros k Hk Hmaps Hfail fuel Hfuel. rewrite Hentry.
    rewrite (rtdm_mmap_buffer_loop_fails mmap_data vma n k Hpage Hbound Hk Hfail k 0%nat
               fuel);
      [reflexivity | lia | exact Hfuel | intros i Hi; apply Hmaps; lia].
Qed.

(** X17.  [rtdm_mmap_buffer] outside the vmalloc area, or without an MMU,
    hands the whole range to [xnarch_remap_io_page_range] in one call, at
    the physical address of the source, and returns what that call
    returns.  With the debug checks compiled in, a source in the vmalloc
    area that is not page aligned, or a length that is not a multiple of
    the page size, is refused with -EINVAL before anything is mapped. *)
Theorem rtdm_mmap_buffer_checks :
  forall (fuel : nat) (mmap_data : rtdm_mmap_data) (vma : vm_area_struct),
    let size := ulong (vm_end vma - vm_start vma) in
    let io := xnarch_remap_io_page_range (vm_start vma)
                (ulong (virt_to_phys (src_addr mmap_data))) size in
    let vmalloc := VMALLOC_START <= src_addr mmap_data < VMALLOC_END in
    (CONFIG_MMU = false \/ ~ vmalloc ->
     fst (rtdm_mmap_buffer remap fuel mmap_data vma) = Some (remap io, [io])) /\
    (CONFIG_MMU = true -> vmalloc -> XENO_DEBUG_RTDM = true ->
     src_addr mmap_data <> PAGE_ALIGN (src_addr mmap_data) \/ size mod PAGE_SIZE <> 0 ->
     fst (rtdm_mmap_buffer remap fuel mmap_data vma) = Some (- EINVAL, [])).
Proof.
  intros fuel mmap_data vma size io vmalloc. subst size io vmalloc.
  unfold rtdm_mmap_buffer. cbn [vm_start vm_end]. split.
  - intros [-> | Hout]; [reflexivity|].
    replace ((VMALLOC_START <=? src_addr mmap_data) && (src_addr mmap_data <? VMALLOC_END))
      with false; [now rewrite andb_false_r|].
    symmetry. apply andb_false_iff.
    destruct (Z.le_gt_cases VMALLOC_START (src_addr mmap_data)) as [Hlo | Hlo].
    + right. apply Z.ltb_ge. lia.
    + left. apply Z.leb_gt. exact Hlo.
  - intros -> (Hlo & Hhi) -> Hbad.
    apply Z.leb_le in Hlo. apply Z.ltb_lt in Hhi. rewrite Hlo, Hhi. cbn [andb].
    destruct (src_addr mmap_data =? PAGE_ALIGN (src_addr mmap_data)) eqn:Ha;
      [|reflexivity].
    apply Z.eqb_eq in Ha. destruct Hbad as [Hbad | Hbad]; [contradiction|].
    apply Z.eqb_neq in Hbad. rewrite Hbad. reflexivity.
Qed.

End MmapProperties.

Section FindFirstSet.

Lemma ffnz_steps (x : Z) :
  ffnz x = if x =? 0 then 0
           else snd (ffnz_step 1 (ffnz_step 2 (ffnz_step 4 (ffnz_step 8
                      (ffnz_step 16 (x, 0)))))).
Proof.
  unfold ffnz. destruct (x =? 0); [reflexivity|].
  change 65535 with (Z.ones 16). change 255 with (Z.ones 8).
  change 15 with (Z.ones 4). change 3 with (Z.ones 2). change 1 with (Z.ones 1) at 1.
  unfold ffnz_step at 5. cbn [fst snd].
  destruct (Z.land x (Z.ones 16) =? 0);
    unfold ffnz_step at 4; cbn [fst snd];
    match goal with |- context [Z.land ?y (Z.ones 8) =? 0] =>
      destruct (Z.land y (Z.ones 8) =? 0) end;
    unfold ffnz_step at 3; cbn [fst snd];
    match goal with |- context [Z.land ?y (Z.ones 4) =? 0] =>
      destruct (Z.land y (Z.ones 4) =? 0) end;
    unfold ffnz_step at 2; cbn [fst snd];
    match goal with |- context [Z.land ?y (Z.ones 2) =? 0] =>
      destruct (Z.land y (Z.ones 2) =? 0) end;
    unfold ffnz_step; cbn [fst snd];
    match goal with |- context [Z.land ?y (Z.ones 1) =? 0] =>
      destruct (Z.land y (Z.ones 1) =? 0) end;
    reflexivity.
Qed.

Lemma land_ones_zero (x k : Z) :
  0 <= k ->
  (Z.land x (Z.ones k) = 0 <-> forall i, 0 <= i < k -> Z.testbit x i = false).
Proof.
  intros Hk. split.
  - intros H i Hi.
    assert (Hbit : Z.testbit (Z.land x (Z.ones k)) i = false)
      by (rewrite H; apply Z.bits_0).
    rewrite Z.land_spec, Z.ones_spec_low, andb_true_r in Hbit by lia. exact Hbit.
  - intros H. apply Z.bits_inj'. intros i Hi. rewrite Z.land_spec, Z.bits_0.
    destruct (Z.lt_ge_cases i k) as [Hlt | Hge].
    + rewrite H by lia. reflexivity.
    + rewrite Z.ones_spec_high by lia. apply andb_false_r.
Qed.

Lemma ffnz_step_narrows (k x r q : Z) :
  0 < k ->
  lowest_set_bit x q ->
  q < 2 * k ->
  exists q',
    lowest_set_bit (fst (ffnz_step k (x, r))) q' /\
    q' < k /\
    snd (ffnz_step k (x, r)) + q' = r + q.
Proof.
  intros Hk (Hq & Hset & Hlow) Hwide. unfold ffnz_step. cbn [fst snd].
  destruct (Z.land x (Z.ones k) =? 0) eqn:Hz.
  - apply Z.eqb_eq in Hz. rewrite land_ones_zero in Hz by lia.
    assert (Hge : k <= q).
    { destruct (Z.lt_ge_cases q k) as [Hlt | Hge]; [|exact Hge].
      rewrite Hz in Hset by lia. discriminate. }
    exists (q - k). cbn [fst snd]. split; [|lia].
    split; [lia|]. split.
    + rewrite Z.shiftr_spec by lia. now replace (q - k + k) with q by lia.
    + intros i Hi. rewrite Z.shiftr_spec by lia. apply Hlow. lia.
  - exists q. cbn [fst snd]. split; [repeat split; assumption|]. split; [|lia].
    destruct (Z.lt_ge_cases q k) as [Hlt | Hge]; [exact Hlt|].
    apply Z.eqb_neq in Hz. exfalso. apply Hz. apply land_ones_zero; [lia|].
    intros i Hi. apply Hlow. lia.
Qed.

Lemma ffnz_finds (x q : Z) : lowest_set_bit x q -> q < 32 -> ffnz x = q.
Proof.
  intros Hlow Hq. rewrite ffnz_steps.
  assert (Hx : x <> 0).
  { intros ->. destruct Hlow as (_ & H & _). rewrite Z.bits_0 in H. discriminate. }
  apply Z.eqb_neq in Hx. rewrite Hx.
  destruct (ffnz_step_narrows 16 x 0 q) as (q1 & H1 & Hq1 & He1); [lia | exact Hlow | lia |].
  destruct (ffnz_step 16 (x, 0)) as [x1 r1]. cbn [fst snd] in H1, He1.
  destruct (ffnz_step_narrows 8 x1 r1 q1) as (q2 & H2 & Hq2 & He2); [lia | exact H1 | lia |].
  destruct (ffnz_step 8 (x1, r1)) as [x2 r2]. cbn [fst snd] in H2, He2.
  destruct (ffnz_step_narrows 4 x2 r2 q2) as (q3 & H3 & Hq3 & He3); [lia | exact H2 | lia |].
  destruct (ffnz_step 4 (x2, r2)) as [x3 r3]. cbn [fst snd] in H3, He3.
  destruct (ffnz_step_narrows 2 x3 r3 q3) as (q4 & H4 & Hq4 & He4); [lia | exact H3 | lia |].
  destruct (ffnz_step 2 (x3, r3)) as [x4 r4]. cbn [fst snd] in H4, He4.
  destruct (ffnz_step_narrows 1 x4 r4 q4) as (q5 & H5 & Hq5 & He5); [lia | exact H4 | lia |].
  destruct (ffnz_step 1 (x4, r4)) as [x5 r5]. cbn [fst snd] in H5, He5 |- *.
  destruct H5 as (H5 & _). lia.
Qed.

Lemma lowest_set_bit_exists (n : nat) :
  forall x, 0 < x < 2 ^ Z.of_nat n -> exists q, lowest_set_bit x q /\ q < Z.of_nat n.
Proof.
  induction n as [|n IH]; intros x Hx.
  - cbn in Hx. lia.
  - destruct (Z.odd x) eqn:Hodd.
    + exists 0. split; [|lia]. split; [lia|]. split; [now rewrite Z.bit0_odd|].
      intros i Hi. lia.
    + assert (Hhalf : 0 < Z.div2 x < 2 ^ Z.of_nat n).
      { rewrite Z.div2_div. rewrite Nat2Z.inj_succ, Z.pow_succ_r in Hx by lia.
        pose proof (Z.div2_odd x) as Hd. rewrite Hodd, Z.div2_div in Hd.
        cbn [Z.b2z] in Hd. split; [|apply Z.div_lt_upper_bound; lia]. lia. }
      destruct (IH _ Hhalf) as (q & (Hq & Hset & Hlow) & Hlt).
      exists (Z.succ q). split; [|lia]. split; [lia|]. split.
      * rewrite <- Z.div2_bits, <- Z.div2_div by lia. exact Hset.
      * intros i Hi. destruct (Z.eq_dec i 0) as [-> | Hne].
        -- now rewrite Z.bit0_odd.
        -- replace i with (Z.succ (i - 1)) by lia.
           rewrite <- Z.div2_bits, <- Z.div2_div by lia. apply Hlow. lia.
Qed.

Lemma lowest_set_bit_below (x q : Z) (n : nat) :
  0 <= x < 2 ^ Z.of_nat n -> lowest_set_bit x q -> q < Z.of_nat n.
Proof.
  intros Hx (Hq & Hset & _).
  destruct (Z.lt_ge_cases q (Z.of_nat n)) as [Hlt | Hge]; [exact Hlt|].
  assert (Hzero : x = 0 \/ 0 < x) by lia.
  destruct Hzero as [-> | Hpos]; [rewrite Z.bits_0 in Hset; discriminate|].
  rewrite Z.bits_above_log2 in Hset; [discriminate | lia |].
  apply Z.lt_le_trans with (Z.of_nat n); [|exact Hge].
  apply Z.log2_lt_pow2; lia.
Qed.

(** X18.  [ffnz] returns the index of the lowest bit set in its argument,
    for every non-zero 32-bit word, and 0 for the word 0. *)
Theorem ffnz_lowest_set_bit :
  forall (x q : Z),
    0 <= x < 2 ^ 32 ->
    (ffnz x = q <-> (x = 0 /\ q = 0) \/ lowest_set_bit x q).
Proof.
  intros x q Hx. split.
  - intros Hf. destruct (Z.eq_dec x 0) as [-> | Hne].
    + left. split; [reflexivity|]. now rewrite <- Hf.
    + right. destruct (lowest_set_bit_exists 32 x) as (q0 & Hlow & Hq0); [lia|].
      rewrite (ffnz_finds x q0 Hlow Hq0) in Hf. now subst q0.
  - intros [(-> & ->) | Hlow]; [reflexivity|].
    apply ffnz_finds; [exact Hlow|].
    exact (lowest_set_bit_below x q 32 Hx Hlow).
Qed.

End FindFirstSet.

Section TimerShot.

Context {hal : X86Hal}.

Lemma low_and_high_byte (delay : Z) :
  uint8_t (Z.land delay 255) + 256 * uint8_t (Z.shiftr delay 8) = delay mod 65536.
Proof.
  unfold uint8_t, wrap_unsigned.
  change 255 with (Z.ones 8). rewrite Z.land_ones, Z.shiftr_div_pow2 by lia.
  change (2 ^ 8) with 256. rewrite Z.mod_mod by lia.
  change 65536 with (256 * 256). rewrite Z.rem_mul_r by lia. reflexivity.
Qed.

(** X19.  [rthal_timer_program_shot] on the 8254 timer writes the delay to
    port 0x40 as two bytes, low byte first, that together hold the delay
    modulo 65536: a delay of 65536 ticks or more is cut to its 16 low bits.
    A delay of 0 writes nothing and triggers the timer interrupt instead.
    Unless the pipeline head optimisation is configured, the function masks
    the interrupts before and restores them after these accesses. *)
Theorem rthal_timer_program_shot_8254 :
  forall (delay : Z),
    CONFIG_X86_LOCAL_APIC = false ->
    let accesses := rthal_timer_program_shot delay in
    let body := filter (fun a => negb (is_irq_bracket a)) accesses in
    (delay <> 0 ->
     exists lo hi,
       body = [outb lo 64; outb hi 64] /\
       0 <= lo < 256 /\ 0 <= hi < 256 /\
       lo + 256 * hi = delay mod 65536) /\
    (delay = 0 -> body = [rthal_trigger_irq RTHAL_8254_IRQ]) /\
    (CONFIG_XENO_OPT_PIPELINE_HEAD = false ->
     accesses = [rthal_local_irq_save_hw] ++ body ++ [rthal_local_irq_restore_hw]) /\
    (CONFIG_XENO_OPT_PIPELINE_HEAD = true -> accesses = body).
Proof.
  intros delay Hapic accesses body. subst body accesses.
  unfold rthal_timer_program_shot. rewrite Hapic.
  assert (Hbyte : forall z, 0 <= uint8_t z < 256)
    by (intros z; unfold uint8_t, wrap_unsigned; apply Z.mod_pos_bound; lia).
  split; [|split; [|split]].
  - intros Hne. apply Z.eqb_neq in Hne. rewrite Hne.
    exists (uint8_t (Z.land delay 255)), (uint8_t (Z.shiftr delay 8)).
    split; [now destruct CONFIG_XENO_OPT_PIPELINE_HEAD|].
    split; [apply Hbyte|]. split; [apply Hbyte|]. apply low_and_high_byte.
  - intros ->. now destruct CONFIG_XENO_OPT_PIPELINE_HEAD.
  - intros ->. now destruct (delay =? 0).
  - intros ->. now destruct (delay =? 0).
Qed.

End TimerShot.

Section WindObjects.

Context {vx : VxWorks}.

(** X20.  A VxWorks object handle resolves only to a live object of the
    kind asked for: after [wind_mark_deleted] the handle resolves to NULL
    for each of the four kinds, while every other handle resolves as
    before; a handle never resolves for two different magic words; and the
    handles 0 and ERROR never resolve. *)
Theorem wind_h2obj_active_live_objects_only :
  forall (mem : wind_memory) (h t m m' : Z),
    (In m [WIND_TASK_MAGIC; WIND_SEM_MAGIC; WIND_WD_MAGIC; WIND_MSGQ_MAGIC] ->
     wind_h2obj_active (wind_mark_deleted mem t) t m = NULL) /\
    (h <> t ->
     wind_h2obj_active (wind_mark_deleted mem t) h m = wind_h2obj_active mem h m) /\
    (wind_h2obj_active mem h m <> NULL ->
     wind_h2obj_active mem h m = h /\ mem h = m /\
     (m' <> m -> wind_h2obj_active mem h m' = NULL)) /\
    wind_h2obj_active mem 0 m = NULL /\
    wind_h2obj_active mem ERROR m = NULL.
Proof.
  intros mem h t m m'. unfold wind_h2obj_active, wind_mark_deleted, NULL.
  split; [|split; [|split; [|split]]].
  - intros Hm. rewrite Z.eqb_refl.
    replace (0 =? m) with false; [now rewrite andb_false_r|].
    symmetry. apply Z.eqb_neq.
    cbn [In] in Hm. unfold WIND_TASK_MAGIC, WIND_SEM_MAGIC, WIND_WD_MAGIC,
      WIND_MSGQ_MAGIC in Hm. lia.
  - intros Hne. apply Z.eqb_neq in Hne. now rewrite Hne.
  - destruct (h =? 0) eqn:H0; [cbn; congruence|].
    destruct (h =? ERROR); [cbn; congruence|].
    destruct (mem h =? m) eqn:Hm; [|cbn; congruence].
    apply Z.eqb_eq in Hm. cbn [negb andb]. intros _.
    split; [reflexivity|]. split; [exact Hm|].
    intros Hne. replace (mem h =? m') with false; [reflexivity|].
    symmetry. apply Z.eqb_neq. congruence.
  - reflexivity.
  - rewrite Z.eqb_refl. cbn [negb]. now rewrite andb_false_r.
Qed.

Lemma taskSafeInner_times (n : nat) (cur : wind_task_t) :
  (forall z, 0 <= z <= Z.of_nat n -> safecnt_t z = z) ->
  safecnt cur = 0 ->
  Nat.iter n taskSafeInner cur = mk_wind_task (Z.of_nat n) (safesync cur).
Proof.
  intros Hfits Hzero. induction n as [|n IH].
  - destruct cur. cbn in *. now subst.
  - change (Nat.iter (S n) taskSafeInner cur)
      with (taskSafeInner (Nat.iter n taskSafeInner cur)).
    rewrite IH by (intros z Hz; apply Hfits; lia).
    unfold taskSafeInner. cbn [safecnt safesync].
    rewrite Hfits by lia. f_equal. lia.
Qed.

Lemma taskUnsafeInner_times_nested (n : nat) :
  forall (k : nat) (synch : xnsynch_t) (pod : nkpod),
    (forall z, 0 <= z <= Z.of_nat (n + S k) -> safecnt_t z = z) ->
    taskUnsafeInner_times n (mk_wind_task (Z.of_nat (n + S k)) synch) pod
    = (repeat OK n, mk_wind_task (Z.of_nat (S k)) synch, pod).
Proof.
  induction n as [|n IH]; intros k synch pod Hfits; [reflexivity|].
  cbn [taskUnsafeInner_times]. unfold taskUnsafeInner. cbn [negb safecnt safesync].
  replace (Z.of_nat (S n + S k) =? 0) with false by (symmetry; apply Z.eqb_neq; lia).
  replace (Z.of_nat (S n + S k) - 1) with (Z.of_nat (n + S k)) by lia.
  rewrite Hfits by lia.
  replace (Z.of_nat (n + S k) =? 0) with false by (symmetry; apply Z.eqb_neq; lia).
  rewrite IH by (intros z Hz; apply Hfits; lia). reflexivity.
Qed.

(** X21.  Task safety nests: after [n + 1] calls of [taskSafeInner] on a
    task that was not safe, the first [n] calls of [taskUnsafeInner] return
    OK and leave the threads waiting on [safesync] suspended; only the last
    one flushes [safesync], returning 1 when threads were waiting and 0 when
    none was; a further call finds the count at 0, returns OK and does not
    decrement it.  Outside the primary domain the call returns ERROR and
    changes nothing. *)
Theorem taskUnsafeInner_nests :
  forall (n : nat) (cur : wind_task_t) (pod : nkpod),
    safecnt cur = 0 ->
    (forall z, 0 <= z <= Z.of_nat (S n) -> safecnt_t z = z) ->
    let safe := Nat.iter (S n) taskSafeInner cur in
    let last := mk_wind_task 1 (safesync cur) in
    let unsafe := mk_wind_task 0 (mk_synch (status (safesync cur))
                                           (owner (safesync cur)) []) in
    safecnt safe = Z.of_nat (S n) /\
    taskUnsafeInner_times n safe pod = (repeat OK n, last, pod) /\
    (pendq (safesync cur) = [] ->
     taskUnsafeInner true last pod = (0, mk_wind_task 0 (safesync cur), pod)) /\
    (pendq (safesync cur) <> [] ->
     taskUnsafeInner true last pod
     = (1, unsafe, fold_left (xnpod_resume_thread 0) (pendq (safesync cur)) pod)) /\
    taskUnsafeInner true unsafe pod = (OK, unsafe, pod) /\
    taskUnsafeInner false safe pod = (ERROR, safe, pod).
Proof.
  intros n cur pod Hzero Hfits safe last unsafe.
  assert (Hsafe : safe = mk_wind_task (Z.of_nat (S n)) (safesync cur))
    by (apply taskSafeInner_times; assumption).
  split; [now rewrite Hsafe|]. split; [|split; [|split; [|split]]].
  - rewrite Hsafe. replace (S n) with (n + 1)%nat by lia.
    apply taskUnsafeInner_times_nested. intros z Hz. apply Hfits. lia.
  - intros Hq. unfold taskUnsafeInner, xnsynch_flush. subst last.
    cbn [negb safecnt safesync]. change (1 =? 0) with false. change (1 - 1) with 0.
    rewrite (Hfits 0) by lia. cbn [Z.eqb]. now rewrite Hq.
  - intros Hq. unfold taskUnsafeInner, xnsynch_flush. subst last unsafe.
    cbn [negb safecnt safesync]. change (1 =? 0) with false. change (1 - 1) with 0.
    rewrite (Hfits 0) by lia. cbn [Z.eqb].
    destruct (pendq (safesync cur)); [contradiction|reflexivity].
  - reflexivity.
  - reflexivity.
Qed.

End WindObjects.

Section DumpText.

Variable a4l_rawtoul : Z -> Z -> Z.

(** The conversion never fails. *)
Hypothesis a4l_rawtoul_succeeds : forall offset cnt, 0 <= a4l_rawtoul offset cnt.

Lemma int32_t_small (z : Z) : - 2 ^ 31 <= z < 2 ^ 31 -> int32_t z = z.
Proof.
  intros H. unfold int32_t, wrap_signed. change (2 ^ (32 - 1)) with (2 ^ 31).
  rewrite Z.mod_small; lia.
Qed.

Lemma chunk_values_seq (width : Z) (j cnt : nat) :
  chunk_values width (Z.of_nat j * width, Z.of_nat cnt)
  = map (fun i => Z.of_nat i * width) (seq j cnt).
Proof.
  unfold chunk_values. cbn [fst snd]. rewrite Nat2Z.id.
  replace (seq j cnt) with (seq (j + 0) cnt) by (now rewrite Nat.add_0_r).
  generalize 0%nat as a.
  induction cnt as [|cnt IH]; intros a; [reflexivity|].
  cbn [seq map]. f_equal; [lia|].
  rewrite IH. now rewrite Nat.add_succ_r.
Qed.

(** The loop on a buffer of [n] whole values, from value [j] on. *)
Lemma dump_text_loop_chunks (width : Z) (n : nat) :
  0 < width ->
  Z.of_nat n * width < 2 ^ 31 ->
  forall (m j fuel : nat) (err : Z),
    (j + m = n)%nat ->
    (m < fuel)%nat ->
    0 <= err ->
    exists err' chunks,
      dump_text_loop a4l_rawtoul fuel width (Z.of_nat n * width) (Z.of_nat j * width) err
      = Some (err', chunks) /\
      0 <= err' /\
      concat (map (chunk_values width) chunks)
      = map (fun i => Z.of_nat i * width) (seq j m) /\
      Forall (fun chunk => 0 < snd chunk <= 64) chunks.
Proof.
  intros Hwidth Hsize m. induction m as [m IH] using lt_wf_ind.
  intros j fuel err Hj Hfuel Herr.
  destruct fuel as [|fuel]; [lia|]. cbn [dump_text_loop].
  replace (Z.of_nat n * width - Z.of_nat j * width) with (Z.of_nat m * width) by nia.
  rewrite int32_t_small by nia.
  destruct m as [|m'].
  - cbn [Z.of_nat Z.mul Z.ltb Z.compare].
    exists err, []. repeat split; [exact Herr | constructor].
  - set (m := S m') in *.
    replace (0 <? Z.of_nat m * width) with true by (symmetry; apply Z.ltb_lt; nia).
    rewrite Z.quot_mul by lia.
    set (cnt := if 64 <? Z.of_nat m then 64%nat else m).
    assert (Hcnt : (if 64 <? Z.of_nat m then 64 else Z.of_nat m) = Z.of_nat cnt)
      by (subst cnt; destruct (64 <? Z.of_nat m); reflexivity).
    assert (Hbound : (0 < cnt <= m)%nat /\ (cnt <= 64)%nat).
    { subst cnt. destruct (64 <? Z.of_nat m) eqn:H64.
      - apply Z.ltb_lt in H64. lia.
      - apply Z.ltb_ge in H64. lia. }
    rewrite Hcnt.
    pose proof (a4l_rawtoul_succeeds (Z.of_nat j * width) (Z.of_nat cnt)) as Hok.
    replace (a4l_rawtoul (Z.of_nat j * width) (Z.of_nat cnt) <? 0) with false
      by (symmetry; apply Z.ltb_ge; exact Hok).
    rewrite (int32_t_small (Z.of_nat cnt * width)) by nia.
    replace (Z.of_nat j * width + Z.of_nat cnt * width)
      with (Z.of_nat (j + cnt) * width) by nia.
    rewrite int32_t_small by nia.
    destruct (IH (m - cnt)%nat ltac:(lia) (j + cnt)%nat fuel
                 (a4l_rawtoul (Z.of_nat j * width) (Z.of_nat cnt))
                 ltac:(lia) ltac:(lia) Hok)
      as (err' & chunks & Hloop & Herr' & Hvalues & Hsizes).
    rewrite Hloop. cbn [option_map fst snd].
    exists err', ((Z.of_nat j * width, Z.of_nat cnt) :: chunks).
    split; [reflexivity|]. split; [exact Herr'|]. split.
    + cbn [map concat]. rewrite Hvalues, chunk_values_seq, <- map_app, <- seq_app.
      do 2 f_equal. lia.
    + constructor; [cbn [snd]; lia | exact Hsizes].
Qed.

(** X22.  [dump_text] on a buffer that holds [n] whole values prints each
    value once, in the order of the buffer, in chunks of at most 64 values,
    and returns a non-negative result: as long as the channel information
    is available and the conversion succeeds. *)
Theorem dump_text_prints_every_value :
  forall (chinfo width : Z) (n fuel : nat),
    0 <= chinfo ->
    0 < width ->
    Z.of_nat n * width < 2 ^ 31 ->
    (n < fuel)%nat ->
    exists err chunks,
      dump_text a4l_rawtoul fuel chinfo width (Z.of_nat n * width) = Some (err, chunks) /\
      0 <= err /\
      concat (map (chunk_values width) chunks)
      = map (fun i => Z.of_nat i * width) (seq 0 n) /\
      Forall (fun chunk => 0 < snd chunk <= 64) chunks.
Proof.
  intros chinfo width n fuel Hchinfo Hwidth Hsize Hfuel. unfold dump_text.
  replace (chinfo <? 0) with false by (symmetry; apply Z.ltb_ge; lia).
  replace (width <? 0) with false by (symmetry; apply Z.ltb_ge; lia).
  exact (dump_text_loop_chunks width n Hwidth Hsize n 0%nat fuel chinfo
           eq_refl Hfuel Hchinfo).
Qed.

Lemma dump_text_loop_spins (width size : Z) :
  0 < width ->
  size < 2 ^ 31 ->
  forall (fuel : nat) (tmp_size err : Z),
    0 <= tmp_size <= size ->
    (size - tmp_size) mod width <> 0 ->
    dump_text_loop a4l_rawtoul fuel width size tmp_size err = None.
Proof.
  intros Hwidth Hsize. induction fuel as [|fuel IH]; intros tmp_size err Htmp Hrest;
    [reflexivity|].
  cbn [dump_text_loop]. rewrite int32_t_small by lia.
  assert (Hleft : 0 < size - tmp_size).
  { destruct (Z.eq_dec (size - tmp_size) 0) as [Hz | Hz]; [|lia].
    rewrite Hz, Z.mod_0_l in Hrest by lia. contradiction. }
  replace (0 <? size - tmp_size) with true by (symmetry; apply Z.ltb_lt; lia).
  rewrite Z.quot_div_nonneg by lia.
  set (tmp_cnt := if 64 <? (size - tmp_size) / width then 64
                  else (size - tmp_size) / width).
  assert (Hcnt : 0 <= tmp_cnt <= (size - tmp_size) / width).
  { subst tmp_cnt. pose proof (Z.div_pos (size - tmp_size) width ltac:(lia) Hwidth).
    destruct (64 <? (size - tmp_size) / width) eqn:H64.
    - apply Z.ltb_lt in H64. lia.
    - lia. }
  assert (Hfit : tmp_cnt * width <= size - tmp_size).
  { pose proof (Z.mul_div_le (size - tmp_size) width Hwidth). nia. }
  replace (a4l_rawtoul tmp_size tmp_cnt <? 0) with false
    by (symmetry; apply Z.ltb_ge; apply a4l_rawtoul_succeeds).
  rewrite (int32_t_small (tmp_cnt * width)) by nia.
  rewrite int32_t_small by nia.
  rewrite IH; [reflexivity | lia |].
  replace (size - (tmp_size + tmp_cnt * width))
    with (size - tmp_size + (- tmp_cnt) * width) by lia.
  now rewrite Z.mod_add by lia.
Qed.

(** X23.  [dump_text] does not end on a buffer whose size is not a multiple
    of the width of a value: once fewer bytes than one value are left, each
    turn of the loop converts 0 values and leaves the offset where it was,
    so that the loop is still running after any number of turns. *)
Theorem dump_text_spins_on_partial_value :
  forall (chinfo width size : Z) (fuel : nat),
    0 <= chinfo ->
    0 < width ->
    0 < size < 2 ^ 31 ->
    size mod width <> 0 ->
    dump_text a4l_rawtoul fuel chinfo width size = None.
Proof.
  intros chinfo width size fuel Hchinfo Hwidth Hsize Hpartial. unfold dump_text.
  replace (chinfo <? 0) with false by (symmetry; apply Z.ltb_ge; lia).
  replace (width <? 0) with false by (symmetry; apply Z.ltb_ge; lia).
  apply dump_text_loop_spins; [exact Hwidth | lia | lia |].
  now rewrite Z.sub_0_r.
Qed.

End DumpText.

Section Deadline.

Context {nk : Nucleus}.

Hypothesis XNTIMEO_nonzero : XNTIMEO <> 0.

Lemma ticks_after_timer (thread : tid) (ticks : list nat) :
  forall s, timer_fired thread s ->
            timer_fired thread (run (map op_announce_tick ticks) s).
Proof.
  induction ticks as [|dt ticks IH]; intros s Hfired; [exact Hfired|].
  cbn [map]. change (run (op_announce_tick dt :: map op_announce_tick ticks) s)
    with (run (map op_announce_tick ticks) (step s (op_announce_tick dt))).
  apply IH. destruct Hfired as (Hawake & Hflag). unfold timer_fired.
  rewrite step_tick_pod, announce_tick_thread.
  replace (timer_due _ (threads (sys_pod s) thread)) with false; [now split|].
  unfold timer_due. unfold is_waiting in Hawake.
  now destruct (thread_wait (threads (sys_pod s) thread)).
Qed.

Lemma ticks_advance_clock (ticks : list nat) :
  forall s,
    jiffies (sys_pod (run (map op_announce_tick ticks) s))
    = jiffies (sys_pod s) + Z.of_nat (fold_right Nat.add 0%nat ticks).
Proof.
  induction ticks as [|dt ticks IH]; intros s; [cbn; lia|].
  cbn [map fold_right].
  change (run (op_announce_tick dt :: map op_announce_tick ticks) s)
    with (run (map op_announce_tick ticks) (step s (op_announce_tick dt))).
  rewrite IH, step_tick_pod, announce_tick_jiffies. lia.
Qed.

(** A thread suspended until [date] sleeps through the clock ticks before
    [date] and is resumed with XNTIMEO by the tick that reaches it. *)
Lemma ticks_until_timer (thread : tid) (date : Z) (ticks : list nat) :
  forall s,
    timer_armed thread date s ->
    let s' := run (map op_announce_tick ticks) s in
    let elapsed := Z.of_nat (fold_right Nat.add 0%nat ticks) in
    (jiffies (sys_pod s) + elapsed < date -> timer_armed thread date s') /\
    (date <= jiffies (sys_pod s) + elapsed -> timer_fired thread s').
Proof.
  induction ticks as [|dt ticks IH]; intros s Harmed; cbv zeta.
  - cbn [map fold_right]. change (run [] s) with s. destruct Harmed as (Hw & Hdate).
    split; [intros _; now split|]. cbn [Z.of_nat]. lia.
  - cbn [map fold_right].
    change (run (op_announce_tick dt :: map op_announce_tick ticks) s)
      with (run (map op_announce_tick ticks) (step s (op_announce_tick dt))).
    set (s1 := step s (op_announce_tick dt)).
    assert (Hj : jiffies (sys_pod s1) = jiffies (sys_pod s) + Z.of_nat dt)
      by (subst s1; now rewrite step_tick_pod, announce_tick_jiffies).
    destruct Harmed as (Hw & Hdate).
    assert (Hthread : threads (sys_pod s1) thread
                      = if date <=? jiffies (sys_pod s) + Z.of_nat dt
                        then mk_thread (setbits (thread_status (threads (sys_pod s) thread))
                                                XNTIMEO) Ready
                        else threads (sys_pod s) thread).
    { subst s1. rewrite step_tick_pod, announce_tick_thread.
      now rewrite (timer_due_at _ _ _ Hw). }
    destruct (date <=? jiffies (sys_pod s) + Z.of_nat dt) eqn:Hdue.
    + apply Z.leb_le in Hdue.
      assert (Hfired : timer_fired thread s1).
      { unfold timer_fired, xnthread_test_flags. rewrite Hthread.
        split; [reflexivity|]. cbn [thread_status]. now apply testbits_setbits_same. }
      split; [lia|]. intros _. now apply ticks_after_timer.
    + apply Z.leb_gt in Hdue.
      assert (Harmed1 : timer_armed thread date s1).
      { unfold timer_armed. rewrite Hthread, Hj. split; [exact Hw | lia]. }
      destruct (IH s1 Harmed1) as (Hbefore & Hafter). cbv zeta in Hbefore, Hafter.
      rewrite Hj in Hbefore, Hafter. rewrite Nat2Z.inj_add.
      split; intros H; [apply Hbefore | apply Hafter]; lia.
Qed.

(** X24.  With a timeout sequence, [rtdm_event_timedwait] waits until the
    deadline of the sequence and no longer, whatever positive timeout it is
    given: on a live event that is not signalled, the caller is still
    suspended while the clock is before the deadline, and the call returns
    -ETIMEDOUT once the clock has reached it. *)
Theorem rtdm_event_timedwait_until_deadline :
  forall (thread : tid) (timeout deadline : Z) (ticks : list nat) (s : rtdm_system),
    testbits (status (event_synch_base (sys_event s))) RTDM_SYNCH_DELETED = false ->
    xnsynch_test_flags (event_synch_base (sys_event s)) RTDM_EVENT_PENDING = false ->
    0 < timeout ->
    0 < deadline - xnpod_get_time (sys_pod s) < 2 ^ 63 ->
    let wait := rtdm_event_timedwait thread timeout (Some deadline) false
                                     [map op_announce_tick ticks] in
    let now := xnpod_get_time (sys_pod s)
               + Z.of_nat (fold_right Nat.add 0%nat ticks) in
    (now < deadline ->
     exists s', wait s = Blocked s' /\ xnpod_get_time (sys_pod s') = now) /\
    (deadline <= now -> exists s', wait s = Returned (neg ETIMEDOUT) s').
Proof.
  intros thread timeout deadline ticks [pod [[st ow q]] sm mx] Hlive Hclear Hpos Hleft.
  cbn [sys_event sys_pod event_synch_base status] in Hlive, Hclear, Hleft.
  cbv zeta. unfold rtdm_event_timedwait, rtdm_event_timedwait_entry, xnsynch_sleep_on,
    toseq_in_force.
  cbn [sys_event sys_pod event_synch_base status pendq owner].
  rewrite andb_false_r, Hlive, Hclear.
  replace (timeout <? 0) with false by (symmetry; apply Z.ltb_ge; lia).
  replace (0 <? timeout) with true by (symmetry; apply Z.ltb_lt; lia).
  rewrite int64_t_small by (unfold xnpod_get_time in *; lia).
  replace (deadline - xnpod_get_time pod <=? 0) with false
    by (symmetry; apply Z.leb_gt; lia).
  unfold set_event. cbn [fst snd sys_sem sys_mutex].
  destruct (suspended_thread thread (deadline - xnpod_get_time pod) pod)
    as (_ & _ & _ & _ & Htimer).
  pose proof (suspend_thread_jiffies thread (deadline - xnpod_get_time pod) pod) as Hj.
  set (pod1 := xnpod_suspend_thread thread (deadline - xnpod_get_time pod) pod) in *.
  clearbody pod1. unfold xnpod_get_time in *.
  replace (deadline - jiffies pod =? XN_INFINITE) with false in Htimer
    by (symmetry; apply Z.eqb_neq; unfold XN_INFINITE; lia).
  replace (jiffies pod + (deadline - jiffies pod)) with deadline in Htimer by lia.
  set (s1 := mk_system pod1 (mk_event (mk_synch st ow (q ++ [thread]))) sm mx).
  assert (Harmed : timer_armed thread deadline s1)
    by (split; [exact Htimer | cbn [s1 sys_pod]; lia]).
  destruct (ticks_until_timer thread deadline ticks s1 Harmed) as (Hbefore & Hafter).
  cbv zeta in Hbefore, Hafter. cbn [s1 sys_pod] in Hbefore, Hafter.
  rewrite Hj in Hbefore, Hafter. fold s1 in Hbefore, Hafter.
  split.
  - intros Hnow. destruct (Hbefore Hnow) as (Hw & _).
    unfold caller_waiting, is_waiting. rewrite Hw.
    eexists. split; [reflexivity|].
    rewrite ticks_advance_clock. cbn [s1 sys_pod]. now rewrite Hj.
  - intros Hnow. destruct (Hafter Hnow) as (Hawake & Hflag).
    unfold caller_waiting. rewrite Hawake.
    unfold rtdm_event_timedwait_resume. unfold xnthread_test_flags in *.
    rewrite testbits_lor, Hflag. cbn [orb negb]. eexists. reflexivity.
Qed.

End Deadline.

(** * The further properties on the sample configurations *)

Section FurtherSamples.

#[local] Existing Instance sample_nucleus.
#[local] Existing Instance sample_linux_mm.
#[local] Existing Instance sample_x86_hal.
#[local] Existing Instance sample_vxworks.

Ltac evaluated := vm_compute; first [reflexivity | discriminate | intro; discriminate].

Ltac in_range := split; evaluated.

(** Discharge the leading hypotheses of [H] by evaluation. *)
Ltac at_sample H := repeat (lapply H; [clear H; intro H | first [evaluated | in_range]]).

Lemma rtdm_task_sleep_outcomes_witness :
  exists s',
    rtdm_task_sleep 1%nat 50 false [[op_task_unblock 1%nat]] idle_system
    = Returned (neg EINTR) s'.
Proof.
  pose proof (rtdm_task_sleep_outcomes 1%nat 50 idle_system) as H. at_sample H.
  cbv zeta in H. destruct H as (_ & _ & H & _). exact H.
Defined.

Lemma rtdm_task_sleep_zero_ticks_witness :
  exists s',
    rtdm_task_sleep 1%nat 0 false [map op_announce_tick [3; 4]%nat] idle_system
    = Blocked s' /\
    caller_waiting 1%nat s' = true /\
    xnpod_get_time (sys_pod s') = xnpod_get_time (sys_pod idle_system) + 7.
Proof.
  exact (rtdm_task_sleep_zero_ticks 1%nat 0 [3; 4]%nat idle_system eq_refl).
Defined.

Lemma rtdm_task_join_nrt_polls_witness :
  rtdm_task_join_nrt 4096 1%nat 10 true idle_pod [idle_pod; zombie_pod]
  = Some [10; 10].
Proof.
  apply (proj1 (rtdm_task_join_nrt_polls 4096 1%nat 10 idle_pod [idle_pod; zombie_pod])).
  exists 2%nat. split; [reflexivity|]. split; [apply le_n|]. split; [reflexivity|].
  intros [|[|i]] Hi; [reflexivity | reflexivity | lia].
Defined.

Lemma rtdm_task_busy_sleep_spins_witness :
  rtdm_task_busy_sleep (fun ns => 2 * ns) 5 [100; 103; 109; 111; 120]
  = Some (2%nat, 111) /\
  2 * 5 <= 111 - 100.
Proof.
  split; [reflexivity|].
  apply (proj2 (rtdm_task_busy_sleep_spins (fun ns => 2 * ns) 5 100
                  [103; 109; 111; 120] 2%nat 111)); [reflexivity | in_range].
Defined.

Lemma rtdm_task_busy_sleep_wraps_witness :
  rtdm_task_busy_sleep (fun ns => ns) 10 [2 ^ 64 - 5; 2 ^ 64 - 4; 2 ^ 64 - 3]
  = Some (0%nat, 2 ^ 64 - 4).
Proof.
  apply (rtdm_task_busy_sleep_wraps (fun ns => ns) 10 (2 ^ 64 - 5) (2 ^ 64 - 4)
           [2 ^ 64 - 3]); first [in_range | evaluated].
Defined.

Lemma rtdm_event_timedwait_resumed_witness :
  exists s',
    rtdm_event_timedwait 1%nat 30 None false [[op_event_destroy]] idle_system
    = Returned (neg EIDRM) s'.
Proof.
  pose proof (rtdm_event_timedwait_resumed) as H. at_sample H.
  specialize (H 1%nat 30 None idle_system). at_sample H.
  cbv zeta in H. destruct H as (_ & _ & _ & H & _). exact H.
Defined.

Lemma rtdm_sem_timeddown_resumed_witness :
  exists s',
    rtdm_sem_timeddown 1%nat 30 None false [[op_task_unblock 1%nat]] empty_sem_system
    = Returned (neg EINTR) s' /\
    value (sys_sem s') = 0 /\ pendq (sem_synch_base (sys_sem s')) = [].
Proof.
  pose proof (rtdm_sem_timeddown_resumed) as H. at_sample H.
  specialize (H 1%nat 30 None empty_sem_system). at_sample H.
  cbv zeta in H. destruct H as (_ & H & _). exact H.
Defined.

Lemma _rtdm_synch_flush_wakes_all_witness :
  is_waiting
    (threads (fst (_rtdm_synch_flush (mk_synch 0 None [1; 2]%nat) XNRMID
                     (xnpod_suspend_thread 2%nat 0
                        (xnpod_suspend_thread 1%nat 0 idle_pod)))) 2%nat)
  = false.
Proof.
  pose proof (_rtdm_synch_flush_wakes_all (mk_synch 0 None [1; 2]%nat) XNRMID
                (xnpod_suspend_thread 2%nat 0 (xnpod_suspend_thread 1%nat 0 idle_pod)))
    as H.
  cbv zeta in H. destruct H as (_ & _ & _ & H & _).
  apply (H 2%nat). right. left. reflexivity.
Defined.

Lemma rtdm_event_signals_do_not_accumulate_witness :
  exists s1,
    rtdm_event_timedwait 1%nat (-1) None false []
                         (run (repeat op_event_signal 3) idle_system)
    = Returned ok s1 /\
    rtdm_event_timedwait 1%nat (-1) None false [] s1 = Returned (neg EWOULDBLOCK) s1.
Proof.
  pose proof (rtdm_event_signals_do_not_accumulate) as H. at_sample H.
  specialize (H 2%nat 1%nat (-1) None [] idle_system). at_sample H. exact H.
Defined.

Lemma rtdm_event_clear_cancels_signal_witness :
  run [op_event_signal; op_event_clear] idle_system = run [op_event_clear] idle_system /\
  rtdm_event_timedwait 1%nat (-1) None false []
                       (run [op_event_signal; op_event_clear] idle_system)
  = Returned (neg EWOULDBLOCK) (run [op_event_signal; op_event_clear] idle_system).
Proof.
  pose proof (rtdm_event_clear_cancels_signal) as H. at_sample H.
  specialize (H 1%nat (-1) None [] idle_system). at_sample H. exact H.
Defined.

Lemma sem_never_has_units_and_waiters_witness :
  pendq (sem_synch_base (sys_sem waiting_sem_system)) = [1%nat] /\
  (let s' := run [op_sem_timeddown 2%nat 0 None false; op_sem_up] waiting_sem_system in
   pendq (sem_synch_base (sys_sem s')) = [2%nat] /\ sem_consistent (sys_sem s')) /\
  (let s' := run [op_sem_timeddown 2%nat 0 None false; op_sem_up; op_sem_up; op_sem_up]
                 waiting_sem_system in
   pendq (sem_synch_base (sys_sem s')) = [] /\ value (sys_sem s') = 1 /\
   sem_consistent (sys_sem s')) /\
  match rtdm_sem_timeddown 2%nat 0 None false [[op_sem_up]] waiting_sem_system with
  | Returned _ s' => False
  | Blocked s' =>
      pendq (sem_synch_base (sys_sem s')) = [2%nat] /\ sem_consistent (sys_sem s')
  end.
Proof.
  pose proof (sem_never_has_units_and_waiters waiting_sem_system) as H.
  lapply H; [clear H; intro H | split; [in_range | intros _; reflexivity]].
  destruct H as (Hrun & Hcall).
  split; [reflexivity|]. split; [|split].
  - split; [reflexivity | apply Hrun].
  - split; [reflexivity|]. split; [reflexivity | apply Hrun].
  - specialize (Hcall 2%nat 0 None false [[op_sem_up]]).
    change (rtdm_sem_timeddown 2%nat 0 None false [[op_sem_up]] waiting_sem_system)
      with (Blocked (run [op_sem_up]
                         (run [op_sem_timeddown 2%nat 0 None false] waiting_sem_system)))
      in Hcall |- *.
    split; [reflexivity | exact Hcall].
Defined.

Lemma rtdm_sem_up_then_down_witness :
  rtdm_sem_timeddown 1%nat 5 None false [] (run [op_sem_up] idle_system)
  = Returned ok idle_system.
Proof.
  apply (rtdm_sem_up_then_down 1%nat 5 None [] idle_system); evaluated.
Defined.

Lemma rtdm_sem_up_wraps_witness :
  value (sys_sem (run [op_sem_up] (with_sem_value (2 ^ 64 - 1) idle_system))) = 0 /\
  rtdm_sem_timeddown 1%nat (-1) None false []
                     (run [op_sem_up] (with_sem_value (2 ^ 64 - 1) idle_system))
  = Returned (neg EWOULDBLOCK)
             (run [op_sem_up] (with_sem_value (2 ^ 64 - 1) idle_system)).
Proof.
  apply (rtdm_sem_up_wraps 1%nat (-1) None [] (with_sem_value (2 ^ 64 - 1) idle_system));
    evaluated.
Defined.

Lemma rtdm_mutex_timedlock_never_steals_witness :
  match rtdm_mutex_timedlock 1%nat 30 None false
          [[op_announce_tick 10; op_task_unblock 1%nat]; [op_announce_tick 40]]
          contended_system with
  | Returned r s' =>
      r <> ok /\ xnsynch_owner (mutex_synch_base (sys_mutex s')) = Some 7%nat
  | Blocked s' => xnsynch_owner (mutex_synch_base (sys_mutex s')) = Some 7%nat
  end.
Proof.
  pose proof (rtdm_mutex_timedlock_never_steals) as H. at_sample H.
  apply (H 1%nat 7%nat 30 None false
           [[op_announce_tick 10; op_task_unblock 1%nat]; [op_announce_tick 40]]
           contended_system eq_refl).
  repeat constructor.
Defined.

Lemma rtdm_mutex_timedlock_sleeps_on_free_mutex_witness :
  exists s',
    rtdm_mutex_timedlock 1%nat 30 None false
                         [[op_task_unblock 1%nat; op_mutex_unlock]] contended_system
    = Blocked s' /\
    xnsynch_owner (mutex_synch_base (sys_mutex s')) = None /\
    pendq (mutex_synch_base (sys_mutex s')) = [1%nat] /\
    caller_waiting 1%nat s' = true.
Proof.
  pose proof (rtdm_mutex_timedlock_sleeps_on_free_mutex) as H. at_sample H.
  specialize (H 1%nat 30 contended_system). at_sample H.
  cbv zeta in H. destruct H as (H & _). exact H.
Defined.

Lemma rtdm_mmap_buffer_maps_pages_witness :
  rtdm_mmap_buffer remap_succeeds 4 sample_mmap_data sample_vma
  = (Some (0, map (page_call sample_mmap_data sample_vma) (seq 0 3)),
     mk_vma 65536 77824 7 9) /\
  rtdm_mmap_buffer remap_fails_second 4 sample_mmap_data sample_vma
  = (Some (- EAGAIN, map (page_call sample_mmap_data sample_vma) (seq 0 2)),
     mk_vma 65536 77824 7 9).
Proof.
  split.
  - pose proof (rtdm_mmap_buffer_maps_pages remap_succeeds sample_mmap_data sample_vma
                  3%nat) as H.
    at_sample H. cbv zeta in H. destruct H as (H & _).
    apply H; [intros i _; reflexivity | repeat constructor].
  - pose proof (rtdm_mmap_buffer_maps_pages remap_fails_second sample_mmap_data sample_vma
                  3%nat) as H.
    at_sample H. cbv zeta in H. destruct H as (_ & H).
    apply (H 1%nat); [repeat constructor | | evaluated | repeat constructor].
    intros [|i] Hi; [reflexivity | lia].
Defined.

Lemma rtdm_mmap_buffer_checks_witness :
  fst (rtdm_mmap_buffer remap_succeeds 0 lowmem_mmap_data sample_vma)
  = Some (0, [xnarch_remap_io_page_range 65536 65536 12288]) /\
  fst (rtdm_mmap_buffer remap_succeeds 4 unaligned_mmap_data sample_vma)
  = Some (- 22, []).
Proof.
  pose proof (rtdm_mmap_buffer_checks remap_succeeds 0 lowmem_mmap_data sample_vma)
    as (Hio & _).
  pose proof (rtdm_mmap_buffer_checks remap_succeeds 4 unaligned_mmap_data sample_vma)
    as (_ & Hcheck).
  split.
  - rewrite Hio; [evaluated|]. right. intros (Hlow & _). apply Hlow. reflexivity.
  - rewrite Hcheck; [reflexivity | reflexivity | in_range | reflexivity |].
    left. evaluated.
Defined.

Lemma ffnz_lowest_set_bit_witness : lowest_set_bit 40 3.
Proof.
  destruct (proj1 (ffnz_lowest_set_bit 40 3 ltac:(in_range)) eq_refl) as [(H & _) | H];
    [discriminate H | exact H].
Defined.

Lemma rthal_timer_program_shot_8254_witness :
  exists lo hi,
    filter (fun a => negb (is_irq_bracket a)) (rthal_timer_program_shot 70000)
    = [outb lo 64; outb hi 64] /\
    0 <= lo < 256 /\ 0 <= hi < 256 /\
    lo + 256 * hi = 70000 mod 65536.
Proof.
  apply (proj1 (@rthal_timer_program_shot_8254 sample_x86_hal 70000 eq_refl)).
  discriminate.
Defined.

Lemma wind_h2obj_active_live_objects_only_witness :
  wind_h2obj_active sample_memory 4096 WIND_SEM_MAGIC = 4096 /\
  wind_h2obj_active (wind_mark_deleted sample_memory 4096) 4096 WIND_SEM_MAGIC = NULL.
Proof.
  pose proof (wind_h2obj_active_live_objects_only sample_memory 4096 4096
                WIND_SEM_MAGIC WIND_TASK_MAGIC) as (Hdeleted & _ & Hlive & _).
  split.
  - apply Hlive. evaluated.
  - apply Hdeleted. right. left. reflexivity.
Defined.

Lemma taskUnsafeInner_nests_witness :
  taskUnsafeInner_times 2 (Nat.iter 3 taskSafeInner (mk_wind_task 0 idle_synch)) idle_pod
  = ([OK; OK], mk_wind_task 1 idle_synch, idle_pod) /\
  taskUnsafeInner true (mk_wind_task 1 idle_synch) idle_pod
  = (0, mk_wind_task 0 idle_synch, idle_pod).
Proof.
  pose proof (@taskUnsafeInner_nests sample_vxworks 2 (mk_wind_task 0 idle_synch)
                idle_pod eq_refl) as H.
  lapply H; [clear H; intro H|].
  - cbv zeta in H. destruct H as (_ & Htimes & Hlast & _).
    split; [exact Htimes | exact (Hlast eq_refl)].
  - intros z Hz.
    assert (Hcases : z = 0 \/ z = 1 \/ z = 2 \/ z = 3) by lia.
    destruct Hcases as [-> | [-> | [-> | ->]]]; reflexivity.
Defined.

Lemma dump_text_prints_every_value_witness :
  exists err chunks,
    dump_text (fun _ _ => 0) 200 0 2 (Z.of_nat 100 * 2) = Some (err, chunks) /\
    0 <= err /\
    concat (map (chunk_values 2) chunks) = map (fun i => Z.of_nat i * 2) (seq 0 100) /\
    Forall (fun chunk => 0 < snd chunk <= 64) chunks.
Proof.
  apply (dump_text_prints_every_value (fun _ _ => 0)).
  - intros offset cnt. evaluated.
  - evaluated.
  - evaluated.
  - evaluated.
  - apply Nat.ltb_lt. reflexivity.
Defined.

Lemma dump_text_spins_on_partial_value_witness :
  dump_text (fun _ _ => 0) 1000 0 2 5 = None.
Proof.
  apply (dump_text_spins_on_partial_value (fun _ _ => 0)).
  - intros offset cnt. evaluated.
  - evaluated.
  - evaluated.
  - in_range.
  - evaluated.
Defined.

Lemma rtdm_event_timedwait_until_deadline_witness :
  exists s',
    rtdm_event_timedwait 1%nat 5 (Some 130) false [map op_announce_tick [10; 25]%nat]
                         idle_system
    = Returned (neg ETIMEDOUT) s'.
Proof.
  pose proof (rtdm_event_timedwait_until_deadline) as H. at_sample H.
  specialize (H 1%nat 5 130 [10; 25]%nat idle_system). at_sample H.
  cbv zeta in H. destruct H as (_ & H). apply H. evaluated.
Defined.

End FurtherSamples.
